(** * Record extraction for the DILA open-data corpora

    A shallow embedding of the five scraper scripts (CAPP.py, CASS.py,
    INCA.py, JADE.py, CNIL.py): the text normalizer [clean_text], the field
    extractor [get_element_text], the per-corpus document parsers and the
    batching loop of [main], followed by the properties of the specification
    that concern them. *)

From Stdlib Require Import String Ascii List NArith Bool Arith Lia.
Import ListNotations.

(** ** Python strings

    A Python [str] is a sequence of Unicode code points.  Text coming out of
    the XML documents is kept as a list of code points, so that the
    whitespace class of [re] and [str.strip] is the Unicode one.  Tag names,
    attribute names and dictionary keys only ever get compared with
    literals of the scripts; they are kept as [string]. *)

Definition pystr := list N.

Definition lit (s : string) : pystr := map N_of_ascii (list_ascii_of_string s).

Definition pystr_eqb (a b : pystr) : bool :=
  if list_eq_dec N.eq_dec a b then true else false.

(** [Optional[str]]: [None] is Python's [None]. *)
Definition pyval := option pystr.

(** Truth value of an [Optional[str]]: [None] and the empty string are
    falsy. *)
Definition truthy (v : pyval) : bool :=
  match v with
  | None => false
  | Some [] => false
  | Some (_ :: _) => true
  end.

Module Re.

Local Open Scope N_scope.

(** The characters [\s] matches in a [str] pattern, which are also the
    ones [str.strip()] removes (CPython's [_PyUnicode_IsWhitespace]). *)
Definition is_space (c : N) : bool :=
  ((9 <=? c) && (c <=? 13)) || ((28 <=? c) && (c <=? 32))
  || (c =? 133) || (c =? 160) || (c =? 5760)
  || ((8192 <=? c) && (c <=? 8202))
  || (c =? 8232) || (c =? 8233) || (c =? 8239) || (c =? 8287)
  || (c =? 12288).

Definition space : N := 32.
Definition is_lt (c : N) : bool := c =? 60.   (* '<' *)
Definition is_gt (c : N) : bool := c =? 62.   (* '>' *)

(** [re.sub(r'<[^>]+>', ' ', text)].  The scan goes left to right.  At a
    ['<'] the greedy class [[^>]+] takes every following character up to
    the next ['>'], so there is a match exactly when at least one
    character other than ['>'] follows and a ['>'] closes the run; the
    match is replaced by one space and the scan resumes after the ['>'].
    Otherwise the character is copied. *)
Fixpoint sub_tags (s : pystr) : pystr :=
  match s with
  | [] => []
  | c :: r =>
      let fix close (t : pystr) : option pystr :=
        match t with
        | [] => None
        | d :: t' => if is_gt d then Some (sub_tags t') else close t'
        end in
      if is_lt c then
        match r with
        | [] => [c]
        | d :: r' =>
            if is_gt d then c :: sub_tags r
            else match close r' with
                 | Some out => space :: out
                 | None => c :: sub_tags r
                 end
        end
      else c :: sub_tags r
  end.

(** [re.sub(r'\s+', ' ', text)]: every maximal run of whitespace becomes
    one space. *)
Fixpoint sub_spaces (s : pystr) : pystr :=
  match s with
  | [] => []
  | c :: r =>
      let fix skip (t : pystr) : pystr :=
        match t with
        | [] => []
        | d :: t' => if is_space d then skip t' else d :: sub_spaces t'
        end in
      if is_space c then space :: skip r else c :: sub_spaces r
  end.

End Re.

Module Str.

Fixpoint starts_with (p s : pystr) : bool :=
  match p, s with
  | [], _ => true
  | _ :: _, [] => false
  | x :: p', y :: s' => (x =? y)%N && starts_with p' s'
  end.

(** [s.replace(old, new)] for a non-empty [old]: the occurrences are
    taken left to right and do not overlap.  [skip] counts the characters
    of the current occurrence still to be passed over. *)
Fixpoint replace_from (old new : pystr) (skip : nat) (s : pystr) : pystr :=
  match s with
  | [] => []
  | c :: r =>
      match skip with
      | S k => replace_from old new k r
      | O =>
          if starts_with old s
          then new ++ replace_from old new (pred (length old)) r
          else c :: replace_from old new 0 r
      end
  end.

(** With an empty [old], Python puts [new] before every character and at
    the end. *)
Definition replace (old new s : pystr) : pystr :=
  match old with
  | [] => new ++ flat_map (fun c => c :: new) s
  | _ :: _ => replace_from old new 0 s
  end.

Fixpoint lstrip (s : pystr) : pystr :=
  match s with
  | [] => []
  | c :: r => if Re.is_space c then lstrip r else s
  end.

Fixpoint rstrip (s : pystr) : pystr :=
  match s with
  | [] => []
  | c :: r =>
      match rstrip r with
      | [] => if Re.is_space c then [] else [c]
      | r' => c :: r'
      end
  end.

(** [s.strip()] *)
Definition strip (s : pystr) : pystr := rstrip (lstrip s).

(** [sep.join(parts)] with the empty separator. *)
Definition join (parts : list pystr) : pystr := concat parts.

End Str.

(** ** The text normalizer

    [clean_text] of CAPP.py (lines 39-50); CASS.py (53-64) and INCA.py
    (48-59) carry the same text. *)

Definition clean_text (text : pyval) : pystr :=
  if negb (truthy text) then lit ""
  else
    let text := match text with Some t => t | None => [] end in
    let text := Re.sub_tags text in
    let text := Re.sub_spaces text in
    let text := Str.replace (lit "&amp;") (lit "&") text in
    let text := Str.replace (lit "&lt;") (lit "<") text in
    let text := Str.replace (lit "&gt;") (lit ">") text in
    let text := Str.replace (lit "&quot;") [34%N] text in
    let text := Str.replace (lit "&apos;") (lit "'") text in
    Str.strip text.

(** ** Exceptions and effects

    The exceptions the scripts can meet, all subclasses of [Exception].
    [ValueError] and [RuntimeError] are the ones CNIL.py raises itself,
    chained to their cause. *)

Inductive exn : Type :=
| ParseError                      (* ET.ParseError: the document is not well-formed *)
| OSError                         (* the file cannot be opened or read *)
| AttributeError                  (* attribute access on None *)
| NameError (name : string)       (* a global name that is not bound *)
| ValueError (cause : exn)
| RuntimeError (cause : exn)
| OtherException (what : string). (* any other subclass of Exception *)

Inductive result (A : Type) : Type :=
| Return (a : A)
| Raise (e : exn).

Arguments Return {A} a.
Arguments Raise {A} e.

Definition rbind {A B} (m : result A) (k : A -> result B) : result B :=
  match m with
  | Return a => k a
  | Raise e => Raise e
  end.

Declare Scope py_scope.
Delimit Scope py_scope with py.

Notation "x <- m ;; k" := (rbind m (fun x => k))
  (at level 61, m at next level, right associativity) : py_scope.

Inductive Level := INFO | ERROR.

Inductive Message :=
| ErrorParsing (xml_path : string) (e : exn)   (* f"Error parsing {xml_path}: {str(e)}" *)
| ErrorWriting (e : exn)                       (* f"Error writing batch to file: {str(e)}" *)
| Processed (n : nat)                          (* f"Processed {total_processed} documents" *)
| Completed (n : nat)                          (* f"Process completed. Total documents processed: ..." *)
| DatasetSaved                                 (* f"Dataset saved as '{output_file}'" *)
| WritingResults                               (* "Writing results to ..." *)
| NoXmlFiles.                                  (* "No XML files found to process!" *)

Inductive Mode := ModeW | ModeA.

(** What a run does to the outside: log records, lines printed on the
    console, and the operations on the output file. *)
Inductive Event :=
| Log (level : Level) (msg : Message)
| Print (msg : Message)
| Open (mode : Mode)
| Write (s : pystr)
| Close.

(** The events so far, oldest first. *)
Definition World := list Event.

(** A statement: it reads and extends the world, and returns or raises. *)
Definition M (A : Type) : Type := World -> result A * World.

Definition ret {A} (a : A) : M A := fun w => (Return a, w).
Definition raise {A} (e : exn) : M A := fun w => (Raise e, w).
Definition lift {A} (r : result A) : M A := fun w => (r, w).
Definition emit (ev : Event) : M unit := fun w => (Return tt, w ++ [ev]).

Definition bind {A B} (m : M A) (k : A -> M B) : M B :=
  fun w =>
    match m w with
    | (Return a, w') => k a w'
    | (Raise e, w') => (Raise e, w')
    end.

(** [try: m  except Exception as e: h e] *)
Definition try_except {A} (m : M A) (h : exn -> M A) : M A :=
  fun w =>
    match m w with
    | (Return a, w') => (Return a, w')
    | (Raise e, w') => h e w'
    end.

Declare Scope stmt_scope.
Delimit Scope stmt_scope with stmt.

Notation "x <- m ;; k" := (bind m (fun x => k))
  (at level 61, m at next level, right associativity) : stmt_scope.
Notation "m ;; k" := (bind m (fun _ => k))
  (at level 61, right associativity) : stmt_scope.

(** ** The file system

    An operation on a file goes through or raises; which of the two is
    for the file system to say, from the path, the operation and what
    has happened so far.  An operation that goes through is recorded in
    the world. *)

Inductive FileOp :=
| DoOpen (path : string) (mode : Mode)
| DoWrite (path : string) (s : pystr)
| DoClose (path : string).

Definition Device := FileOp -> World -> option exn.

(** The file system on which every operation goes through. *)
Definition reliable : Device := fun _ _ => None.

Definition attempt (dev : Device) (op : FileOp) (ev : Event) : M unit :=
  fun w =>
    match dev op w with
    | Some e => (Raise e, w)
    | None => (Return tt, w ++ [ev])
    end.

(** [with open(path, mode) as f: body].  When [open] raises the block is
    not entered.  The file is closed when the block is left, by its end
    or by an exception; an exception raised by the close takes the place
    of the one of the block. *)
Definition with_open (dev : Device) (path : string) (mode : Mode) (body : M unit)
  : M unit :=
  (attempt dev (DoOpen path mode) (Open mode) ;;
   fun w =>
     match body w with
     | (Return _, w') => attempt dev (DoClose path) Close w'
     | (Raise e, w') =>
         match attempt dev (DoClose path) Close w' with
         | (Return _, w'') => (Raise e, w'')
         | (Raise e', w'') => (Raise e', w'')
         end
     end)%stmt.

(** ** XML trees (xml.etree.ElementTree) *)

Inductive Element : Type :=
| Elem (tag : string) (attrib : list (string * pystr)) (text : pyval)
       (children : list Element) (tail : pyval).

Definition tag (e : Element) : string := let (t, _, _, _, _) := e in t.
Definition attrib (e : Element) := let (_, a, _, _, _) := e in a.
Definition text (e : Element) : pyval := let (_, _, t, _, _) := e in t.
Definition children (e : Element) := let (_, _, _, c, _) := e in c.
Definition tail (e : Element) : pyval := let (_, _, _, _, t) := e in t.

(** [element.get(key)]: the attribute, or [None]. *)
Fixpoint assoc_get {V} (k : string) (l : list (string * V)) : option V :=
  match l with
  | [] => None
  | (k', v) :: l' => if String.eqb k k' then Some v else assoc_get k l'
  end.

Definition get (e : Element) (key : string) : pyval := assoc_get key (attrib e).

(** [element.iter()]: the element, then its descendants, in document
    order. *)
Fixpoint iter (e : Element) : list Element :=
  match e with
  | Elem _ _ _ cs _ => e :: flat_map iter cs
  end.

(** [element.itertext()]: the text of the element, then for each child its
    own inner text followed by its tail; empty parts are not yielded. *)
Definition part (v : pyval) : list pystr :=
  match v with
  | Some (c :: t) => [c :: t]
  | _ => []
  end.

Fixpoint itertext (e : Element) : list pystr :=
  match e with
  | Elem _ _ t cs _ =>
      part t ++ flat_map (fun c => itertext c ++ part (tail c)) cs
  end.

(** [ET.tostring(element, encoding="unicode", method="text")]: the inner
    text, then the tail of the element itself. *)
Definition tostring_text (e : Element) : pystr :=
  Str.join (itertext e ++ part (tail e)).

(** *** ElementPath

    The paths of the scripts, in parsed form: a relative path is a list of
    steps.  ['ID'] is [[Child "ID"]], ['.//CONTENU'] is
    [[Self; Descendant "CONTENU"]], and [".//SCT[@TYPE='PRINCIPAL']"] is
    [[Self; Descendant "SCT"; AttrEq "TYPE" (lit "PRINCIPAL")]]. *)

Inductive Step :=
| Self
| Child (t : string)
| Descendant (t : string)
| AttrEq (key : string) (value : pystr).

Definition Path := list Step.

Definition has_tag (t : string) (e : Element) : bool := String.eqb (tag e) t.

Definition select (st : Step) (context : list Element) : list Element :=
  match st with
  | Self => context
  | Child t => flat_map (fun e => filter (has_tag t) (children e)) context
  | Descendant t =>
      flat_map (fun e => filter (has_tag t) (flat_map iter (children e))) context
  | AttrEq key value =>
      filter (fun e => match get e key with
                       | Some v => pystr_eqb v value
                       | None => false
                       end) context
  end.

Definition iterfind (e : Element) (path : Path) : list Element :=
  fold_left (fun context st => select st context) path [e].

(** [element.find(path)]: the first match, or [None]. *)
Definition find (e : Element) (path : Path) : option Element :=
  hd_error (iterfind e path).

(** Attribute access and method calls on a value that may be [None]. *)
Definition dot_text (o : option Element) : result pyval :=
  match o with
  | Some e => Return (text e)
  | None => Raise AttributeError
  end.

Definition dot_get (o : option Element) (key : string) : result pyval :=
  match o with
  | Some e => Return (get e key)
  | None => Raise AttributeError
  end.

Definition dot_strip (v : pyval) : result pystr :=
  match v with
  | Some s => Return (Str.strip s)
  | None => Raise AttributeError
  end.

(** [element.findtext(path, default)]: the text of the first match, the
    empty string when that text is [None], [default] without a match. *)
Definition findtext (o : option Element) (path : Path) (default : pystr)
  : result pystr :=
  match o with
  | None => Raise AttributeError
  | Some e =>
      match find e path with
      | Some f => Return (match text f with Some t => t | None => lit "" end)
      | None => Return default
      end
  end.

(** ** Dictionaries

    A [dict] keeps its keys in insertion order; assigning to an existing
    key keeps the key's place. *)

Definition dict := list (string * pyval).

Fixpoint setitem (d : dict) (k : string) (v : pyval) : dict :=
  match d with
  | [] => [(k, v)]
  | (k', v') :: d' =>
      if String.eqb k k' then (k, v) :: d' else (k', v') :: setitem d' k v
  end.

Definition update (d other : dict) : dict :=
  fold_left (fun d kv => setitem d (fst kv) (snd kv)) other d.

Definition keys (d : dict) : list string := map fst d.

Definition getitem (d : dict) (k : string) : option pyval := assoc_get k d.

(** A dict display [{k1: e1, k2: e2, ...}]: the values are evaluated in
    order, and the first one that raises ends the evaluation. *)
Fixpoint display (items : list (string * result pyval)) : result dict :=
  match items with
  | [] => Return []
  | (k, e) :: rest =>
      (v <- e ;; d <- display rest ;; Return ((k, v) :: d))%py
  end.

Definition str (r : result pystr) : result pyval :=
  (s <- r ;; Return (Some s))%py.

(** The input of a parser: a path, and what [ET.parse] gives for it, the
    tree of a well-formed document or the exception raised. *)
Record XmlFile := { xml_path : string; xml_tree : result Element }.

(** Loops: [for x in xs: body], the loop variables threaded as [s]. *)
Fixpoint rfor {A S} (xs : list A) (body : A -> S -> result S) (s : S)
  : result S :=
  match xs with
  | [] => Return s
  | x :: xs' => (s' <- body x s ;; rfor xs' body s')%py
  end.

Fixpoint for_each {A S} (xs : list A) (body : A -> S -> M S) (s : S) : M S :=
  match xs with
  | [] => ret s
  | x :: xs' => (s' <- body x s ;; for_each xs' body s')%stmt
  end.

(** [{k: '' for each key}], the initial [data] of the parsers. *)
Definition blank (ks : list string) : dict := map (fun k => (k, Some (lit ""))) ks.

(** ** json.dumps(item, ensure_ascii=False) *)

Module Json.

Local Open Scope N_scope.

Definition hex_digit (d : N) : N := if d <? 10 then 48 + d else 87 + d.

(** The escapes of [json.encoder]: the quote, the backslash and the
    control characters below 0x20; every other character is copied. *)
Definition escape_char (c : N) : pystr :=
  if c =? 34 then [92; 34]
  else if c =? 92 then [92; 92]
  else if c =? 8 then [92; 98]
  else if c =? 12 then [92; 102]
  else if c =? 10 then [92; 110]
  else if c =? 13 then [92; 114]
  else if c =? 9 then [92; 116]
  else if c <? 32 then [92; 117; 48; 48; hex_digit (c / 16); hex_digit (c mod 16)]
  else [c].

Definition encode_str (s : pystr) : pystr :=
  [34] ++ flat_map escape_char s ++ [34].

Definition encode_value (v : pyval) : pystr :=
  match v with
  | None => lit "null"
  | Some s => encode_str s
  end.

Definition encode_item (kv : string * pyval) : pystr :=
  encode_str (lit (fst kv)) ++ lit ": " ++ encode_value (snd kv).

Fixpoint encode_items (d : dict) : pystr :=
  match d with
  | [] => []
  | [kv] => encode_item kv
  | kv :: d' => encode_item kv ++ lit ", " ++ encode_items d'
  end.

Definition dumps (d : dict) : pystr := lit "{" ++ encode_items d ++ lit "}".

End Json.

Definition newline : N := 10%N.

(** ** CAPP.py: appellate courts *)

Module CAPP.

Local Open Scope string_scope.

Definition get_element_text (element : Element) (path : Path) : result pystr :=
  let found := find element path in
  (cond <- match found with
           | None => Return false
           | Some _ => (t <- dot_text found ;; Return (truthy t))
           end ;;
   if (cond : bool)
   then (t <- dot_text found ;; Return (clean_text t))
   else Return (lit ""))%py.

Definition declared_keys : list string :=
  ["id"; "ancien_id"; "origine"; "url"; "nature";
   "titre"; "date_decision"; "juridiction"; "numero"; "solution";
   "numero_affaire"; "formation"; "siege_appel";
   "juridiction_premiere_instance"; "lieu_premiere_instance";
   "president"; "avocat_general"; "avocats"; "rapporteur";
   "contenu"; "sommaire"].

(** The body of the [try] of [parse_xml_file], from [root] on. *)
Definition extract (root : Element) : result dict :=
  (let data := blank declared_keys in
   let meta_commun := find root [Self; Descendant "META_COMMUN"] in
   data <- match meta_commun with
           | Some meta_commun =>
               (d <- display
                  [("id", str (get_element_text meta_commun [Child "ID"]));
                   ("ancien_id", str (get_element_text meta_commun [Child "ANCIEN_ID"]));
                   ("origine", str (get_element_text meta_commun [Child "ORIGINE"]));
                   ("url", str (get_element_text meta_commun [Child "URL"]));
                   ("nature", str (get_element_text meta_commun [Child "NATURE"]))] ;;
                Return (update data d))
           | None => Return data
           end ;;
   let meta_juri := find root [Self; Descendant "META_JURI"] in
   data <- match meta_juri with
           | Some meta_juri =>
               (d <- display
                  [("titre", str (get_element_text meta_juri [Child "TITRE"]));
                   ("date_decision", str (get_element_text meta_juri [Child "DATE_DEC"]));
                   ("juridiction", str (get_element_text meta_juri [Child "JURIDICTION"]));
                   ("numero", str (get_element_text meta_juri [Child "NUMERO"]));
                   ("solution", str (get_element_text meta_juri [Child "SOLUTION"]))] ;;
                Return (update data d))
           | None => Return data
           end ;;
   let meta_juri_judi := find root [Self; Descendant "META_JURI_JUDI"] in
   data <- match meta_juri_judi with
           | Some meta_juri_judi =>
               let numero_affaire :=
                 find meta_juri_judi [Self; Descendant "NUMERO_AFFAIRE"] in
               (d <- display
                  [("numero_affaire",
                     match numero_affaire with
                     | Some _ => dot_text numero_affaire
                     | None => Return (Some (lit ""))
                     end);
                   ("formation", str (get_element_text meta_juri_judi [Child "FORMATION"]));
                   ("siege_appel", str (get_element_text meta_juri_judi [Child "SIEGE_APPEL"]));
                   ("juridiction_premiere_instance",
                     str (get_element_text meta_juri_judi [Child "JURI_PREM"]));
                   ("lieu_premiere_instance",
                     str (get_element_text meta_juri_judi [Child "LIEU_PREM"]));
                   ("president", str (get_element_text meta_juri_judi [Child "PRESIDENT"]));
                   ("avocat_general", str (get_element_text meta_juri_judi [Child "AVOCAT_GL"]));
                   ("avocats", str (get_element_text meta_juri_judi [Child "AVOCATS"]));
                   ("rapporteur", str (get_element_text meta_juri_judi [Child "RAPPORTEUR"]))] ;;
                Return (update data d))
           | None => Return data
           end ;;
   let contenu := find root [Self; Descendant "CONTENU"] in
   let data := match contenu with
               | Some contenu =>
                   setitem data "contenu"
                     (Some (clean_text (Some (Str.join (itertext contenu)))))
               | None => data
               end in
   let sommaire := find root [Self; Descendant "SOMMAIRE"] in
   let data := match sommaire with
               | Some sommaire =>
                   setitem data "sommaire"
                     (Some (clean_text (Some (Str.join (itertext sommaire)))))
               | None => data
               end in
   Return data)%py.

(** [parse_xml_file]: the record, or [None] after logging the error. *)
Definition parse_xml_file (xml_file : XmlFile) : M (option dict) :=
  try_except
    (root <- lift (xml_tree xml_file) ;;
     data <- lift (extract root) ;;
     ret (Some data))%stmt
    (fun e =>
       (emit (Log ERROR (ErrorParsing (xml_path xml_file) e)) ;;
        ret None)%stmt).

(** [write_batch_to_jsonl(batch_data, output_file, mode)] (lines
    140-149): one [open], one [f.write] for each item, and the [close] of
    the [with] block, on the file system [dev]; an exception of any of
    them is caught, logged, and makes the result [False]. *)
Definition write_batch_to_jsonl (dev : Device) (batch_data : list dict)
    (output_file : string) (mode : Mode) : M bool :=
  try_except
    (with_open dev output_file mode
       (for_each batch_data
          (fun item (_ : unit) =>
             attempt dev (DoWrite output_file (Json.dumps item ++ [newline])%list)
               (Write (Json.dumps item ++ [newline])%list)) tt) ;;
     ret true)%stmt
    (fun e => (emit (Log ERROR (ErrorWriting e)) ;; ret false)%stmt).

(** [output_file = base_dir / 'capp_dataset.jsonl'] *)
Definition output_file : string := "capp_data/capp_dataset.jsonl".

(** The body of the loop of [main] over the XML files (lines 190-199);
    the loop variables are [batch_data] and [total_processed].  The run
    is followed on a file system on which every operation goes through. *)
Definition loop_body (batch_size : nat) (xml_file : XmlFile)
    (st : list dict * nat) : M (list dict * nat) :=
  (let '(batch_data, total_processed) := st in
   data <- parse_xml_file xml_file ;;
   match data with
   | Some (kv :: d) =>
       let batch_data := (batch_data ++ [kv :: d])%list in
       let total_processed := S total_processed in
       if (batch_size <=? length batch_data)%nat
       then
         (write_batch_to_jsonl reliable batch_data output_file ModeA ;;
          emit (Log INFO (Processed total_processed)) ;;
          ret ([], total_processed))
       else ret (batch_data, total_processed)
   | _ => ret (batch_data, total_processed)
   end)%stmt.

(** The part of [main] that processes the XML files (lines 181-206):
    the output file is emptied, the files are parsed and the records
    written batch by batch; [batch_size] is 1000 in the script. *)
Definition process_xml_files (batch_size : nat) (xml_files : list XmlFile)
  : M unit :=
  (emit (Open ModeW) ;; emit Close ;;
   st <- for_each xml_files (loop_body batch_size) ([], 0) ;;
   (let '(batch_data, total_processed) := st in
    match batch_data with
    | _ :: _ => (write_batch_to_jsonl reliable batch_data output_file ModeA ;; ret tt)
    | [] => ret tt
    end ;;
    emit (Log INFO (Completed total_processed)) ;;
    emit (Log INFO DatasetSaved)))%stmt.

Definition batch_size : nat := 1000.

End CAPP.

(** ** INCA.py: unpublished supreme-court decisions *)

Module INCA.

Local Open Scope string_scope.

(** Lines 61-64, the text of CAPP.py's. *)
Definition get_element_text := CAPP.get_element_text.

Definition declared_keys : list string :=
  ["id"; "ancien_id"; "origine"; "url"; "nature";
   "titre"; "date_decision"; "juridiction"; "numero"; "solution";
   "numero_affaire"; "publie_bulletin"; "formation";
   "date_decision_attaquee"; "juridiction_attaquee"; "siege_appel";
   "juridiction_premiere_instance"; "lieu_premiere_instance";
   "demandeur"; "defendeur"; "president"; "avocat_general"; "avocats";
   "rapporteur"; "ecli"; "contenu"; "sommaire"].

(** [publi_bull.get('publie') if publi_bull is not None else ''] *)
Definition publie_bulletin (publi_bull : option Element) : result pyval :=
  match publi_bull with
  | Some _ => dot_get publi_bull "publie"
  | None => Return (Some (lit ""))
  end.

(** The two updates made from the blocks found under [META_SPEC]
    (lines 117-146). *)
Definition meta_juri_fields (meta_juri : Element) : result dict :=
  display
    [("titre", str (get_element_text meta_juri [Child "TITRE"]));
     ("date_decision", str (get_element_text meta_juri [Child "DATE_DEC"]));
     ("juridiction", str (get_element_text meta_juri [Child "JURIDICTION"]));
     ("numero", str (get_element_text meta_juri [Child "NUMERO"]));
     ("solution", str (get_element_text meta_juri [Child "SOLUTION"]))].

Definition meta_juri_judi_fields (meta_juri_judi : Element) : result dict :=
  let publi_bull := find meta_juri_judi [Child "PUBLI_BULL"] in
  display
    [("numero_affaire",
       str (get_element_text meta_juri_judi [Self; Descendant "NUMERO_AFFAIRE"]));
     ("publie_bulletin", publie_bulletin publi_bull);
     ("formation", str (get_element_text meta_juri_judi [Child "FORMATION"]));
     ("date_decision_attaquee",
       str (get_element_text meta_juri_judi [Child "DATE_DEC_ATT"]));
     ("juridiction_attaquee",
       str (get_element_text meta_juri_judi [Child "FORM_DEC_ATT"]));
     ("siege_appel", str (get_element_text meta_juri_judi [Child "SIEGE_APPEL"]));
     ("juridiction_premiere_instance",
       str (get_element_text meta_juri_judi [Child "JURI_PREM"]));
     ("lieu_premiere_instance",
       str (get_element_text meta_juri_judi [Child "LIEU_PREM"]));
     ("demandeur", str (get_element_text meta_juri_judi [Child "DEMANDEUR"]));
     ("defendeur", str (get_element_text meta_juri_judi [Child "DEFENDEUR"]));
     ("president", str (get_element_text meta_juri_judi [Child "PRESIDENT"]));
     ("avocat_general", str (get_element_text meta_juri_judi [Child "AVOCAT_GL"]));
     ("avocats", str (get_element_text meta_juri_judi [Child "AVOCATS"]));
     ("rapporteur", str (get_element_text meta_juri_judi [Child "RAPPORTEUR"]));
     ("ecli", str (get_element_text meta_juri_judi [Child "ECLI"]))].

Definition extract (root : Element) : result dict :=
  (let data := blank declared_keys in
   let meta_commun := find root [Self; Descendant "META_COMMUN"] in
   data <- match meta_commun with
           | Some meta_commun =>
               (d <- display
                  [("id", str (get_element_text meta_commun [Child "ID"]));
                   ("ancien_id", str (get_element_text meta_commun [Child "ANCIEN_ID"]));
                   ("origine", str (get_element_text meta_commun [Child "ORIGINE"]));
                   ("url", str (get_element_text meta_commun [Child "URL"]));
                   ("nature", str (get_element_text meta_commun [Child "NATURE"]))] ;;
                Return (update data d))
           | None => Return data
           end ;;
   let meta_spec := find root [Self; Descendant "META_SPEC"] in
   data <- match meta_spec with
           | Some meta_spec =>
               let meta_juri := find meta_spec [Self; Descendant "META_JURI"] in
               (data <- match meta_juri with
                        | Some meta_juri =>
                            (d <- meta_juri_fields meta_juri ;;
                             Return (update data d))
                        | None => Return data
                        end ;;
                let meta_juri_judi :=
                  find meta_spec [Self; Descendant "META_JURI_JUDI"] in
                match meta_juri_judi with
                | Some meta_juri_judi =>
                    (d <- meta_juri_judi_fields meta_juri_judi ;;
                     Return (update data d))
                | None => Return data
                end)
           | None => Return data
           end ;;
   let contenu := find root [Self; Descendant "CONTENU"] in
   let data := match contenu with
               | Some contenu =>
                   setitem data "contenu"
                     (Some (clean_text (Some (Str.join (itertext contenu)))))
               | None => data
               end in
   let sommaire := find root [Self; Descendant "SOMMAIRE"] in
   let data := match sommaire with
               | Some sommaire =>
                   setitem data "sommaire"
                     (Some (clean_text (Some (Str.join (itertext sommaire)))))
               | None => data
               end in
   Return data)%py.

Definition parse_xml_file (xml_file : XmlFile) : M (option dict) :=
  try_except
    (root <- lift (xml_tree xml_file) ;;
     data <- lift (extract root) ;;
     ret (Some data))%stmt
    (fun e =>
       (emit (Log ERROR (ErrorParsing (xml_path xml_file) e)) ;;
        ret None)%stmt).

End INCA.

(** ** CASS.py: published supreme-court decisions *)

Module CASS.

Local Open Scope string_scope.

(** Lines 66-69, the text of CAPP.py's. *)
Definition get_element_text := CAPP.get_element_text.

Definition declared_keys : list string :=
  ["id"; "ancien_id"; "origine"; "url"; "nature";
   "titre"; "date_decision"; "juridiction"; "numero"; "solution";
   "numero_affaire"; "publie_bulletin"; "formation";
   "date_decision_attaquee"; "juridiction_attaquee"; "siege_appel";
   "juridiction_premiere_instance"; "lieu_premiere_instance";
   "demandeur"; "defendeur"; "president"; "avocat_general"; "avocats";
   "rapporteur"; "ecli"; "contenu";
   "sommaire_principal"; "sommaire_reference"; "sommaire_analyse"].

(** [publi_bull.get('publie') if publi_bull is not None else ''] *)
Definition publie_bulletin (publi_bull : option Element) : result pyval :=
  match publi_bull with
  | Some _ => dot_get publi_bull "publie"
  | None => Return (Some (lit ""))
  end.

(** [clean_text(section.text) if section is not None else ''] *)
Definition section_text (section : option Element) : result pyval :=
  match section with
  | Some _ => (t <- dot_text section ;; Return (Some (clean_text t)))%py
  | None => Return (Some (lit ""))
  end.

Definition extract (root : Element) : result dict :=
  (let data := blank declared_keys in
   let meta_commun := find root [Self; Descendant "META_COMMUN"] in
   data <- match meta_commun with
           | Some meta_commun =>
               (d <- display
                  [("id", str (get_element_text meta_commun [Child "ID"]));
                   ("ancien_id", str (get_element_text meta_commun [Child "ANCIEN_ID"]));
                   ("origine", str (get_element_text meta_commun [Child "ORIGINE"]));
                   ("url", str (get_element_text meta_commun [Child "URL"]));
                   ("nature", str (get_element_text meta_commun [Child "NATURE"]))] ;;
                Return (update data d))
           | None => Return data
           end ;;
   let meta_juri := find root [Self; Descendant "META_JURI"] in
   data <- match meta_juri with
           | Some meta_juri =>
               (d <- display
                  [("titre", str (get_element_text meta_juri [Child "TITRE"]));
                   ("date_decision", str (get_element_text meta_juri [Child "DATE_DEC"]));
                   ("juridiction", str (get_element_text meta_juri [Child "JURIDICTION"]));
                   ("numero", str (get_element_text meta_juri [Child "NUMERO"]));
                   ("solution", str (get_element_text meta_juri [Child "SOLUTION"]))] ;;
                Return (update data d))
           | None => Return data
           end ;;
   let meta_juri_judi := find root [Self; Descendant "META_JURI_JUDI"] in
   data <- match meta_juri_judi with
           | Some meta_juri_judi =>
               let publi_bull := find meta_juri_judi [Child "PUBLI_BULL"] in
               (d <- display
                  [("numero_affaire",
                     str (get_element_text meta_juri_judi
                            [Self; Descendant "NUMERO_AFFAIRE"]));
                   ("publie_bulletin", publie_bulletin publi_bull);
                   ("formation", str (get_element_text meta_juri_judi [Child "FORMATION"]));
                   ("date_decision_attaquee",
                     str (get_element_text meta_juri_judi [Child "DATE_DEC_ATT"]));
                   ("juridiction_attaquee",
                     str (get_element_text meta_juri_judi [Child "FORM_DEC_ATT"]));
                   ("siege_appel",
                     str (get_element_text meta_juri_judi [Child "SIEGE_APPEL"]));
                   ("juridiction_premiere_instance",
                     str (get_element_text meta_juri_judi [Child "JURI_PREM"]));
                   ("lieu_premiere_instance",
                     str (get_element_text meta_juri_judi [Child "LIEU_PREM"]));
                   ("demandeur", str (get_element_text meta_juri_judi [Child "DEMANDEUR"]));
                   ("defendeur", str (get_element_text meta_juri_judi [Child "DEFENDEUR"]));
                   ("president", str (get_element_text meta_juri_judi [Child "PRESIDENT"]));
                   ("avocat_general",
                     str (get_element_text meta_juri_judi [Child "AVOCAT_GL"]));
                   ("avocats", str (get_element_text meta_juri_judi [Child "AVOCATS"]));
                   ("rapporteur",
                     str (get_element_text meta_juri_judi [Child "RAPPORTEUR"]));
                   ("ecli", str (get_element_text meta_juri_judi [Child "ECLI"]))] ;;
                Return (update data d))
           | None => Return data
           end ;;
   let contenu := find root [Self; Descendant "CONTENU"] in
   let data := match contenu with
               | Some contenu =>
                   setitem data "contenu"
                     (Some (clean_text (Some (Str.join (itertext contenu)))))
               | None => data
               end in
   let sommaire := find root [Self; Descendant "SOMMAIRE"] in
   match sommaire with
   | Some sommaire =>
       let principal :=
         find sommaire [Self; Descendant "SCT"; AttrEq "TYPE" (lit "PRINCIPAL")] in
       let reference :=
         find sommaire [Self; Descendant "SCT"; AttrEq "TYPE" (lit "REFERENCE")] in
       let analyse := find sommaire [Self; Descendant "ANA"] in
       (d <- display
          [("sommaire_principal", section_text principal);
           ("sommaire_reference", section_text reference);
           ("sommaire_analyse", section_text analyse)] ;;
        Return (update data d))
   | None => Return data
   end)%py.

Definition parse_xml_file (xml_file : XmlFile) : M (option dict) :=
  try_except
    (root <- lift (xml_tree xml_file) ;;
     data <- lift (extract root) ;;
     ret (Some data))%stmt
    (fun e =>
       (emit (Log ERROR (ErrorParsing (xml_path xml_file) e)) ;;
        ret None)%stmt).

End CASS.

(** ** JADE.py: administrative courts *)

Module JADE.

Local Open Scope string_scope.

(** The names bound at module level: the imports of lines 1-9 and the
    five functions. *)
Definition globals : list string :=
  ["pd"; "requests"; "tarfile"; "ET"; "json"; "os"; "BytesIO"; "glob";
   "tqdm"; "download_and_extract"; "clean_text"; "get_element_text";
   "parse_xml_file"; "main"].

(** Looking a global name up. *)
Definition global (name : string) : result unit :=
  if in_dec string_dec name globals then Return tt else Raise (NameError name).

(** [clean_text] (lines 26-39): no test of the argument, and each
    [re.sub] starts by looking [re] up. *)
Definition clean_text (text : pystr) : result pystr :=
  (_ <- global "re" ;;
   let text := Re.sub_tags text in
   _ <- global "re" ;;
   let text := Re.sub_spaces text in
   let text := Str.replace (lit "&amp;") (lit "&") text in
   let text := Str.replace (lit "&lt;") (lit "<") text in
   let text := Str.replace (lit "&gt;") (lit ">") text in
   let text := Str.replace (lit "&quot;") [34%N] text in
   let text := Str.replace (lit "&apos;") (lit "'") text in
   Return (Str.strip text))%py.

Definition get_element_text (element : Element) (path : Path) : result pystr :=
  let found := find element path in
  (cond <- match found with
           | None => Return false
           | Some _ => (t <- dot_text found ;; Return (truthy t))
           end ;;
   if (cond : bool)
   then (t <- dot_text found ;; dot_strip t)
   else Return (lit ""))%py.

Definition declared_keys : list string :=
  ["id"; "ancien_id"; "origine"; "url"; "nature";
   "titre"; "date_decision"; "juridiction"; "numero";
   "formation"; "type_recours"; "publication_recueil"; "president";
   "avocats"; "rapporteur"; "commissaire_gouvernement"; "contenu"].

(** [data[key] = get_element_text(element, tag)] *)
Definition assign (data : dict) (key : string) (element : Element) (t : string)
  : result dict :=
  (v <- get_element_text element [Child t] ;; Return (setitem data key (Some v)))%py.

Definition extract (root : Element) : result dict :=
  (let data := blank declared_keys in
   let meta_commun := find root [Self; Descendant "META_COMMUN"] in
   data <- match meta_commun with
           | Some meta_commun =>
               (data <- assign data "id" meta_commun "ID" ;;
                data <- assign data "ancien_id" meta_commun "ANCIEN_ID" ;;
                data <- assign data "origine" meta_commun "ORIGINE" ;;
                data <- assign data "url" meta_commun "URL" ;;
                assign data "nature" meta_commun "NATURE")
           | None => Return data
           end ;;
   let meta_juri := find root [Self; Descendant "META_JURI"] in
   data <- match meta_juri with
           | Some meta_juri =>
               (data <- assign data "titre" meta_juri "TITRE" ;;
                data <- assign data "date_decision" meta_juri "DATE_DEC" ;;
                data <- assign data "juridiction" meta_juri "JURIDICTION" ;;
                assign data "numero" meta_juri "NUMERO")
           | None => Return data
           end ;;
   let meta_juri_admin := find root [Self; Descendant "META_JURI_ADMIN"] in
   data <- match meta_juri_admin with
           | Some meta_juri_admin =>
               (data <- assign data "formation" meta_juri_admin "FORMATION" ;;
                data <- assign data "type_recours" meta_juri_admin "TYPE_REC" ;;
                data <- assign data "publication_recueil" meta_juri_admin "PUBLI_RECUEIL" ;;
                data <- assign data "president" meta_juri_admin "PRESIDENT" ;;
                data <- assign data "avocats" meta_juri_admin "AVOCATS" ;;
                data <- assign data "rapporteur" meta_juri_admin "RAPPORTEUR" ;;
                assign data "commissaire_gouvernement" meta_juri_admin "COMMISSAIRE_GVT")
           | None => Return data
           end ;;
   let contenu_element := find root [Self; Descendant "CONTENU"] in
   match contenu_element with
   | Some contenu_element =>
       let content := Str.join (itertext contenu_element) in
       (cleaned <- clean_text content ;;
        Return (setitem data "contenu" (Some cleaned)))
   | None => Return data
   end)%py.

(** The error goes to the console with [print]. *)
Definition parse_xml_file (xml_file : XmlFile) : M (option dict) :=
  try_except
    (root <- lift (xml_tree xml_file) ;;
     data <- lift (extract root) ;;
     ret (Some data))%stmt
    (fun e =>
       (emit (Print (ErrorParsing (xml_path xml_file) e)) ;;
        ret None)%stmt).

(** The loop of [main] over the XML files (lines 136-144), and its
    body. *)
Definition loop_body (xml_file : XmlFile) (results : list dict)
  : M (list dict) :=
  (data <- parse_xml_file xml_file ;;
   match data with
   | Some (kv :: d) => ret (results ++ [kv :: d])%list
   | _ => ret results
   end)%stmt.

Definition collect (xml_files : list XmlFile) : M (list dict) :=
  for_each xml_files loop_body [].

End JADE.

(** ** CNIL.py: the data-protection authority *)

Module CNIL.

Local Open Scope string_scope.

(** [str.lower()] on the field names, which are ASCII. *)
Definition lower_char (a : ascii) : ascii :=
  let n := nat_of_ascii a in
  if ((65 <=? n) && (n <=? 90))%nat then ascii_of_nat (n + 32) else a.

Fixpoint lower (s : string) : string :=
  match s with
  | EmptyString => EmptyString
  | String a s' => String (lower_char a) (lower s')
  end.

(** The keys named by the docstring of [parse_cnil_xml_file], which are
    the lower-cased fields of the two loops and ['contenu']. *)
Definition declared_keys : list string :=
  ["id"; "origine"; "url"; "nature";
   "titrefull"; "numero"; "nature_delib"; "date_texte"; "date_publi";
   "etat_juridique"; "contenu"].

(** [for field in fields: data_extracted[field.lower()] =
    meta.findtext(field, "")] *)
Definition read_fields (meta : option Element) (fields : list string)
    (data_extracted : dict) : result dict :=
  rfor fields
    (fun field data_extracted =>
       (v <- findtext meta [Child field] (lit "") ;;
        Return (setitem data_extracted (lower field) (Some v)))%py)
    data_extracted.

(** The body of the [try], from [root] on. *)
Definition extract (root : Element) (data_extracted : dict) : result dict :=
  (let meta := find root [Self; Descendant "META_COMMUN"] in
   data_extracted <-
     match meta with
     | Some _ => read_fields meta ["ID"; "ORIGINE"; "URL"; "NATURE"] data_extracted
     | None => Return data_extracted
     end ;;
   let meta := find root [Self; Descendant "META_CNIL"] in
   data_extracted <-
     read_fields meta
       ["TITREFULL"; "NUMERO"; "NATURE_DELIB"; "DATE_TEXTE"; "DATE_PUBLI";
        "ETAT_JURIDIQUE"] data_extracted ;;
   let contenu := find root [Self; Descendant "CONTENU"] in
   let data_extracted :=
     match contenu with
     | Some contenu =>
         setitem data_extracted "contenu" (Some (Str.strip (tostring_text contenu)))
     | None => data_extracted
     end in
   Return data_extracted)%py.

(** Both handlers raise again: [ValueError] for [ET.ParseError],
    [RuntimeError] for everything else. *)
Definition parse_cnil_xml_file (xml_file : XmlFile) : M dict :=
  let data_extracted : dict := [] in
  try_except
    (root <- lift (xml_tree xml_file) ;;
     lift (extract root data_extracted))%stmt
    (fun e =>
       match e with
       | ParseError => raise (ValueError e)
       | _ => raise (RuntimeError e)
       end).

(** The end of [tar_dila_data] (lines 201-211): the files are parsed into
    [results], which are then written in one go. *)
Definition loop_body (xml_file : XmlFile) (results : list dict)
  : M (list dict) :=
  (data <- parse_cnil_xml_file xml_file ;;
   match data with
   | _ :: _ => ret (results ++ [data])%list
   | [] => ret results
   end)%stmt.

Definition process_xml_files (xml_files : list XmlFile) : M unit :=
  (results <- for_each xml_files loop_body [] ;;
   emit (Log INFO WritingResults) ;;
   emit (Open ModeW) ;;
   for_each results
     (fun item (_ : unit) => emit (Write (Json.dumps item ++ [newline])%list)) tt ;;
   emit Close)%stmt.

End CNIL.

(** * Vocabulary of the properties

    The definitions below are not part of the scripts: they name what the
    properties speak about. *)

Local Open Scope string_scope.
Local Open Scope list_scope.
Local Open Scope nat_scope.

(** The text of the first match of [path], [None] without a match. *)
Definition found_text (element : Element) (path : Path) : pyval :=
  match find element path with
  | Some found => text found
  | None => None
  end.

(** ** Documents used as examples *)

Module Samples.

Definition leaf (t s : string) : Element := Elem t [] (Some (lit s)) [] None.
Definition node (t : string) (cs : list Element) : Element := Elem t [] None cs None.
Definition empty (t : string) : Element := Elem t [] None [] None.
Definition file (name : string) (root : Element) : XmlFile :=
  {| xml_path := name; xml_tree := Return root |}.
Definition malformed (name : string) : XmlFile :=
  {| xml_path := name; xml_tree := Raise ParseError |}.

(** A CNIL deliberation with its own block, without [META_COMMUN] and
    without [CONTENU]. *)
Definition cnil_no_commun : Element :=
  node "TEXTE_CNIL"
    [node "META"
       [node "META_SPEC"
          [node "META_CNIL"
             [leaf "TITREFULL" "Deliberation 2020-001"; leaf "NUMERO" "2020-001"]]]].

(** An appellate decision whose [NUMERO_AFFAIRE] element is empty. *)
Definition capp_empty_numero : Element :=
  node "TEXTE_JURI_JUDI"
    [node "META"
       [node "META_SPEC"
          [node "META_JURI_JUDI"
             [node "NUMEROS_AFFAIRES" [empty "NUMERO_AFFAIRE"]]]]].

(** A CNIL deliberation whose content holds a nested element. *)
Definition cnil_contenu : Element :=
  Elem "CONTENU" [] (Some (lit "  La  Commission "))
    [Elem "br" [] None [] (Some (lit "decide. "))] None.

Definition cnil_with_contenu : Element :=
  node "TEXTE_CNIL"
    [node "META" [node "META_SPEC" [node "META_CNIL" [leaf "NUMERO" "2020-001"]]];
     node "TEXTE" [cnil_contenu]].

(** A metadata block whose identifier holds two spaces in a row. *)
Definition jade_id : Element := leaf "ID" "CETATEXT  0001".
Definition jade_meta : Element := node "META_COMMUN" [jade_id].

(** An administrative decision with a content block. *)
Definition jade_contenu : Element :=
  Elem "CONTENU" [] (Some (lit "Vu la requete ")) [Elem "br" [] None [] (Some (lit "Decide :"))] None.

Definition jade_with_contenu : Element :=
  node "TEXTE_JURI_ADMIN" [node "META" [jade_meta]; node "TEXTE" [jade_contenu]].

(** A judicial block with a [PUBLI_BULL] element that has no [publie]
    attribute, bare and inside the [META_SPEC] container. *)
Definition judi_no_publie : Element :=
  node "META_JURI_JUDI" [empty "PUBLI_BULL"; leaf "FORMATION" "CHAMBRE_CIVILE_1"].

Definition cass_no_publie : Element :=
  node "TEXTE_JURI_JUDI" [node "META" [node "META_SPEC" [judi_no_publie]]].

(** A decision that carries the specialized blocks directly under
    [META], without the [META_SPEC] container. *)
Definition inca_beside_container : Element :=
  node "TEXTE_JURI_JUDI"
    [node "META"
       [node "META_COMMUN" [leaf "ID" "JURITEXT000002"];
        node "META_JURI" [leaf "TITRE" "Cour de cassation, 12 mai 2021"];
        node "META_SPEC" [node "META_JURI_JUDI" [leaf "FORMATION" "CHAMBRE_CIVILE_1"]]]].

Definition inca_no_container : Element :=
  node "TEXTE_JURI_JUDI"
    [node "META"
       [node "META_COMMUN" [leaf "ID" "JURITEXT000001"];
        node "META_JURI" [leaf "TITRE" "Cour de cassation, 12 mai 2021"];
        node "META_JURI_JUDI" [leaf "FORMATION" "CHAMBRE_CIVILE_1"]]].

(** Six files, the second of which is not well-formed. *)
Definition six_files : list XmlFile :=
  [file "1.xml" capp_empty_numero; malformed "2.xml"; file "3.xml" inca_no_container;
   file "4.xml" cass_no_publie; file "5.xml" cnil_with_contenu;
   file "6.xml" capp_empty_numero].

End Samples.

(** ** Scanning a text *)

Module Scan.
Import Re Str.

(** The text after the first ['>'] of [t]. *)
Fixpoint after_gt (t : pystr) : option pystr :=
  match t with
  | [] => None
  | d :: t' => if is_gt d then Some t' else after_gt t'
  end.

(** Where the tag opened just before [r] ends, if there is one: the text
    after its ['>']. *)
Definition tag_end (r : pystr) : option pystr :=
  match r with
  | [] => None
  | d :: r' => if is_gt d then None else after_gt r'
  end.

Definition has_gt (s : pystr) : bool := existsb is_gt s.

(** No position of [s] starts a tag. *)
Fixpoint notag (s : pystr) : bool :=
  match s with
  | [] => true
  | c :: r =>
      (negb (is_lt c) || match tag_end r with None => true | Some _ => false end)
      && notag r
  end.

(** The head of a stripped text is not whitespace. *)
Definition lstripped (s : pystr) : bool :=
  match s with
  | [] => true
  | c :: _ => negb (is_space c)
  end.

(** Whitespace only occurs as single spaces. *)
Fixpoint collapsed (s : pystr) : bool :=
  match s with
  | [] => true
  | c :: r =>
      (if is_space c then (c =? space)%N && lstripped r else true) && collapsed r
  end.

(** [p in s] *)
Fixpoint contains (p s : pystr) : bool :=
  starts_with p s
  || match s with
     | [] => false
     | _ :: r => contains p r
     end.

(** [t] is [s] with some stretches replaced by one space each: what the
    two substitutions do. *)
Inductive squeezed : pystr -> pystr -> Prop :=
| squeezed_nil : squeezed [] []
| squeezed_keep c s t : squeezed s t -> squeezed (c :: s) (c :: t)
| squeezed_gap chunk s t : squeezed s t -> squeezed (chunk ++ s) (space :: t).

Definition spaceless (p : pystr) : bool := forallb (fun c => negb (c =? space)%N) p.

(** The five escape sequences [clean_text] decodes. *)
Definition entities : list pystr :=
  [lit "&amp;"; lit "&lt;"; lit "&gt;"; lit "&quot;"; lit "&apos;"].

Definition has_entity (s : pystr) : bool :=
  existsb (fun e => contains e s) entities.

(** The five [replace] calls of [clean_text]. *)
Definition decode (text : pystr) : pystr :=
  let text := replace (lit "&amp;") (lit "&") text in
  let text := replace (lit "&lt;") (lit "<") text in
  let text := replace (lit "&gt;") (lit ">") text in
  let text := replace (lit "&quot;") [34%N] text in
  replace (lit "&apos;") (lit "'") text.

End Scan.

(** ** What a run leaves behind *)

(** The appending writes of a run: for every [open(output_file, 'a')],
    the number of [f.write] calls up to its [close]. *)
Fixpoint flushes_from (cur : option nat) (w : World) : list nat :=
  match w with
  | [] => []
  | Open ModeA :: w' => flushes_from (Some 0) w'
  | Open ModeW :: w' => flushes_from None w'
  | Write _ :: w' => flushes_from (option_map S cur) w'
  | Close :: w' =>
      match cur with
      | Some n => n :: flushes_from None w'
      | None => flushes_from None w'
      end
  | _ :: w' => flushes_from cur w'
  end.

Definition flushes (w : World) : list nat := flushes_from None w.

(** The content of the output file: [open(output_file, 'w')] empties it,
    every [f.write] adds to its end. *)
Fixpoint content_from (acc : pystr) (w : World) : pystr :=
  match w with
  | [] => acc
  | Open ModeW :: w' => content_from [] w'
  | Write s :: w' => content_from (acc ++ s) w'
  | _ :: w' => content_from acc w'
  end.

Definition file_content (w : World) : pystr := content_from [] w.

Definition line_count (s : pystr) : nat := count_occ N.eq_dec s newline.

(** The files [parse_xml_file] of CAPP.py turns into a record. *)
Definition CAPP_parses (xml_file : XmlFile) : bool :=
  match fst (CAPP.parse_xml_file xml_file []) with
  | Return (Some _) => true
  | _ => false
  end.

(** The batches written inside the loop and the size of the batch left
    at its end, for [n] records arriving on a batch of [b]. *)
Fixpoint loop_sizes (batch_size b n : nat) : list nat :=
  match n with
  | O => []
  | S n' =>
      if batch_size <=? S b then S b :: loop_sizes batch_size 0 n'
      else loop_sizes batch_size (S b) n'
  end.

Fixpoint loop_rest (batch_size b n : nat) : nat :=
  match n with
  | O => b
  | S n' =>
      if batch_size <=? S b then loop_rest batch_size 0 n'
      else loop_rest batch_size (S b) n'
  end.

Definition no_newline (s : pystr) : Prop := Forall (fun c => c <> newline) s.

(** One line for each record. *)
Definition lines (batch : list dict) : pystr :=
  concat (map (fun item => Json.dumps item ++ [newline]) batch).

Definition session (batch : list dict) : World :=
  Open ModeA :: map (fun item => Write (Json.dumps item ++ [newline])) batch ++ [Close].

Definition successes (xml_files : list XmlFile) : nat :=
  length (filter CAPP_parses xml_files).

(** The files CNIL.py turns into a record: well-formed, and [extract]
    returns. *)
Definition cnil_parses (xml_file : XmlFile) : Prop :=
  exists root data,
    xml_tree xml_file = Return root /\ CNIL.extract root [] = Return data.

(** The keys fed by the two specialized blocks. *)
Definition INCA_specialized_keys : list string :=
  ["titre"; "date_decision"; "juridiction"; "numero"; "solution";
   "numero_affaire"; "publie_bulletin"; "formation";
   "date_decision_attaquee"; "juridiction_attaquee"; "siege_appel";
   "juridiction_premiere_instance"; "lieu_premiere_instance";
   "demandeur"; "defendeur"; "president"; "avocat_general"; "avocats";
   "rapporteur"; "ecli"].

Definition INCA_meta_juri_keys : list string :=
  ["titre"; "date_decision"; "juridiction"; "numero"; "solution"].

Definition INCA_meta_juri_judi_keys : list string :=
  ["numero_affaire"; "publie_bulletin"; "formation";
   "date_decision_attaquee"; "juridiction_attaquee"; "siege_appel";
   "juridiction_premiere_instance"; "lieu_premiere_instance";
   "demandeur"; "defendeur"; "president"; "avocat_general"; "avocats";
   "rapporteur"; "ecli"].

(** ** The steps of INCA.py's [extract] *)

Module INCASteps.

(** The record after the common block, and the end of [extract]. *)
Definition common (root : Element) : dict :=
  match find root [Self; Descendant "META_COMMUN"] with
  | Some meta_commun =>
      update (blank INCA.declared_keys)
        [("id", Some (clean_text (found_text meta_commun [Child "ID"])));
         ("ancien_id", Some (clean_text (found_text meta_commun [Child "ANCIEN_ID"])));
         ("origine", Some (clean_text (found_text meta_commun [Child "ORIGINE"])));
         ("url", Some (clean_text (found_text meta_commun [Child "URL"])));
         ("nature", Some (clean_text (found_text meta_commun [Child "NATURE"])))]
  | None => blank INCA.declared_keys
  end.

Definition finish (root : Element) (data : dict) : dict :=
  let data :=
    match find root [Self; Descendant "CONTENU"] with
    | Some contenu =>
        setitem data "contenu" (Some (clean_text (Some (Str.join (itertext contenu)))))
    | None => data
    end in
  match find root [Self; Descendant "SOMMAIRE"] with
  | Some sommaire =>
      setitem data "sommaire" (Some (clean_text (Some (Str.join (itertext sommaire)))))
  | None => data
  end.

Definition specialized (meta_spec : Element) (data : dict) : result dict :=
  (data <- match find meta_spec [Self; Descendant "META_JURI"] with
           | Some meta_juri =>
               (d <- INCA.meta_juri_fields meta_juri ;; Return (update data d))
           | None => Return data
           end ;;
   match find meta_spec [Self; Descendant "META_JURI_JUDI"] with
   | Some meta_juri_judi =>
       (d <- INCA.meta_juri_judi_fields meta_juri_judi ;; Return (update data d))
   | None => Return data
   end)%py.

End INCASteps.

(** ** More vocabulary for the normalizer *)

(** No whitespace at all. *)
Definition no_space (s : pystr) : bool :=
  forallb (fun c => negb (Re.is_space c)) s.

(** ** The records of CAPP.py, INCA.py and CASS.py *)

(** Every value is a string that [clean_text] returned, the one of [key]
    left aside. *)
Definition cleaned_but (key : string) (d : dict) : Prop :=
  Forall (fun kv => fst kv = key \/ exists t, snd kv = Some (clean_text t)) d.

(** The keys of [ks] still hold the empty string. *)
Definition blank_on (ks : list string) (d : dict) : Prop :=
  forall k, In k ks -> getitem d k = Some (Some (lit "")).

(** No key of [ks] is one of [others]. *)
Definition apart (ks others : list string) : bool :=
  forallb (fun k => negb (existsb (String.eqb k) others)) ks.

(** The value CAPP.py gives to [numero_affaire]. *)
Definition CAPP_numero_affaire (root : Element) : pyval :=
  match find root [Self; Descendant "META_JURI_JUDI"] with
  | Some meta_juri_judi =>
      match find meta_juri_judi [Self; Descendant "NUMERO_AFFAIRE"] with
      | Some numero_affaire => text numero_affaire
      | None => Some (lit "")
      end
  | None => Some (lit "")
  end.

(** What CAPP.py's record is known to satisfy. *)
Definition CAPP_record (root : Element) (data : dict) : Prop :=
  cleaned_but "numero_affaire" data
  /\ getitem data "numero_affaire" = Some (CAPP_numero_affaire root)
  /\ (find root [Self; Descendant "META_COMMUN"] = None ->
      blank_on ["id"; "ancien_id"; "origine"; "url"; "nature"] data)
  /\ (find root [Self; Descendant "META_JURI"] = None ->
      blank_on ["titre"; "date_decision"; "juridiction"; "numero"; "solution"] data)
  /\ (find root [Self; Descendant "META_JURI_JUDI"] = None ->
      blank_on ["numero_affaire"; "formation"; "siege_appel";
                "juridiction_premiere_instance"; "lieu_premiere_instance";
                "president"; "avocat_general"; "avocats"; "rapporteur"] data)
  /\ (find root [Self; Descendant "CONTENU"] = None -> blank_on ["contenu"] data)
  /\ (find root [Self; Descendant "SOMMAIRE"] = None -> blank_on ["sommaire"] data).

(** The value of [publie_bulletin] in INCA.py and in CASS.py. *)
Definition publie_of (meta_juri_judi : option Element) : pyval :=
  match meta_juri_judi with
  | Some meta_juri_judi =>
      match find meta_juri_judi [Child "PUBLI_BULL"] with
      | Some publi_bull => get publi_bull "publie"
      | None => Some (lit "")
      end
  | None => Some (lit "")
  end.

Definition INCA_publie_bulletin (root : Element) : pyval :=
  match find root [Self; Descendant "META_SPEC"] with
  | Some meta_spec => publie_of (find meta_spec [Self; Descendant "META_JURI_JUDI"])
  | None => Some (lit "")
  end.

Definition CASS_publie_bulletin (root : Element) : pyval :=
  publie_of (find root [Self; Descendant "META_JURI_JUDI"]).

(** The text of a summary section of CASS.py: [clean_text] of the text
    of the first match, the empty string without a match. *)
Definition CASS_section (sommaire : Element) (path : Path) : pystr :=
  match find sommaire path with
  | Some section => clean_text (text section)
  | None => lit ""
  end.

Definition CASS_record (root : Element) (data : dict) : Prop :=
  cleaned_but "publie_bulletin" data
  /\ getitem data "publie_bulletin" = Some (CASS_publie_bulletin root)
  /\ (forall sommaire,
        find root [Self; Descendant "SOMMAIRE"] = Some sommaire ->
        getitem data "sommaire_principal"
        = Some (Some (CASS_section sommaire
                        [Self; Descendant "SCT"; AttrEq "TYPE" (lit "PRINCIPAL")]))
        /\ getitem data "sommaire_reference"
           = Some (Some (CASS_section sommaire
                           [Self; Descendant "SCT"; AttrEq "TYPE" (lit "REFERENCE")]))
        /\ getitem data "sommaire_analyse"
           = Some (Some (CASS_section sommaire [Self; Descendant "ANA"])))
  /\ (find root [Self; Descendant "SOMMAIRE"] = None ->
      blank_on ["sommaire_principal"; "sommaire_reference"; "sommaire_analyse"] data).

(** A supreme-court decision with a summary in three sections. *)
Definition cass_sommaire : Element :=
  Elem "SOMMAIRE" [] None
    [Elem "SCT" [("ID", lit "1"); ("TYPE", lit "REFERENCE")]
       (Some (lit "Code civil, article 1382")) [] None;
     Elem "SCT" [("ID", lit "2"); ("TYPE", lit "PRINCIPAL")]
       (Some (lit "RESPONSABILITE  CIVILE "))
       [Elem "br" [] None [] (Some (lit "- Faute"))] None;
     Elem "ANA" [] (Some (lit "Sur la faute")) [] None] None.

Definition cass_with_sommaire : Element :=
  Elem "TEXTE_JURI_JUDI" [] None
    [Elem "META" [] None [] None; Elem "TEXTE" [] None [cass_sommaire] None] None.

(** Every value of a dict display is a result of [clean_text], the one
    of the key left aside excepted. *)
Ltac cleaned :=
  repeat apply Forall_cons; try apply Forall_nil; cbn [fst snd];
  first [right; exists None; reflexivity | right; eexists; reflexivity
        | left; reflexivity].

(** ** The end of [main] in CAPP.py, INCA.py and CASS.py

    The three scripts have the same loop over the XML files, the same
    [write_batch_to_jsonl] and the same two closing messages (CAPP.py
    lines 185-206, INCA.py lines 223-245, CASS.py lines 238-260); the
    [parse_xml_file] they call and the output file are their own. *)

Module MainLoop.

Section Loop.

Variable parse_xml_file : XmlFile -> M (option dict).
Variable output_file : string.

Definition loop_body (batch_size : nat) (xml_file : XmlFile)
    (st : list dict * nat) : M (list dict * nat) :=
  (let '(batch_data, total_processed) := st in
   data <- parse_xml_file xml_file ;;
   match data with
   | Some (kv :: d) =>
       let batch_data := (batch_data ++ [kv :: d])%list in
       let total_processed := S total_processed in
       if (batch_size <=? length batch_data)%nat
       then
         (CAPP.write_batch_to_jsonl reliable batch_data output_file ModeA ;;
          emit (Log INFO (Processed total_processed)) ;;
          ret ([], total_processed))
       else ret (batch_data, total_processed)
   | _ => ret (batch_data, total_processed)
   end)%stmt.

(** From [open(output_file, 'w').close()] to the last message. *)
Definition process (batch_size : nat) (xml_files : list XmlFile) : M unit :=
  (emit (Open ModeW) ;; emit Close ;;
   st <- for_each xml_files (loop_body batch_size) ([], 0) ;;
   (let '(batch_data, total_processed) := st in
    match batch_data with
    | _ :: _ =>
        (CAPP.write_batch_to_jsonl reliable batch_data output_file ModeA ;; ret tt)
    | [] => ret tt
    end ;;
    emit (Log INFO (Completed total_processed)) ;;
    emit (Log INFO DatasetSaved)))%stmt.

End Loop.

End MainLoop.

(** The scripts that end this way, with the parser and the output file
    of each. *)
Inductive Script := CAPP_py | INCA_py | CASS_py.

Definition parser (script : Script) : XmlFile -> M (option dict) :=
  match script with
  | CAPP_py => CAPP.parse_xml_file
  | INCA_py => INCA.parse_xml_file
  | CASS_py => CASS.parse_xml_file
  end.

Definition output_file (script : Script) : string :=
  match script with
  | CAPP_py => CAPP.output_file
  | INCA_py => "inca_data/inca_dataset.jsonl"
  | CASS_py => "cass_data/cass_dataset.jsonl"
  end.

(** INCA.py (lines 218-220) and CASS.py (lines 233-235) test the list of
    files before they touch the output file:
    [if not xml_files: logging.error("No XML files found to process!"); return].
    CAPP.py has no such test. *)
Definition tests_the_list (script : Script) : bool :=
  match script with
  | CAPP_py => false
  | INCA_py | CASS_py => true
  end.

(** The end of [main]: CAPP.py from line 185, INCA.py from line 218,
    CASS.py from line 233. *)
Definition main_end (script : Script) (batch_size : nat) (xml_files : list XmlFile)
  : M unit :=
  let run := MainLoop.process (parser script) (output_file script) batch_size xml_files in
  if tests_the_list script
  then match xml_files with
       | [] => emit (Log ERROR NoXmlFiles)
       | _ :: _ => run
       end
  else run.

(** The files a parser turns into a record, and their records in the
    order of the files. *)
Definition parses (parse : XmlFile -> M (option dict)) (xml_file : XmlFile) : bool :=
  match fst (parse xml_file []) with
  | Return (Some _) => true
  | _ => false
  end.

Definition records (parse : XmlFile -> M (option dict)) (xml_files : list XmlFile)
  : list dict :=
  flat_map (fun xml_file =>
              match fst (parse xml_file []) with
              | Return (Some data) => [data]
              | _ => []
              end) xml_files.

(** The paths of the documents reported as not parsed, oldest first; the
    totals reported at the end of a run; the running totals reported
    after a batch. *)
Definition parse_errors (w : World) : list string :=
  flat_map (fun ev => match ev with
                      | Log ERROR (ErrorParsing path _) => [path]
                      | _ => []
                      end) w.

Definition completed (w : World) : list nat :=
  flat_map (fun ev => match ev with
                      | Log INFO (Completed n) => [n]
                      | _ => []
                      end) w.

Definition processed (w : World) : list nat :=
  flat_map (fun ev => match ev with
                      | Log INFO (Processed n) => [n]
                      | _ => []
                      end) w.

(** The running totals reported inside the loop, for [n] records
    arriving on a batch of [b] and a total of [t]. *)
Fixpoint loop_totals (batch_size b t n : nat) : list nat :=
  match n with
  | O => []
  | S n' =>
      if batch_size <=? S b then S t :: loop_totals batch_size 0 (S t) n'
      else loop_totals batch_size (S b) (S t) n'
  end.

(** A parser that catches: it hands back a record with at least one key
    and leaves the log as it is, or it hands back [None] after one
    error message that names the file. *)
Definition catching (parse : XmlFile -> M (option dict)) : Prop :=
  forall xml_file,
    (exists kv d, forall w, parse xml_file w = (Return (Some (kv :: d)), w))
    \/ (exists e, forall w,
          parse xml_file w
          = (Return None, w ++ [Log ERROR (ErrorParsing (xml_path xml_file) e)])).

(** No control character: nothing below U+0020. *)
Definition printable (s : pystr) : Prop := Forall (fun c => (32 <= c)%N) s.

(** ** A file system that refuses some paths *)



(** ** CNIL.py: the record of a deliberation *)

(** What [meta.findtext(field, "")] gives when [meta] is an element: the
    text of the first child of that name as it stands, the empty string
    when the child has no text or is missing. *)
Definition CNIL_field (meta : Element) (field : string) : pystr :=
  match find meta [Child field] with
  | Some f => match text f with Some t => t | None => lit "" end
  | None => lit ""
  end.

(** The keys of a CNIL record, in order: they depend on the blocks of
    the document. *)
Definition CNIL_keys (root : Element) : list string :=
  match find root [Self; Descendant "META_COMMUN"] with
  | Some _ => ["id"; "origine"; "url"; "nature"]
  | None => []
  end
  ++ ["titrefull"; "numero"; "nature_delib"; "date_texte"; "date_publi";
      "etat_juridique"]
  ++ match find root [Self; Descendant "CONTENU"] with
     | Some _ => ["contenu"]
     | None => []
     end.

(** The records of a list of files that CNIL.py parses. *)
Definition CNIL_records (xml_files : list XmlFile) : list dict :=
  flat_map (fun xml_file =>
              match xml_tree xml_file with
              | Return root =>
                  match CNIL.extract root [] with
                  | Return data => [data]
                  | Raise _ => []
                  end
              | Raise _ => []
              end) xml_files.

(** ** The list of archives

    [main] of CAPP.py (lines 165-166), CASS.py (208-209), INCA.py
    (193-194) and JADE.py (123-124) reads the names of the archives to
    download from the text of a file:

    [filenames = [fname.strip().strip(',') for fname in content.split(',')]]
    [filenames = [fname for fname in filenames if fname]] *)

Module Listing.

Definition comma : N := 44%N.

(** [s.split(sep)] for a separator of one character. *)
Fixpoint split (sep : N) (s : pystr) : list pystr :=
  match s with
  | [] => [[]]
  | c :: r =>
      if (c =? sep)%N then [] :: split sep r
      else match split sep r with
           | p :: ps => (c :: p) :: ps
           | [] => [[c]]
           end
  end.

(** [s.strip(chars)] for one character. *)
Fixpoint lstrip_char (ch : N) (s : pystr) : pystr :=
  match s with
  | [] => []
  | c :: r => if (c =? ch)%N then lstrip_char ch r else s
  end.

Fixpoint rstrip_char (ch : N) (s : pystr) : pystr :=
  match s with
  | [] => []
  | c :: r =>
      match rstrip_char ch r with
      | [] => if (c =? ch)%N then [] else [c]
      | r' => c :: r'
      end
  end.

Definition strip_char (ch : N) (s : pystr) : pystr :=
  rstrip_char ch (lstrip_char ch s).

Definition filenames (content : pystr) : list pystr :=
  let filenames :=
    map (fun fname => strip_char comma (Str.strip fname)) (split comma content) in
  filter (fun fname => truthy (Some fname)) filenames.

End Listing.

(** [sep.join(parts)], to write a list of names down. *)
Fixpoint join_with (sep : pystr) (parts : list pystr) : pystr :=
  match parts with
  | [] => []
  | [p] => p
  | p :: ps => p ++ sep ++ join_with sep ps
  end.

(** An entry of a list of names as it may be written: the name between
    two runs of whitespace. *)
Record Entry := { lead : pystr; archive : pystr; trail : pystr }.

Definition entry_text (e : Entry) : pystr := lead e ++ archive e ++ trail e.

(** An entry is well written when the two runs are whitespace and the
    name, which may be empty, has no comma and no whitespace at its
    ends. *)
Definition well_written (e : Entry) : Prop :=
  forallb Re.is_space (lead e) = true
  /\ forallb Re.is_space (trail e) = true
  /\ Str.strip (archive e) = archive e
  /\ ~ In Listing.comma (archive e).

(** ** CNIL.py: the names of the archives on the listing page

    [get_tar_files] (lines 35-56) reads the page, takes every match of
    [[\w-]+\.tar\.gz] in it and returns the matches without duplicates:

    [tar_pattern = re.compile(r"[\w-]+\.tar\.gz")]
    [remote_files = list(set(tar_pattern.findall(html_content)))]

    The class [\w] of a [str] pattern follows the Unicode database; it
    is a parameter here.  What is used of it is that neither ['.'] nor
    ['/'] is a word character. *)

Module GetTarFiles.

Section Pattern.

Variable is_word : N -> bool.

(** [[\w-]] *)
Definition in_class (c : N) : bool := is_word c || (c =? 45)%N.

Definition tar_gz : pystr := lit ".tar.gz".

(** [tar_pattern.findall(s)].  The scan goes left to right; [run] holds
    the characters of the class read since the last character outside
    it.  The greedy [[\w-]+] takes the whole run, and as ['.'] is not in
    the class, giving characters back cannot make the rest of the
    pattern match: there is a match exactly when a non-empty run is
    followed by [.tar.gz].  The scan resumes after the match; [skip]
    counts the characters of the match still to be passed over. *)
Fixpoint findall_from (skip : nat) (run s : pystr) : list pystr :=
  match s with
  | [] => []
  | c :: r =>
      match skip with
      | S k => findall_from k [] r
      | O =>
          if in_class c then findall_from 0 (run ++ [c]) r
          else
            match run with
            | _ :: _ =>
                if Str.starts_with tar_gz s
                then (run ++ tar_gz) :: findall_from 6 [] r
                else findall_from 0 [] r
            | [] => findall_from 0 [] r
            end
      end
  end.

Definition findall (s : pystr) : list pystr := findall_from 0 [] s.

(** [list(set(...))]: the matches, each once, in an order that the
    language does not fix. *)
Definition get_tar_files (html_content : pystr) (remote_files : list pystr) : Prop :=
  NoDup remote_files
  /\ forall f, In f remote_files <-> In f (findall html_content).

End Pattern.

End GetTarFiles.

(** The word characters of ASCII, for examples. *)
Definition ascii_word (c : N) : bool :=
  ((48 <=? c) && (c <=? 57) || (65 <=? c) && (c <=? 90)
   || (97 <=? c) && (c <=? 122) || (c =? 95))%N.

(** A stretch of a page that holds no name and interrupts a run: no
    ['.'] in it, and a character outside the class at its end if it is
    not empty. *)
Fixpoint gap (is_word : N -> bool) (b : pystr) : bool :=
  match b with
  | [] => true
  | [c] => negb (GetTarFiles.in_class is_word c) && negb (c =? 46)%N
  | c :: b' => negb (c =? 46)%N && gap is_word b'
  end.

(** A page written as names with gaps between them. *)
Fixpoint page (items : list (pystr * pystr)) : pystr :=
  match items with
  | [] => []
  | (stem, b) :: items' => stem ++ GetTarFiles.tar_gz ++ b ++ page items'
  end.

(** * Properties *)

(** ** The normalizer on two texts *)

Example clean_text_tags :
  clean_text (Some (lit "  <p>Vu  la <b>loi</b></p> du 1er  ")) = lit "Vu la loi du 1er".
Proof. vm_compute. reflexivity. Qed.

Example clean_text_entities :
  clean_text (Some (lit "a &lt; b &amp;&amp; c<>d < e")) = lit "a < b && c<>d < e".
Proof. vm_compute. reflexivity. Qed.

(** ** Facts about the regular-expression substitutions *)

Module ReFacts.
Import Re Str Scan.

Arguments is_space : simpl never.
Arguments is_lt : simpl never.
Arguments is_gt : simpl never.

Lemma gt_not_space c : is_gt c = true -> is_space c = false.
Proof. unfold is_gt. intros H. apply N.eqb_eq in H. subst. reflexivity. Qed.

Lemma gt_not_lt c : is_gt c = true -> is_lt c = false.
Proof. unfold is_gt. intros H. apply N.eqb_eq in H. subst. reflexivity. Qed.

Lemma lt_not_space c : is_lt c = true -> is_space c = false.
Proof. unfold is_lt. intros H. apply N.eqb_eq in H. subst. reflexivity. Qed.

Lemma space_is_space : is_space space = true.
Proof. reflexivity. Qed.

Lemma sub_tags_cons c r :
  sub_tags (c :: r) =
    if is_lt c
    then match tag_end r with
         | Some rest => space :: sub_tags rest
         | None => c :: sub_tags r
         end
    else c :: sub_tags r.
Proof.
  assert (close : forall t,
    (fix close (t : pystr) : option pystr :=
       match t with
       | [] => None
       | d :: t' => if is_gt d then Some (sub_tags t') else close t'
       end) t = option_map sub_tags (after_gt t)).
  { induction t as [|d t IH]; [reflexivity|].
    simpl. destruct (is_gt d); [reflexivity | apply IH]. }
  cbn [sub_tags]. fold sub_tags.
  destruct (is_lt c); [|reflexivity].
  destruct r as [|d r']; [reflexivity|].
  cbn [tag_end]. destruct (is_gt d); [reflexivity|].
  rewrite close. destruct (after_gt r'); reflexivity.
Qed.

Lemma after_gt_split t rest :
  after_gt t = Some rest -> exists chunk, t = chunk ++ rest.
Proof.
  revert rest. induction t as [|d t IH]; intros rest; simpl; [discriminate|].
  destruct (is_gt d).
  - intros [= <-]. exists [d]. reflexivity.
  - intros H. destruct (IH _ H) as [chunk ->]. exists (d :: chunk). reflexivity.
Qed.

Lemma tag_end_split r rest :
  tag_end r = Some rest -> exists chunk, r = chunk ++ rest.
Proof.
  destruct r as [|d r']; simpl; [discriminate|].
  destruct (is_gt d); [discriminate|].
  intros H. destruct (after_gt_split _ _ H) as [chunk ->].
  exists (d :: chunk). reflexivity.
Qed.

Lemma tag_end_shorter r rest :
  tag_end r = Some rest -> length rest < length r.
Proof.
  intros H. destruct (tag_end_split _ _ H) as [chunk ->].
  destruct chunk as [|d chunk].
  - exfalso. simpl in H. destruct rest as [|d r']; simpl in H; [discriminate|].
    destruct (is_gt d); [discriminate|].
    apply after_gt_split in H. destruct H as [ch E].
    apply (f_equal (@length N)) in E. rewrite length_app in E. simpl in E. lia.
  - rewrite length_app. simpl. lia.
Qed.

(** Induction along the scan of [sub_tags]. *)
Lemma sub_tags_ind (P : pystr -> Prop) :
  P [] ->
  (forall c r rest,
      is_lt c = true -> tag_end r = Some rest -> P rest -> P (c :: r)) ->
  (forall c r,
      is_lt c = false \/ tag_end r = None -> P r -> P (c :: r)) ->
  forall s, P s.
Proof.
  intros Hnil Htag Hcopy s.
  remember (length s) as n eqn:E.
  revert s E. induction n as [n IH] using lt_wf_ind. intros s E.
  destruct s as [|c r]; [exact Hnil|].
  destruct (is_lt c) eqn:Hc.
  - destruct (tag_end r) as [rest|] eqn:Ht.
    + apply (Htag c r rest Hc Ht).
      apply (IH (length rest)); [|reflexivity].
      apply tag_end_shorter in Ht. subst n. simpl. lia.
    + apply Hcopy; [now right|]. apply (IH (length r)); [subst n; simpl; lia | reflexivity].
  - apply Hcopy; [now left|]. apply (IH (length r)); [subst n; simpl; lia | reflexivity].
Qed.

Lemma has_gt_false_after_gt s : has_gt s = false -> after_gt s = None.
Proof.
  induction s as [|c r IH]; simpl; [reflexivity|].
  destruct (is_gt c); simpl; [discriminate | exact IH].
Qed.

Lemma after_gt_none_has_gt s : after_gt s = None -> has_gt s = false.
Proof.
  induction s as [|c r IH]; simpl; [reflexivity|].
  destruct (is_gt c); simpl; [discriminate | exact IH].
Qed.

(** No tag ends in [r] exactly when [r] is empty, starts with ['>'], or
    holds no ['>'] at all. *)
Lemma tag_end_none r :
  tag_end r = None <->
  (match r with [] => true | d :: _ => is_gt d end) || negb (has_gt r) = true.
Proof.
  destruct r as [|d r']; simpl; [tauto|].
  destruct (is_gt d) eqn:Hd; simpl; [tauto|].
  split; intros H.
  - now rewrite (after_gt_none_has_gt _ H).
  - apply has_gt_false_after_gt. now destruct (has_gt r').
Qed.

Lemma notag_fixed s : notag s = true -> sub_tags s = s.
Proof.
  induction s as [|c r IH]; [reflexivity|].
  cbn [notag]. intros H. apply andb_prop in H. destruct H as [H1 H2].
  rewrite sub_tags_cons, (IH H2).
  destruct (is_lt c); [|reflexivity].
  destruct (tag_end r); [discriminate | reflexivity].
Qed.

Lemma has_gt_false_fixed s : has_gt s = false -> sub_tags s = s.
Proof.
  intros H. apply notag_fixed. induction s as [|c r IH]; [reflexivity|].
  simpl in H. apply orb_false_elim in H. destruct H as [Hc Hr].
  cbn [notag]. rewrite (IH Hr), andb_true_r.
  replace (tag_end r) with (@None pystr); [apply orb_true_r|].
  symmetry. apply tag_end_none. rewrite Hr. apply orb_true_r.
Qed.

(** A transformation that keeps a leading ['>'] and brings in no new
    ['>'] keeps [tag_end] empty. *)
Lemma tag_end_none_preserved (g : pystr -> pystr) r :
  g [] = [] ->
  (forall d t, is_gt d = true -> exists t', g (d :: t) = d :: t') ->
  (has_gt r = false -> has_gt (g r) = false) ->
  tag_end r = None -> tag_end (g r) = None.
Proof.
  intros Hnil Hhead Hgt H. apply tag_end_none in H. apply tag_end_none.
  destruct r as [|d t]; [now rewrite Hnil|].
  apply orb_prop in H. destruct H as [H|H].
  - destruct (Hhead d t H) as [t' ->]. now rewrite H.
  - rewrite Hgt; [apply orb_true_r|]. now destruct (has_gt (d :: t)).
Qed.

Lemma sub_tags_notag s : notag (sub_tags s) = true.
Proof.
  induction s as [|c r rest Hc Ht IH|c r Hc IH] using sub_tags_ind.
  - reflexivity.
  - rewrite sub_tags_cons, Hc, Ht. exact IH.
  - assert (E : sub_tags (c :: r) = c :: sub_tags r).
    { rewrite sub_tags_cons. destruct Hc as [-> | ->]; [reflexivity|].
      now destruct (is_lt c). }
    rewrite E. cbn [notag]. rewrite IH, andb_true_r.
    destruct Hc as [-> | Hc]; [reflexivity|].
    replace (tag_end (sub_tags r)) with (@None pystr); [apply orb_true_r|].
    symmetry. apply (tag_end_none_preserved sub_tags); auto.
    + intros d t Hd. rewrite sub_tags_cons, (gt_not_lt _ Hd). eauto.
    + intros H. now rewrite has_gt_false_fixed.
Qed.

(** *** Whitespace runs *)

Lemma sub_spaces_cons c r :
  sub_spaces (c :: r) =
    if is_space c then space :: sub_spaces (Str.lstrip r) else c :: sub_spaces r.
Proof.
  cbn [sub_spaces]. fold sub_spaces.
  destruct (is_space c); [|reflexivity]. f_equal.
  induction r as [|d t IH]; [reflexivity|].
  cbn [Str.lstrip]. destruct (is_space d) eqn:Hd; [exact IH|].
  cbn [sub_spaces]. fold sub_spaces. now rewrite Hd.
Qed.

Lemma lstrip_split s : exists chunk, s = chunk ++ Str.lstrip s.
Proof.
  induction s as [|c r [chunk IH]]; [now exists []|].
  cbn [Str.lstrip]. destruct (is_space c).
  - exists (c :: chunk). simpl. now f_equal.
  - now exists [].
Qed.

Lemma lstrip_length s : length (Str.lstrip s) <= length s.
Proof.
  destruct (lstrip_split s) as [chunk E].
  rewrite E at 2. rewrite length_app. lia.
Qed.

(** Induction along the scan of [sub_spaces]. *)
Lemma sub_spaces_ind (P : pystr -> Prop) :
  P [] ->
  (forall c r, is_space c = true -> P (Str.lstrip r) -> P (c :: r)) ->
  (forall c r, is_space c = false -> P r -> P (c :: r)) ->
  forall s, P s.
Proof.
  intros Hnil Hrun Hcopy s.
  remember (length s) as n eqn:E.
  revert s E. induction n as [n IH] using lt_wf_ind. intros s E.
  destruct s as [|c r]; [exact Hnil|].
  destruct (is_space c) eqn:Hc.
  - apply (Hrun c r Hc). apply (IH (length (Str.lstrip r))); [|reflexivity].
    pose proof (lstrip_length r). subst n. simpl. lia.
  - apply (Hcopy c r Hc). apply (IH (length r)); [subst n; simpl; lia | reflexivity].
Qed.

Lemma lstrip_lstripped s : lstripped (Str.lstrip s) = true.
Proof.
  induction s as [|c r IH]; [reflexivity|].
  cbn [Str.lstrip]. destruct (is_space c) eqn:Hc; [exact IH|].
  simpl. now rewrite Hc.
Qed.

Lemma lstripped_fixed s : lstripped s = true -> Str.lstrip s = s.
Proof.
  destruct s as [|c r]; [reflexivity|]. simpl.
  now destruct (is_space c).
Qed.

Lemma sub_spaces_lstripped s : lstripped s = true -> lstripped (sub_spaces s) = true.
Proof.
  destruct s as [|c r]; [reflexivity|]. rewrite sub_spaces_cons. simpl.
  destruct (is_space c) eqn:Hc; [discriminate|]. simpl. now rewrite Hc.
Qed.

Lemma sub_spaces_collapsed s : collapsed (sub_spaces s) = true.
Proof.
  induction s as [|c r Hc IH|c r Hc IH] using sub_spaces_ind.
  - reflexivity.
  - rewrite sub_spaces_cons, Hc. cbn [collapsed].
    rewrite space_is_space, IH, N.eqb_refl, sub_spaces_lstripped; [reflexivity|].
    apply lstrip_lstripped.
  - rewrite sub_spaces_cons, Hc. cbn [collapsed]. now rewrite Hc, IH.
Qed.

Lemma collapsed_fixed s : collapsed s = true -> sub_spaces s = s.
Proof.
  induction s as [|c r IH]; [reflexivity|].
  cbn [collapsed]. intros H. apply andb_prop in H. destruct H as [H1 H2].
  rewrite sub_spaces_cons. destruct (is_space c).
  - apply andb_prop in H1. destruct H1 as [Hc Hr].
    apply N.eqb_eq in Hc. subst c.
    now rewrite (lstripped_fixed _ Hr), (IH H2).
  - now rewrite (IH H2).
Qed.

Lemma sub_spaces_has_gt s : has_gt s = false -> has_gt (sub_spaces s) = false.
Proof.
  induction s as [|c r Hc IH|c r Hc IH] using sub_spaces_ind; intros H.
  - reflexivity.
  - rewrite sub_spaces_cons, Hc. simpl. apply IH.
    destruct (lstrip_split r) as [chunk E].
    simpl in H. apply orb_false_elim in H. destruct H as [_ H].
    unfold has_gt in *. rewrite E, existsb_app in H.
    now apply orb_false_elim in H.
  - rewrite sub_spaces_cons, Hc. simpl in *.
    apply orb_false_elim in H. destruct H as [-> H]. now apply IH.
Qed.

Lemma sub_spaces_notag s : notag s = true -> notag (sub_spaces s) = true.
Proof.
  induction s as [|c r Hc IH|c r Hc IH] using sub_spaces_ind; intros H.
  - reflexivity.
  - rewrite sub_spaces_cons, Hc. cbn [notag]. simpl. apply IH.
    cbn [notag] in H. apply andb_prop in H. destruct H as [_ H].
    clear -H. induction r as [|d t IHt]; [reflexivity|].
    cbn [Str.lstrip]. destruct (is_space d); [|exact H].
    cbn [notag] in H. apply andb_prop in H. now apply IHt.
  - rewrite sub_spaces_cons, Hc. cbn [notag] in *.
    apply andb_prop in H. destruct H as [H1 H2].
    rewrite (IH H2), andb_true_r.
    destruct (is_lt c); [|reflexivity]. simpl in *.
    destruct (tag_end r) eqn:Ht; [discriminate|].
    rewrite (tag_end_none_preserved sub_spaces); auto.
    + intros d t Hd. rewrite sub_spaces_cons, (gt_not_space _ Hd). eauto.
    + apply sub_spaces_has_gt.
Qed.

(** *** Stripping *)

Lemma rstrip_cons c r :
  Str.rstrip (c :: r) =
    match Str.rstrip r with
    | [] => if is_space c then [] else [c]
    | _ :: _ => c :: Str.rstrip r
    end.
Proof. cbn [Str.rstrip]. now destruct (Str.rstrip r). Qed.

Lemma rstrip_keeps_head c r :
  is_space c = false -> Str.rstrip (c :: r) = c :: Str.rstrip r.
Proof. intros H. rewrite rstrip_cons, H. now destruct (Str.rstrip r). Qed.

Lemma rstrip_split s : exists chunk, s = Str.rstrip s ++ chunk.
Proof.
  induction s as [|c r [chunk IH]]; [now exists []|].
  rewrite rstrip_cons. destruct (Str.rstrip r) eqn:E.
  - destruct (is_space c).
    + now exists (c :: r).
    + exists r. reflexivity.
  - exists chunk. simpl. f_equal. exact IH.
Qed.

Lemma rstrip_idempotent s : Str.rstrip (Str.rstrip s) = Str.rstrip s.
Proof.
  induction s as [|c r IH]; [reflexivity|].
  rewrite rstrip_cons. destruct (Str.rstrip r) as [|d t] eqn:E.
  - destruct (is_space c) eqn:Hc; [reflexivity|].
    now rewrite rstrip_cons, Hc.
  - rewrite rstrip_cons, IH. reflexivity.
Qed.

Lemma rstrip_lstripped s : lstripped s = true -> lstripped (Str.rstrip s) = true.
Proof.
  destruct s as [|c r]; [reflexivity|]. simpl lstripped at 1. intros H.
  apply negb_true_iff in H. rewrite (rstrip_keeps_head c r H). simpl. now rewrite H.
Qed.

Lemma strip_idempotent s : Str.strip (Str.strip s) = Str.strip s.
Proof.
  unfold Str.strip.
  rewrite (lstripped_fixed (Str.rstrip (Str.lstrip s))).
  - apply rstrip_idempotent.
  - apply rstrip_lstripped, lstrip_lstripped.
Qed.

Lemma lstrip_notag s : notag s = true -> notag (Str.lstrip s) = true.
Proof.
  induction s as [|c r IH]; [reflexivity|]. intros H.
  cbn [Str.lstrip]. destruct (is_space c); [|exact H].
  cbn [notag] in H. apply andb_prop in H. now apply IH.
Qed.

Lemma rstrip_has_gt s : has_gt s = false -> has_gt (Str.rstrip s) = false.
Proof.
  intros H. destruct (rstrip_split s) as [chunk E].
  unfold has_gt in *. rewrite E, existsb_app in H.
  now apply orb_false_elim in H.
Qed.

Lemma rstrip_notag s : notag s = true -> notag (Str.rstrip s) = true.
Proof.
  induction s as [|c r IH]; [reflexivity|].
  cbn [notag]. intros H. apply andb_prop in H. destruct H as [H1 H2].
  rewrite rstrip_cons.
  assert (Hn : notag (Str.rstrip r) = true) by auto.
  assert (Ht : is_lt c = true -> tag_end (Str.rstrip r) = None).
  { intros Hc. rewrite Hc in H1. simpl in H1.
    destruct (tag_end r) eqn:Ht; [discriminate|].
    apply (tag_end_none_preserved Str.rstrip); auto.
    - intros d' t' Hd. rewrite (rstrip_keeps_head d' t' (gt_not_space _ Hd)). eauto.
    - apply rstrip_has_gt. }
  destruct (Str.rstrip r) as [|d t].
  - destruct (is_space c); [reflexivity|].
    cbn [notag tag_end]. now rewrite orb_true_r.
  - change (notag (c :: d :: t)) with
      ((negb (is_lt c)
        || match tag_end (d :: t) with None => true | Some _ => false end)
       && notag (d :: t)).
    rewrite Hn, andb_true_r.
    destruct (is_lt c); [|reflexivity]. now rewrite Ht.
Qed.

Lemma lstrip_collapsed s : collapsed s = true -> collapsed (Str.lstrip s) = true.
Proof.
  induction s as [|c r IH]; [reflexivity|]. intros H.
  cbn [Str.lstrip]. destruct (is_space c); [|exact H].
  cbn [collapsed] in H. apply andb_prop in H. now apply IH.
Qed.

Lemma rstrip_collapsed s : collapsed s = true -> collapsed (Str.rstrip s) = true.
Proof.
  induction s as [|c r IH]; [reflexivity|].
  cbn [collapsed]. intros H. apply andb_prop in H. destruct H as [H1 H2].
  rewrite rstrip_cons.
  assert (Hn : collapsed (Str.rstrip r) = true) by auto.
  assert (Hl : lstripped r = true -> lstripped (Str.rstrip r) = true)
    by apply rstrip_lstripped.
  destruct (Str.rstrip r) as [|d t].
  - destruct (is_space c) eqn:Hc; [reflexivity|].
    cbn [collapsed]. now rewrite Hc.
  - change (collapsed (c :: d :: t)) with
      ((if is_space c then (c =? space)%N && lstripped (d :: t) else true)
       && collapsed (d :: t)).
    rewrite Hn, andb_true_r.
    destruct (is_space c); [|reflexivity].
    apply andb_prop in H1. destruct H1 as [-> Hr]. now rewrite Hl.
Qed.

(** *** Occurrences of a pattern *)

Import Str.

Lemma contains_cons p c s :
  contains p (c :: s) = starts_with p (c :: s) || contains p s.
Proof. reflexivity. Qed.

Lemma starts_with_app p a b :
  starts_with p a = true -> starts_with p (a ++ b) = true.
Proof.
  revert a. induction p as [|x p IH]; intros a; [reflexivity|].
  destruct a as [|y a]; simpl; [discriminate|].
  intros H. apply andb_prop in H. destruct H as [-> H]. now apply IH.
Qed.

Lemma contains_app_l p a b : contains p a = true -> contains p (a ++ b) = true.
Proof.
  induction a as [|c a IH].
  - cbn [contains]. rewrite orb_false_r. destruct p; [|discriminate].
    intros _. now destruct b.
  - rewrite contains_cons. intros H.
    change ((c :: a) ++ b) with (c :: (a ++ b)). rewrite contains_cons.
    apply orb_prop in H. destruct H as [H|H].
    + pose proof (starts_with_app p (c :: a) b H) as H'.
      change ((c :: a) ++ b) with (c :: (a ++ b)) in H'. now rewrite H'.
    + rewrite (IH H). apply orb_true_r.
Qed.

Lemma contains_app_r p a b : contains p b = true -> contains p (a ++ b) = true.
Proof.
  intros H. induction a as [|c a IH]; [exact H|].
  rewrite <- app_comm_cons, contains_cons, IH. apply orb_true_r.
Qed.

Lemma squeezed_starts_with s t :
  squeezed s t ->
  forall p, spaceless p = true -> starts_with p t = true -> starts_with p s = true.
Proof.
  induction 1 as [|c s t _ IH|chunk s t _ IH]; intros p Hp Hs.
  - exact Hs.
  - destruct p as [|x p]; [reflexivity|]. simpl in *.
    apply andb_prop in Hp. apply andb_prop in Hs.
    destruct Hs as [-> Hs]. now apply IH.
  - destruct p as [|x p]; [now destruct (chunk ++ s)|]. simpl in *.
    apply andb_prop in Hp. apply andb_prop in Hs.
    destruct Hp as [Hx _]. destruct Hs as [Hs _]. now rewrite Hs in Hx.
Qed.

Lemma squeezed_contains s t :
  squeezed s t ->
  forall p, p <> [] -> spaceless p = true ->
            contains p t = true -> contains p s = true.
Proof.
  induction 1 as [|c s t Hst IH|chunk s t Hst IH]; intros p Hne Hp Hc.
  - exact Hc.
  - rewrite contains_cons in *. apply orb_prop in Hc. destruct Hc as [Hc|Hc].
    + rewrite (squeezed_starts_with _ _ (squeezed_keep c _ _ Hst) _ Hp Hc). reflexivity.
    + rewrite (IH p Hne Hp Hc). apply orb_true_r.
  - rewrite contains_cons in Hc. apply orb_prop in Hc. destruct Hc as [Hc|Hc].
    + destruct p as [|x p]; [congruence|]. simpl in *.
      apply andb_prop in Hp. apply andb_prop in Hc.
      destruct Hp as [Hx _]. destruct Hc as [Hc _]. now rewrite Hc in Hx.
    + apply contains_app_r. now apply IH.
Qed.

Lemma sub_tags_squeezed s : squeezed s (sub_tags s).
Proof.
  induction s as [|c r rest Hc Ht IH|c r Hc IH] using sub_tags_ind.
  - constructor.
  - rewrite sub_tags_cons, Hc, Ht.
    destruct (tag_end_split _ _ Ht) as [chunk ->].
    now apply (squeezed_gap (c :: chunk)).
  - replace (sub_tags (c :: r)) with (c :: sub_tags r); [now constructor|].
    rewrite sub_tags_cons. destruct Hc as [-> | ->]; [reflexivity|].
    now destruct (is_lt c).
Qed.

Lemma sub_spaces_squeezed s : squeezed s (sub_spaces s).
Proof.
  induction s as [|c r Hc IH|c r Hc IH] using sub_spaces_ind.
  - constructor.
  - rewrite sub_spaces_cons, Hc.
    destruct (lstrip_split r) as [chunk E]. rewrite E at 1.
    now apply (squeezed_gap (c :: chunk)).
  - rewrite sub_spaces_cons, Hc. now constructor.
Qed.

Lemma strip_contains p s : contains p (strip s) = true -> contains p s = true.
Proof.
  unfold strip. intros H.
  destruct (lstrip_split s) as [c1 E1]. destruct (rstrip_split (lstrip s)) as [c2 E2].
  rewrite E1. apply contains_app_r. rewrite E2. now apply contains_app_l.
Qed.

(** Without an occurrence of [old] there is nothing to replace. *)
Lemma replace_absent old new s : contains old s = false -> replace old new s = s.
Proof.
  destruct old as [|x old]; [now destruct s|].
  unfold replace. induction s as [|c r IH]; [reflexivity|].
  rewrite contains_cons. intros H. apply orb_false_elim in H. destruct H as [H1 H2].
  cbn [replace_from]. rewrite H1. f_equal. now apply IH.
Qed.

End ReFacts.

(** ** The normalizer on text without entities *)

Module NormalizerFacts.
Import Re Str Scan ReFacts.

Lemma clean_text_unfold x :
  clean_text (Some x) = strip (decode (sub_spaces (sub_tags x))).
Proof. destruct x; reflexivity. Qed.

Lemma decode_absent s : has_entity s = false -> decode s = s.
Proof.
  unfold has_entity, entities, decode. cbn [existsb]. intros H.
  repeat (apply orb_false_elim in H; destruct H as [?H H]).
  rewrite (replace_absent (lit "&amp;") _ s) by assumption.
  rewrite (replace_absent (lit "&lt;") _ s) by assumption.
  rewrite (replace_absent (lit "&gt;") _ s) by assumption.
  rewrite (replace_absent (lit "&quot;") _ s) by assumption.
  now apply replace_absent.
Qed.

Lemma entities_spaceless e : In e entities -> e <> [] /\ spaceless e = true.
Proof.
  unfold entities. cbn [In].
  intros [<-|[<-|[<-|[<-|[<-|[]]]]]]; (split; [discriminate | reflexivity]).
Qed.

Lemma has_entity_reflected (s t : pystr) :
  (forall e, In e entities -> contains e t = true -> contains e s = true) ->
  has_entity s = false -> has_entity t = false.
Proof.
  intros Hst Hs. destruct (has_entity t) eqn:Ht; [|reflexivity].
  apply existsb_exists in Ht. destruct Ht as (e & He & Hc).
  rewrite <- Hs. symmetry. apply existsb_exists. exists e. auto.
Qed.

Lemma squeezed_has_entity s t :
  squeezed s t -> has_entity s = false -> has_entity t = false.
Proof.
  intros Hst. apply has_entity_reflected. intros e He.
  destruct (entities_spaceless e He) as [Hne Hsp].
  now apply squeezed_contains.
Qed.

Lemma strip_has_entity s : has_entity s = false -> has_entity (strip s) = false.
Proof.
  apply has_entity_reflected. intros e _. apply strip_contains.
Qed.

(** What [clean_text] returns on a text without entities, and what holds
    of it. *)
Lemma clean_text_plain x :
  has_entity x = false ->
  clean_text (Some x) = strip (sub_spaces (sub_tags x)).
Proof.
  intros H. rewrite clean_text_unfold, decode_absent; [reflexivity|].
  eapply squeezed_has_entity; [apply sub_spaces_squeezed|].
  eapply squeezed_has_entity; [apply sub_tags_squeezed | exact H].
Qed.

Lemma strip_notag s : notag s = true -> notag (strip s) = true.
Proof. intros H. apply rstrip_notag, lstrip_notag, H. Qed.

Lemma strip_collapsed s : collapsed s = true -> collapsed (strip s) = true.
Proof. intros H. apply rstrip_collapsed, lstrip_collapsed, H. Qed.

End NormalizerFacts.

(** C7. On a text that holds none of the five XML escape sequences,
    [clean_text] is idempotent. *)
Theorem C7_clean_text_idempotent (x : pystr) :
  Scan.has_entity x = false ->
  clean_text (Some (clean_text (Some x))) = clean_text (Some x).
Proof.
  intros H. rewrite (NormalizerFacts.clean_text_plain x H).
  set (w := Re.sub_spaces (Re.sub_tags x)).
  assert (Hent : Scan.has_entity (Str.strip w) = false).
  { apply NormalizerFacts.strip_has_entity.
    eapply NormalizerFacts.squeezed_has_entity; [apply ReFacts.sub_spaces_squeezed|].
    eapply NormalizerFacts.squeezed_has_entity; [apply ReFacts.sub_tags_squeezed | exact H]. }
  rewrite (NormalizerFacts.clean_text_plain _ Hent).
  rewrite (ReFacts.notag_fixed (Str.strip w)).
  - rewrite (ReFacts.collapsed_fixed (Str.strip w)).
    + apply ReFacts.strip_idempotent.
    + apply NormalizerFacts.strip_collapsed, ReFacts.sub_spaces_collapsed.
  - apply NormalizerFacts.strip_notag, ReFacts.sub_spaces_notag, ReFacts.sub_tags_notag.
Qed.

Lemma C7_witness :
  Scan.has_entity (lit "  <p>Vu  la <b>loi</b></p> du 1er  ") = false /\
  clean_text (Some (clean_text (Some (lit "  <p>Vu  la <b>loi</b></p> du 1er  "))))
  = clean_text (Some (lit "  <p>Vu  la <b>loi</b></p> du 1er  ")).
Proof.
  split; [reflexivity | apply C7_clean_text_idempotent; reflexivity].
Defined.

(** With an entity the second pass can decode again. *)
Example clean_text_not_idempotent :
  clean_text (Some (lit "&lt;b&gt;x &amp;amp; y")) = lit "<b>x &amp; y" /\
  clean_text (Some (clean_text (Some (lit "&lt;b&gt;x &amp;amp; y")))) = lit "x & y".
Proof. split; reflexivity. Qed.

(** ** The parsers *)

Module ParserFacts.

Lemma clean_text_falsy v : truthy v = false -> clean_text v = lit "".
Proof. unfold clean_text. now intros ->. Qed.

Lemma CAPP_get_element_text element path :
  CAPP.get_element_text element path = Return (clean_text (found_text element path)).
Proof.
  unfold CAPP.get_element_text, found_text.
  destruct (find element path) as [found|]; [|reflexivity].
  cbn [dot_text rbind]. destruct (truthy (text found)) eqn:E; [reflexivity|].
  now rewrite clean_text_falsy.
Qed.

Lemma JADE_get_element_text element path :
  JADE.get_element_text element path =
    Return (match found_text element path with
            | Some t => Str.strip t
            | None => lit ""
            end).
Proof.
  unfold JADE.get_element_text, found_text.
  destruct (find element path) as [found|]; [|reflexivity].
  cbn [dot_text rbind]. destruct (text found) as [[|c t]|]; reflexivity.
Qed.

(** In CAPP.py the record always has the declared keys, in their order,
    whichever blocks the document has. *)
Lemma CAPP_extract_keys root :
  exists data, CAPP.extract root = Return data /\ keys data = CAPP.declared_keys.
Proof.
  unfold CAPP.extract.
  destruct (find root [Self; Descendant "META_COMMUN"]) as [mc|];
  destruct (find root [Self; Descendant "META_JURI"]) as [mj|];
  destruct (find root [Self; Descendant "META_JURI_JUDI"]) as [mjj|];
  destruct (find root [Self; Descendant "CONTENU"]) as [c|];
  destruct (find root [Self; Descendant "SOMMAIRE"]) as [s|];
  rewrite ?CAPP_get_element_text;
  try destruct (find mjj [Self; Descendant "NUMERO_AFFAIRE"]);
  (eexists; split; [reflexivity | reflexivity]).
Qed.

(** So do the records of INCA.py and CASS.py. *)
Lemma INCA_extract_keys root :
  exists data, INCA.extract root = Return data /\ keys data = INCA.declared_keys.
Proof.
  unfold INCA.extract, INCA.meta_juri_fields, INCA.meta_juri_judi_fields,
    INCA.publie_bulletin, INCA.get_element_text.
  destruct (find root [Self; Descendant "META_COMMUN"]) as [mc|];
  destruct (find root [Self; Descendant "META_SPEC"]) as [ms|];
  try destruct (find ms [Self; Descendant "META_JURI"]) as [mj|];
  try destruct (find ms [Self; Descendant "META_JURI_JUDI"]) as [mjj|];
  destruct (find root [Self; Descendant "CONTENU"]) as [c|];
  destruct (find root [Self; Descendant "SOMMAIRE"]) as [s|];
  rewrite ?CAPP_get_element_text;
  try destruct (find mjj [Child "PUBLI_BULL"]);
  (eexists; split; reflexivity).
Qed.

Lemma CASS_extract_keys root :
  exists data, CASS.extract root = Return data /\ keys data = CASS.declared_keys.
Proof.
  unfold CASS.extract, CASS.publie_bulletin, CASS.section_text, CASS.get_element_text.
  destruct (find root [Self; Descendant "META_COMMUN"]) as [mc|];
  destruct (find root [Self; Descendant "META_JURI"]) as [mj|];
  destruct (find root [Self; Descendant "META_JURI_JUDI"]) as [mjj|];
  destruct (find root [Self; Descendant "CONTENU"]) as [c|];
  destruct (find root [Self; Descendant "SOMMAIRE"]) as [s|];
  rewrite ?CAPP_get_element_text;
  try destruct (find mjj [Child "PUBLI_BULL"]);
  try destruct (find s [Self; Descendant "SCT"; AttrEq "TYPE" (lit "PRINCIPAL")]);
  try destruct (find s [Self; Descendant "SCT"; AttrEq "TYPE" (lit "REFERENCE")]);
  try destruct (find s [Self; Descendant "ANA"]);
  (eexists; split; reflexivity).
Qed.

Lemma getitem_setitem_same (d : dict) k v : getitem (setitem d k v) k = Some v.
Proof.
  unfold getitem. induction d as [|[k' v'] d IH]; simpl.
  - now rewrite String.eqb_refl.
  - destruct (String.eqb k k') eqn:E; simpl.
    + now rewrite String.eqb_refl.
    + now rewrite E.
Qed.

Lemma getitem_setitem_other (d : dict) k k' v :
  k <> k' -> getitem (setitem d k v) k' = getitem d k'.
Proof.
  intros Hk. unfold getitem. induction d as [|[k0 v0] d IH]; simpl.
  - destruct (String.eqb k' k) eqn:E; [|reflexivity].
    apply String.eqb_eq in E. congruence.
  - destruct (String.eqb k k0) eqn:E; simpl.
    + apply String.eqb_eq in E. subst k0.
      destruct (String.eqb k' k) eqn:E'; [|reflexivity].
      apply String.eqb_eq in E'. congruence.
    + destruct (String.eqb k' k0); [reflexivity | exact IH].
Qed.

(** The parsers that catch: whatever the document, a value is
    returned. *)
Lemma CAPP_parse_returns xml_file w :
  exists r w', CAPP.parse_xml_file xml_file w = (Return r, w').
Proof.
  unfold CAPP.parse_xml_file, try_except, bind, lift, ret, emit.
  destruct (xml_tree xml_file) as [root|e]; [|eauto].
  destruct (CAPP.extract root); eauto.
Qed.

Lemma CAPP_parse_well_formed xml_file root w :
  xml_tree xml_file = Return root ->
  exists kv d, CAPP.parse_xml_file xml_file w = (Return (Some (kv :: d)), w)
               /\ CAPP.extract root = Return (kv :: d).
Proof.
  intros H. destruct (CAPP_extract_keys root) as (data & E & K).
  destruct data as [|kv d]; [discriminate|].
  exists kv, d. split; [|exact E].
  unfold CAPP.parse_xml_file, try_except, bind, lift, ret. now rewrite H, E.
Qed.

Lemma CAPP_parse_failure xml_file e w :
  xml_tree xml_file = Raise e ->
  CAPP.parse_xml_file xml_file w =
    (Return None, w ++ [Log ERROR (ErrorParsing (xml_path xml_file) e)])%list.
Proof.
  intros H. unfold CAPP.parse_xml_file, try_except, bind, lift, ret, emit.
  now rewrite H.
Qed.

Lemma CNIL_parse_failure xml_file e w :
  xml_tree xml_file = Raise e ->
  CNIL.parse_cnil_xml_file xml_file w =
    (Raise (match e with ParseError => ValueError e | _ => RuntimeError e end), w).
Proof.
  intros H. unfold CNIL.parse_cnil_xml_file, try_except, bind, lift, raise.
  rewrite H. now destruct e.
Qed.

Lemma CNIL_read_fields_some m fields d :
  exists d', CNIL.read_fields (Some m) fields d = Return d'.
Proof.
  unfold CNIL.read_fields. revert d.
  induction fields as [|field fields IH]; intros d; [now exists d|].
  cbn [rfor findtext]. destruct (find m [Child field]); cbn [rbind]; apply IH.
Qed.

(** Without the [META_CNIL] block, [meta] is [None] and the first
    [meta.findtext] raises; with it the record is returned. *)
Lemma CNIL_extract_without_block root :
  find root [Self; Descendant "META_CNIL"] = None ->
  CNIL.extract root [] = Raise AttributeError.
Proof.
  intros H. unfold CNIL.extract. rewrite H.
  destruct (find root [Self; Descendant "META_COMMUN"]) as [m|]; [|reflexivity].
  destruct (CNIL_read_fields_some m ["ID"; "ORIGINE"; "URL"; "NATURE"] [])
    as [d' ->].
  reflexivity.
Qed.

Lemma CNIL_extract_with_block root m :
  find root [Self; Descendant "META_CNIL"] = Some m ->
  exists data, CNIL.extract root [] = Return data.
Proof.
  intros H. unfold CNIL.extract. rewrite H.
  destruct (find root [Self; Descendant "META_COMMUN"]) as [mc|].
  - destruct (CNIL_read_fields_some mc ["ID"; "ORIGINE"; "URL"; "NATURE"] [])
      as [d' ->].
    cbn [rbind].
    destruct (CNIL_read_fields_some m
                ["TITREFULL"; "NUMERO"; "NATURE_DELIB"; "DATE_TEXTE";
                 "DATE_PUBLI"; "ETAT_JURIDIQUE"] d') as [d'' ->].
    cbn [rbind]. eauto.
  - cbn [rbind].
    destruct (CNIL_read_fields_some m
                ["TITREFULL"; "NUMERO"; "NATURE_DELIB"; "DATE_TEXTE";
                 "DATE_PUBLI"; "ETAT_JURIDIQUE"] []) as [d'' ->].
    cbn [rbind]. eauto.
Qed.

Lemma CNIL_parse_well_formed xml_file root data w :
  xml_tree xml_file = Return root ->
  CNIL.extract root [] = Return data ->
  CNIL.parse_cnil_xml_file xml_file w = (Return data, w).
Proof.
  intros H E. unfold CNIL.parse_cnil_xml_file, try_except, bind, lift.
  now rewrite H, E.
Qed.

Lemma CNIL_parse_without_block xml_file root w :
  xml_tree xml_file = Return root ->
  find root [Self; Descendant "META_CNIL"] = None ->
  CNIL.parse_cnil_xml_file xml_file w = (Raise (RuntimeError AttributeError), w).
Proof.
  intros H E. unfold CNIL.parse_cnil_xml_file, try_except, bind, lift, raise.
  now rewrite H, (CNIL_extract_without_block root E).
Qed.

End ParserFacts.

Import Samples ParserFacts.

(** C1. The record [parse_cnil_xml_file] returns for a deliberation
    without the common metadata block and without content holds the six
    keys of the CNIL block only: the declared keys [id], [origine], [url],
    [nature] and [contenu] are missing from it. *)
Theorem C1_cnil_record_misses_declared_keys :
  exists data,
    CNIL.parse_cnil_xml_file (file "CNILTEXT000001.xml" cnil_no_commun) []
    = (Return data, []) /\
    keys data = ["titrefull"; "numero"; "nature_delib"; "date_texte";
                 "date_publi"; "etat_juridique"] /\
    In "id" CNIL.declared_keys /\ getitem data "id" = None /\
    In "contenu" CNIL.declared_keys /\ getitem data "contenu" = None.
Proof.
  eexists. split; [reflexivity|].
  repeat split; cbn; auto 12.
Qed.

(** In CAPP.py the keys are all there, but [numero_affaire] is read
    without [get_element_text] and is [None] for an empty element. *)
Example CAPP_numero_affaire_none :
  exists data,
    CAPP.extract capp_empty_numero = Return data /\
    keys data = CAPP.declared_keys /\
    getitem data "numero_affaire" = Some None.
Proof. eexists. repeat split; reflexivity. Qed.

(** C4, as stated, fails in JADE.py: the text is stripped, not
    normalized. *)
Lemma C4_jade_text_is_not_normalized :
  find jade_meta [Child "ID"] = Some jade_id /\
  text jade_id = Some (lit "CETATEXT  0001") /\
  JADE.get_element_text jade_meta [Child "ID"] = Return (lit "CETATEXT  0001") /\
  clean_text (text jade_id) = lit "CETATEXT 0001" /\
  JADE.get_element_text jade_meta [Child "ID"] <> Return (clean_text (text jade_id)).
Proof. repeat split; try reflexivity. discriminate. Qed.

(** C4. [get_element_text] never raises.  It returns the empty string when
    the path has no match or the match has no text or an empty one;
    otherwise the text of the first match, normalized by [clean_text] in
    CAPP.py and stripped of surrounding whitespace in JADE.py. *)
Theorem C4_get_element_text (element : Element) (path : Path) :
  CAPP.get_element_text element path =
    Return (match find element path with
            | None => lit ""
            | Some found =>
                match text found with
                | Some (c :: t) => clean_text (Some (c :: t))
                | _ => lit ""
                end
            end)
  /\
  JADE.get_element_text element path =
    Return (match find element path with
            | None => lit ""
            | Some found =>
                match text found with
                | Some (c :: t) => Str.strip (c :: t)
                | _ => lit ""
                end
            end).
Proof.
  rewrite CAPP_get_element_text, JADE_get_element_text. unfold found_text.
  destruct (find element path) as [found|]; [|split; reflexivity].
  destruct (text found) as [[|c t]|]; split; reflexivity.
Qed.

(** C5. For a [PUBLI_BULL] element without the [publie] attribute the
    attribute read gives [None], not the empty string, in CASS.py and in
    INCA.py, and the record carries that [None]. *)
Theorem C5_publie_bulletin_none_without_attribute :
  find judi_no_publie [Child "PUBLI_BULL"] = Some (empty "PUBLI_BULL") /\
  CASS.publie_bulletin (Some (empty "PUBLI_BULL")) = Return None /\
  INCA.publie_bulletin (Some (empty "PUBLI_BULL")) = Return None /\
  (exists data, CASS.extract cass_no_publie = Return data /\
                getitem data "publie_bulletin" = Some None) /\
  (exists data, INCA.extract cass_no_publie = Return data /\
                getitem data "publie_bulletin" = Some None).
Proof.
  repeat split; try reflexivity; eexists; split; reflexivity.
Qed.

(** The two cases in which the attribute read does give a string. *)
Lemma publie_bulletin_strings (publi_bull : Element) (v : pystr) :
  CASS.publie_bulletin None = Return (Some (lit "")) /\
  INCA.publie_bulletin None = Return (Some (lit "")) /\
  (get publi_bull "publie" = Some v ->
   CASS.publie_bulletin (Some publi_bull) = Return (Some v) /\
   INCA.publie_bulletin (Some publi_bull) = Return (Some v)).
Proof.
  repeat split; try reflexivity; cbn; now rewrite H.
Qed.

(** C10. The replacements are applied one after the other, so the result
    of decoding [&amp;] is decoded again by the later ones. *)
Theorem C10_entities_cascade :
  Str.replace (lit "&amp;") (lit "&") (lit "&amp;lt;x&amp;gt;") = lit "&lt;x&gt;" /\
  clean_text (Some (lit "&amp;lt;x&amp;gt;")) = lit "<x>".
Proof. split; reflexivity. Qed.

(** ** The loops over the files *)

Module PipelineFacts.

Lemma INCA_parse_well_formed xml_file root data w :
  xml_tree xml_file = Return root -> INCA.extract root = Return data ->
  INCA.parse_xml_file xml_file w = (Return (Some data), w).
Proof.
  intros H E. unfold INCA.parse_xml_file, try_except, bind, lift, ret.
  now rewrite H, E.
Qed.

Lemma CASS_parse_well_formed xml_file root data w :
  xml_tree xml_file = Return root -> CASS.extract root = Return data ->
  CASS.parse_xml_file xml_file w = (Return (Some data), w).
Proof.
  intros H E. unfold CASS.parse_xml_file, try_except, bind, lift, ret.
  now rewrite H, E.
Qed.

Lemma JADE_parse_well_formed xml_file root w :
  xml_tree xml_file = Return root ->
  JADE.parse_xml_file xml_file w =
    match JADE.extract root with
    | Return data => (Return (Some data), w)
    | Raise e => (Return None, w ++ [Print (ErrorParsing (xml_path xml_file) e)])%list
    end.
Proof.
  intros H. unfold JADE.parse_xml_file, try_except, bind, lift, ret, emit.
  rewrite H. now destruct (JADE.extract root).
Qed.

(** A step of a loop that returns. *)
Lemma for_each_cons {A S} (body : A -> S -> M S) x xs s s' w w' :
  body x s w = (Return s', w') ->
  for_each (x :: xs) body s w = for_each xs body s' w'.
Proof. intros H. cbn [for_each]. unfold bind. now rewrite H. Qed.

(** A step that raises ends the loop. *)
Lemma for_each_raise {A S} (body : A -> S -> M S) x xs s e w w' :
  body x s w = (Raise e, w') ->
  for_each (x :: xs) body s w = (Raise e, w').
Proof. intros H. cbn [for_each]. unfold bind. now rewrite H. Qed.

Lemma for_each_app {A S} (body : A -> S -> M S) xs ys s s' w w' :
  for_each xs body s w = (Return s', w') ->
  for_each (xs ++ ys) body s w = for_each ys body s' w'.
Proof.
  revert s w. induction xs as [|x xs IH]; intros s w H.
  - cbn in H. injection H as <- <-. reflexivity.
  - cbn [for_each app] in *. unfold bind in *.
    destruct (body x s w) as [[s1|e] w1]; [now apply IH | discriminate].
Qed.

Lemma CAPP_loop_body_failure batch_size xml_file e st w :
  xml_tree xml_file = Raise e ->
  CAPP.loop_body batch_size xml_file st w =
    (Return st, w ++ [Log ERROR (ErrorParsing (xml_path xml_file) e)])%list.
Proof.
  intros H. destruct st as [batch_data total_processed].
  unfold CAPP.loop_body, bind. now rewrite (CAPP_parse_failure _ e w H).
Qed.

(** On the reliable file system an operation is done and recorded. *)
Lemma attempt_reliable op ev w : attempt reliable op ev w = (Return tt, w ++ [ev])%list.
Proof. reflexivity. Qed.

Lemma CAPP_write_batch_returns batch output_file mode w :
  CAPP.write_batch_to_jsonl reliable batch output_file mode w =
    (Return true,
     w ++ Open mode
       :: map (fun item => Write (Json.dumps item ++ [newline])) batch
       ++ [Close])%list.
Proof.
  assert (L : forall items w0,
    for_each items
      (fun (item : dict) (_ : unit) =>
         attempt reliable (DoWrite output_file (Json.dumps item ++ [newline]))
           (Write (Json.dumps item ++ [newline])))%list tt w0
    = (Return tt, w0 ++ map (fun item => Write (Json.dumps item ++ [newline])) items)%list).
  { induction items as [|item items IH]; intros w0.
    - cbn. unfold ret. now rewrite app_nil_r.
    - cbn [for_each map]. unfold bind. cbv beta.
      rewrite attempt_reliable, IH, <- app_assoc. reflexivity. }
  unfold CAPP.write_batch_to_jsonl, try_except, with_open, bind, ret.
  rewrite attempt_reliable, L, attempt_reliable, <- !app_assoc. reflexivity.
Qed.

Lemma CAPP_loop_body_returns batch_size xml_file st w :
  exists st' w', CAPP.loop_body batch_size xml_file st w = (Return st', w').
Proof.
  destruct st as [batch_data total_processed].
  unfold CAPP.loop_body, bind.
  destruct (CAPP_parse_returns xml_file w) as (r & w' & ->).
  destruct r as [[|kv d]|]; unfold ret; eauto.
  destruct (batch_size <=? length (batch_data ++ [kv :: d]))%nat; eauto.
  rewrite CAPP_write_batch_returns. unfold emit. eauto.
Qed.

Lemma CAPP_loop_returns batch_size xml_files st w :
  exists st' w', for_each xml_files (CAPP.loop_body batch_size) st w = (Return st', w').
Proof.
  revert st w. induction xml_files as [|f fs IH]; intros st w.
  - cbn. unfold ret. eauto.
  - destruct (CAPP_loop_body_returns batch_size f st w) as (st1 & w1 & H).
    rewrite (for_each_cons _ _ _ _ _ _ _ H). apply IH.
Qed.

Lemma CAPP_process_returns batch_size xml_files w :
  exists w', CAPP.process_xml_files batch_size xml_files w = (Return tt, w').
Proof.
  unfold CAPP.process_xml_files, bind, emit.
  destruct (CAPP_loop_returns batch_size xml_files ([], 0) ((w ++ [Open ModeW]) ++ [Close]))
    as ([batch total] & w' & ->).
  destruct batch as [|b batch]; unfold ret; [eauto|].
  rewrite CAPP_write_batch_returns. eauto.
Qed.

(** In CNIL.py a file that parses is added to [results] without any
    event. *)
Lemma CNIL_loop_prefix xml_files results w :
  Forall cnil_parses xml_files ->
  exists results', for_each xml_files CNIL.loop_body results w = (Return results', w).
Proof.
  intros H. revert results. induction H as [|f fs (root & data & Hr & He) _ IH];
    intros results.
  - cbn. unfold ret. eauto.
  - cbn [for_each]. unfold bind at 1. unfold CNIL.loop_body at 1. unfold bind at 1.
    rewrite (CNIL_parse_well_formed f root data w Hr He).
    destruct data; unfold ret; apply IH.
Qed.

End PipelineFacts.

Import PipelineFacts.

(** C2, as stated, fails in CNIL.py: a malformed document makes
    [parse_cnil_xml_file] raise, and the run ends there, before the
    well-formed document that follows is read and before anything is
    written. *)
Lemma C2_cnil_parse_failure_ends_the_run :
  CNIL.parse_cnil_xml_file (malformed "bad.xml") [] = (Raise (ValueError ParseError), [])
  /\ (forall data, CNIL.parse_cnil_xml_file (malformed "bad.xml") [] <> (Return data, []))
  /\ CNIL.process_xml_files [malformed "bad.xml"; file "good.xml" cnil_with_contenu] []
     = (Raise (ValueError ParseError), []).
Proof. repeat split; try reflexivity. discriminate. Qed.

(** C2. In CAPP.py [parse_xml_file] never raises: an exception met while
    parsing is logged and [None] is returned, the loop of [main] leaves its
    variables as they are and goes on with the remaining files, and the run
    returns.  The handlers of CASS.py, INCA.py and JADE.py do the same, the
    last one with [print].  In CNIL.py [parse_cnil_xml_file] raises again, [ValueError]
    for a malformed document and [RuntimeError] for any other exception
    (such as the one met when the [META_CNIL] block is missing), and the
    run ends with that exception at the first such file, nothing being
    written. *)
Theorem C2_parse_failures (xml_file : XmlFile) (e : exn) :
  xml_tree xml_file = Raise e ->
  (forall w, CAPP.parse_xml_file xml_file w =
             (Return None, w ++ [Log ERROR (ErrorParsing (xml_path xml_file) e)])%list)
  /\ (forall any_file w, exists r w', CAPP.parse_xml_file any_file w = (Return r, w'))
  /\ (forall batch_size rest st w,
        for_each (xml_file :: rest) (CAPP.loop_body batch_size) st w =
        for_each rest (CAPP.loop_body batch_size) st
          (w ++ [Log ERROR (ErrorParsing (xml_path xml_file) e)])%list)
  /\ (forall batch_size xml_files w,
        exists w', CAPP.process_xml_files batch_size xml_files w = (Return tt, w'))
  /\ (forall w,
        CASS.parse_xml_file xml_file w =
          (Return None, w ++ [Log ERROR (ErrorParsing (xml_path xml_file) e)])
        /\ INCA.parse_xml_file xml_file w =
          (Return None, w ++ [Log ERROR (ErrorParsing (xml_path xml_file) e)])
        /\ JADE.parse_xml_file xml_file w =
          (Return None, w ++ [Print (ErrorParsing (xml_path xml_file) e)]))
  /\ (forall any_file w,
        (exists r w', CASS.parse_xml_file any_file w = (Return r, w'))
        /\ (exists r w', INCA.parse_xml_file any_file w = (Return r, w'))
        /\ (exists r w', JADE.parse_xml_file any_file w = (Return r, w')))
  /\ (forall w, CNIL.parse_cnil_xml_file xml_file w =
                (Raise (match e with
                        | ParseError => ValueError e
                        | _ => RuntimeError e
                        end), w))
  /\ (forall root any_file w,
        xml_tree any_file = Return root ->
        find root [Self; Descendant "META_CNIL"] = None ->
        CNIL.parse_cnil_xml_file any_file w = (Raise (RuntimeError AttributeError), w))
  /\ (forall before rest w,
        Forall cnil_parses before ->
        CNIL.process_xml_files (before ++ xml_file :: rest) w =
        (Raise (match e with
                | ParseError => ValueError e
                | _ => RuntimeError e
                end), w)).
Proof.
  intros H. repeat split.
  - intros w. now apply CAPP_parse_failure.
  - intros any_file w. apply CAPP_parse_returns.
  - intros batch_size rest st w. apply for_each_cons.
    now apply CAPP_loop_body_failure.
  - intros batch_size xml_files w. apply CAPP_process_returns.
  - unfold CASS.parse_xml_file, try_except, bind, lift, ret, emit. now rewrite H.
  - unfold INCA.parse_xml_file, try_except, bind, lift, ret, emit. now rewrite H.
  - unfold JADE.parse_xml_file, try_except, bind, lift, ret, emit. now rewrite H.
  - unfold CASS.parse_xml_file, try_except, bind, lift, ret, emit.
    destruct (xml_tree any_file) as [root|e']; [|eauto].
    destruct (CASS.extract root); eauto.
  - unfold INCA.parse_xml_file, try_except, bind, lift, ret, emit.
    destruct (xml_tree any_file) as [root|e']; [|eauto].
    destruct (INCA.extract root); eauto.
  - unfold JADE.parse_xml_file, try_except, bind, lift, ret, emit.
    destruct (xml_tree any_file) as [root|e']; [|eauto].
    destruct (JADE.extract root); eauto.
  - intros w. now apply CNIL_parse_failure.
  - intros root any_file w. apply CNIL_parse_without_block.
  - intros before rest w Hb.
    destruct (CNIL_loop_prefix before [] w Hb) as [results Hr].
    unfold CNIL.process_xml_files. unfold bind at 1.
    rewrite (for_each_app _ _ (xml_file :: rest) _ _ _ _ Hr).
    rewrite (for_each_raise CNIL.loop_body xml_file rest results
               (match e with ParseError => ValueError e | _ => RuntimeError e end) w w).
    + reflexivity.
    + unfold CNIL.loop_body, bind. now rewrite (CNIL_parse_failure xml_file e w H).
Qed.

Lemma C2_witness :
  xml_tree (malformed "bad.xml") = Raise ParseError /\
  CAPP.parse_xml_file (malformed "bad.xml") [] =
    (Return None, [Log ERROR (ErrorParsing "bad.xml" ParseError)]).
Proof.
  split; [reflexivity|].
  exact (proj1 (C2_parse_failures (malformed "bad.xml") ParseError eq_refl) []).
Defined.

(** C3, as stated, fails in CNIL.py: the content keeps its inner runs of
    whitespace, only the two ends are stripped. *)
Lemma C3_cnil_contenu_is_not_normalized :
  find cnil_with_contenu [Self; Descendant "CONTENU"] = Some cnil_contenu /\
  Str.join (itertext cnil_contenu) = lit "  La  Commission decide. " /\
  clean_text (Some (Str.join (itertext cnil_contenu))) = lit "La Commission decide." /\
  exists data,
    CNIL.parse_cnil_xml_file (file "CNILTEXT000002.xml" cnil_with_contenu) []
    = (Return data, []) /\
    getitem data "contenu" = Some (Some (lit "La  Commission decide.")) /\
    getitem data "contenu"
    <> Some (Some (clean_text (Some (Str.join (itertext cnil_contenu))))).
Proof.
  repeat split; try reflexivity.
  eexists. repeat split; try reflexivity. discriminate.
Qed.

(** C3. When the document has a content block, the [contenu] of the record
    is made from all the text inside that block, nested elements
    included: in CAPP.py, INCA.py and CASS.py it is [clean_text] of the
    concatenation of [itertext()]; in CNIL.py it is that concatenation
    followed by the tail of the block, stripped of surrounding whitespace
    and not otherwise normalized. *)
Theorem C3_contenu_from_all_descendant_text
    (xml_file : XmlFile) (root contenu : Element) (w : World) :
  xml_tree xml_file = Return root ->
  find root [Self; Descendant "CONTENU"] = Some contenu ->
  (exists data, CAPP.parse_xml_file xml_file w = (Return (Some data), w) /\
     getitem data "contenu" = Some (Some (clean_text (Some (Str.join (itertext contenu))))))
  /\ (exists data, INCA.parse_xml_file xml_file w = (Return (Some data), w) /\
     getitem data "contenu" = Some (Some (clean_text (Some (Str.join (itertext contenu))))))
  /\ (exists data, CASS.parse_xml_file xml_file w = (Return (Some data), w) /\
     getitem data "contenu" = Some (Some (clean_text (Some (Str.join (itertext contenu))))))
  /\ (forall meta, find root [Self; Descendant "META_CNIL"] = Some meta ->
      exists data, CNIL.parse_cnil_xml_file xml_file w = (Return data, w) /\
        getitem data "contenu"
        = Some (Some (Str.strip (Str.join (itertext contenu ++ part (tail contenu)))))).
Proof.
  intros Hr Hc. repeat split.
  - assert (E : exists data, CAPP.extract root = Return data /\
        getitem data "contenu"
        = Some (Some (clean_text (Some (Str.join (itertext contenu)))))).
    { unfold CAPP.extract. rewrite Hc.
      destruct (find root [Self; Descendant "META_COMMUN"]) as [mc|];
      destruct (find root [Self; Descendant "META_JURI"]) as [mj|];
      destruct (find root [Self; Descendant "META_JURI_JUDI"]) as [mjj|];
      destruct (find root [Self; Descendant "SOMMAIRE"]) as [s|];
      rewrite ?CAPP_get_element_text;
      try destruct (find mjj [Self; Descendant "NUMERO_AFFAIRE"]);
      (eexists; split; reflexivity). }
    destruct E as (data & E & G). exists data. split; [|exact G].
    unfold CAPP.parse_xml_file, try_except, bind, lift, ret. now rewrite Hr, E.
  - assert (E : exists data, INCA.extract root = Return data /\
        getitem data "contenu"
        = Some (Some (clean_text (Some (Str.join (itertext contenu)))))).
    { unfold INCA.extract, INCA.meta_juri_fields, INCA.meta_juri_judi_fields,
        INCA.publie_bulletin, INCA.get_element_text.
      rewrite Hc.
      destruct (find root [Self; Descendant "META_COMMUN"]) as [mc|];
      destruct (find root [Self; Descendant "META_SPEC"]) as [ms|];
      try destruct (find ms [Self; Descendant "META_JURI"]) as [mj|];
      try destruct (find ms [Self; Descendant "META_JURI_JUDI"]) as [mjj|];
      destruct (find root [Self; Descendant "SOMMAIRE"]) as [s|];
      rewrite ?CAPP_get_element_text;
      try destruct (find mjj [Child "PUBLI_BULL"]);
      (eexists; split; reflexivity). }
    destruct E as (data & E & G). exists data. split; [|exact G].
    now apply INCA_parse_well_formed with root.
  - assert (E : exists data, CASS.extract root = Return data /\
        getitem data "contenu"
        = Some (Some (clean_text (Some (Str.join (itertext contenu)))))).
    { unfold CASS.extract, CASS.publie_bulletin, CASS.section_text,
        CASS.get_element_text.
      rewrite Hc.
      destruct (find root [Self; Descendant "META_COMMUN"]) as [mc|];
      destruct (find root [Self; Descendant "META_JURI"]) as [mj|];
      destruct (find root [Self; Descendant "META_JURI_JUDI"]) as [mjj|];
      destruct (find root [Self; Descendant "SOMMAIRE"]) as [s|];
      rewrite ?CAPP_get_element_text;
      try destruct (find mjj [Child "PUBLI_BULL"]);
      try destruct (find s [Self; Descendant "SCT"; AttrEq "TYPE" (lit "PRINCIPAL")]);
      try destruct (find s [Self; Descendant "SCT"; AttrEq "TYPE" (lit "REFERENCE")]);
      try destruct (find s [Self; Descendant "ANA"]);
      (eexists; split; reflexivity). }
    destruct E as (data & E & G). exists data. split; [|exact G].
    now apply CASS_parse_well_formed with root.
  - intros meta Hm.
    destruct (CNIL_extract_with_block root meta Hm) as [data E].
    exists data. split; [now apply CNIL_parse_well_formed with root|].
    unfold CNIL.extract in E. rewrite Hc in E.
    destruct (match find root [Self; Descendant "META_COMMUN"] with
              | Some _ => _ | None => _ end) as [d1|]; [|discriminate].
    cbn [rbind] in E.
    destruct (CNIL.read_fields _ _ d1) as [d2|]; [|discriminate].
    cbn [rbind] in E. injection E as <-.
    apply getitem_setitem_same.
Qed.

Lemma C3_witness :
  xml_tree (file "CNILTEXT000002.xml" cnil_with_contenu) = Return cnil_with_contenu /\
  find cnil_with_contenu [Self; Descendant "CONTENU"] = Some cnil_contenu /\
  exists data,
    CAPP.parse_xml_file (file "CNILTEXT000002.xml" cnil_with_contenu) []
    = (Return (Some data), []) /\
    getitem data "contenu" = Some (Some (lit "La Commission decide.")).
Proof.
  split; [reflexivity|]. split; [reflexivity|].
  exact (proj1 (C3_contenu_from_all_descendant_text
                  (file "CNILTEXT000002.xml" cnil_with_contenu)
                  cnil_with_contenu cnil_contenu [] eq_refl eq_refl)).
Defined.

(** C6, as stated, fails in INCA.py: without the [META_SPEC] container the
    specialized blocks of the document are not read, and the keys they
    feed stay empty. *)
Lemma C6_inca_ignores_blocks_outside_container :
  find inca_no_container [Self; Descendant "META_SPEC"] = None /\
  (exists meta_juri,
      find inca_no_container [Self; Descendant "META_JURI"] = Some meta_juri /\
      INCA.get_element_text meta_juri [Child "TITRE"]
      = Return (lit "Cour de cassation, 12 mai 2021")) /\
  exists data,
    INCA.parse_xml_file (file "JURITEXT000001.xml" inca_no_container) []
    = (Return (Some data), []) /\
    getitem data "id" = Some (Some (lit "JURITEXT000001")) /\
    getitem data "titre" = Some (Some (lit "")) /\
    getitem data "formation" = Some (Some (lit "")).
Proof.
  split; [reflexivity|]. split.
  - eexists. split; reflexivity.
  - eexists. repeat split; reflexivity.
Qed.

(** ** Dictionaries *)

Module DictFacts.

Lemma getitem_update_notin (other d : dict) k :
  ~ In k (keys other) -> getitem (update d other) k = getitem d k.
Proof.
  unfold update. revert d. induction other as [|[k1 v1] other IH]; intros d H.
  - reflexivity.
  - cbn [fold_left fst snd]. rewrite IH.
    + apply getitem_setitem_other. intros ->. apply H. now left.
    + intros Hin. apply H. now right.
Qed.

Lemma getitem_update_in (other d : dict) k :
  NoDup (keys other) -> In k (keys other) ->
  getitem (update d other) k = getitem other k.
Proof.
  unfold update. revert d. induction other as [|[k1 v1] other IH]; intros d Hnd Hin.
  - destruct Hin.
  - cbn [keys map fst] in Hnd, Hin. inversion Hnd as [|? ? Hk1 Hnd']. subst.
    cbn [fold_left fst snd]. unfold getitem at 2. cbn [assoc_get].
    destruct (String.eqb k k1) eqn:E.
    + apply String.eqb_eq in E. subst k1.
      change (fold_left _ other (setitem d k v1)) with (update (setitem d k v1) other).
      rewrite getitem_update_notin by exact Hk1.
      apply getitem_setitem_same.
    + destruct Hin as [->|Hin]; [now rewrite String.eqb_refl in E|].
      now apply IH.
Qed.

Lemma getitem_blank ks k :
  In k ks -> getitem (blank ks) k = Some (Some (lit "")).
Proof.
  unfold getitem, blank. induction ks as [|k1 ks IH]; [intros []|].
  intros H. cbn [map assoc_get]. destruct (String.eqb k k1) eqn:E; [reflexivity|].
  destruct H as [->|H]; [now rewrite String.eqb_refl in E | now apply IH].
Qed.

End DictFacts.

Module INCAFacts.
Import DictFacts INCASteps.

Lemma meta_juri_fields_returns meta_juri :
  exists d, INCA.meta_juri_fields meta_juri = Return d /\
            keys d = ["titre"; "date_decision"; "juridiction"; "numero"; "solution"].
Proof.
  unfold INCA.meta_juri_fields, INCA.get_element_text.
  rewrite ?CAPP_get_element_text. eexists. split; reflexivity.
Qed.

Lemma meta_juri_judi_fields_returns meta_juri_judi :
  exists d, INCA.meta_juri_judi_fields meta_juri_judi = Return d /\
            keys d = ["numero_affaire"; "publie_bulletin"; "formation";
                      "date_decision_attaquee"; "juridiction_attaquee";
                      "siege_appel"; "juridiction_premiere_instance";
                      "lieu_premiere_instance"; "demandeur"; "defendeur";
                      "president"; "avocat_general"; "avocats"; "rapporteur";
                      "ecli"].
Proof.
  unfold INCA.meta_juri_judi_fields, INCA.publie_bulletin, INCA.get_element_text.
  rewrite ?CAPP_get_element_text.
  destruct (find meta_juri_judi [Child "PUBLI_BULL"]); eexists; split; reflexivity.
Qed.

Lemma extract_without_container root :
  find root [Self; Descendant "META_SPEC"] = None ->
  INCA.extract root = Return (finish root (common root)).
Proof.
  intros H. unfold INCA.extract, finish, common, INCA.get_element_text. rewrite H.
  destruct (find root [Self; Descendant "META_COMMUN"]);
    rewrite ?CAPP_get_element_text; reflexivity.
Qed.

Lemma extract_with_container root meta_spec :
  find root [Self; Descendant "META_SPEC"] = Some meta_spec ->
  INCA.extract root =
    (data <- specialized meta_spec (common root) ;; Return (finish root data))%py.
Proof.
  intros H. unfold INCA.extract, finish, common, specialized, INCA.get_element_text.
  rewrite H.
  destruct (find root [Self; Descendant "META_COMMUN"]);
    rewrite ?CAPP_get_element_text; reflexivity.
Qed.

Lemma getitem_finish root data k :
  k <> "contenu" -> k <> "sommaire" ->
  getitem (finish root data) k = getitem data k.
Proof.
  intros Hc Hs. unfold finish.
  destruct (find root [Self; Descendant "CONTENU"]);
  destruct (find root [Self; Descendant "SOMMAIRE"]);
  rewrite ?getitem_setitem_other; auto.
Qed.

Lemma getitem_common root k :
  In k INCA_specialized_keys ->
  getitem (common root) k = Some (Some (lit "")).
Proof.
  intros H. unfold common.
  destruct (find root [Self; Descendant "META_COMMUN"]).
  - rewrite getitem_update_notin.
    + apply getitem_blank. unfold INCA_specialized_keys in H. cbn [In] in H.
      unfold INCA.declared_keys. cbn [In]. intuition.
    + unfold INCA_specialized_keys in H. cbn in H |- *.
      intuition (subst; discriminate).
  - apply getitem_blank. unfold INCA_specialized_keys in H. cbn [In] in H.
    unfold INCA.declared_keys. cbn [In]. intuition.
Qed.

End INCAFacts.

Import DictFacts INCASteps INCAFacts.

(** C6. INCA.py looks for the specialized blocks inside the [META_SPEC]
    container only.  With the container, the fields of the [META_JURI] and
    [META_JURI_JUDI] blocks found in it go into the record, and a block
    that is not found in it leaves every key it feeds at the empty
    string, whatever the document holds outside the container.  Without
    the container the blocks are not looked for anywhere else, and every
    key they feed keeps the empty string. *)
Theorem C6_inca_blocks_only_inside_container
    (xml_file : XmlFile) (root : Element) (w : World) :
  xml_tree xml_file = Return root ->
  (forall meta_spec,
      find root [Self; Descendant "META_SPEC"] = Some meta_spec ->
      exists data,
        INCA.parse_xml_file xml_file w = (Return (Some data), w) /\
        (forall meta_juri d k,
            find meta_spec [Self; Descendant "META_JURI"] = Some meta_juri ->
            INCA.meta_juri_fields meta_juri = Return d ->
            In k (keys d) -> getitem data k = getitem d k) /\
        (forall meta_juri_judi d k,
            find meta_spec [Self; Descendant "META_JURI_JUDI"] = Some meta_juri_judi ->
            INCA.meta_juri_judi_fields meta_juri_judi = Return d ->
            In k (keys d) -> getitem data k = getitem d k) /\
        (find meta_spec [Self; Descendant "META_JURI"] = None ->
         forall k, In k INCA_meta_juri_keys -> getitem data k = Some (Some (lit ""))) /\
        (find meta_spec [Self; Descendant "META_JURI_JUDI"] = None ->
         forall k, In k INCA_meta_juri_judi_keys ->
                   getitem data k = Some (Some (lit ""))))
  /\
  (find root [Self; Descendant "META_SPEC"] = None ->
   exists data,
     INCA.parse_xml_file xml_file w = (Return (Some data), w) /\
     forall k, In k INCA_specialized_keys -> getitem data k = Some (Some (lit ""))).
Proof.
  intros Hr.
  assert (J : forall k, In k INCA_meta_juri_keys ->
                In k INCA_specialized_keys /\ k <> "contenu" /\ k <> "sommaire"
                /\ ~ In k INCA_meta_juri_judi_keys).
  { intros k Hk. unfold INCA_meta_juri_keys in Hk. cbn in Hk.
    unfold INCA_specialized_keys, INCA_meta_juri_judi_keys. cbn.
    intuition (subst; first [discriminate | tauto]). }
  assert (JJ : forall k, In k INCA_meta_juri_judi_keys ->
                In k INCA_specialized_keys /\ k <> "contenu" /\ k <> "sommaire"
                /\ ~ In k INCA_meta_juri_keys).
  { intros k Hk. unfold INCA_meta_juri_judi_keys in Hk. cbn in Hk.
    unfold INCA_specialized_keys, INCA_meta_juri_keys. cbn.
    intuition (subst; first [discriminate | tauto]). }
  split.
  - intros meta_spec Hs.
    pose proof (extract_with_container root meta_spec Hs) as E.
    unfold specialized in E.
    destruct (find meta_spec [Self; Descendant "META_JURI"]) as [mj|];
    destruct (find meta_spec [Self; Descendant "META_JURI_JUDI"]) as [mjj|];
    try (destruct (meta_juri_fields_returns mj) as (d1 & E1 & K1); rewrite E1 in E);
    try (destruct (meta_juri_judi_fields_returns mjj) as (d2 & E2 & K2);
         rewrite E2 in E);
    cbn [rbind] in E;
    (eexists; split; [apply (INCA_parse_well_formed xml_file root _ w Hr E)|]);
    (split; [intros mj' d k Hf Hd Hk
            | split; [intros mjj' d k Hf Hd Hk
                     | split; [intros Hf k Hk | intros Hf k Hk]]]);
    try discriminate;
    try (injection Hf as <-);
    try (rewrite E1 in Hd; injection Hd as <-);
    try (rewrite E2 in Hd; injection Hd as <-).
    + (* both blocks: a key of META_JURI *)
      rewrite getitem_finish, getitem_update_notin, getitem_update_in; trivial.
      * rewrite K1. repeat constructor; cbn; intuition discriminate.
      * rewrite K1 in Hk. rewrite K2. cbn in Hk |- *. intuition (subst; discriminate).
      * rewrite K1 in Hk. cbn in Hk. intuition (subst; discriminate).
      * rewrite K1 in Hk. cbn in Hk. intuition (subst; discriminate).
    + (* both blocks: a key of META_JURI_JUDI *)
      rewrite getitem_finish, getitem_update_in; trivial.
      * rewrite K2. repeat constructor; cbn; intuition discriminate.
      * rewrite K2 in Hk. cbn in Hk. intuition (subst; discriminate).
      * rewrite K2 in Hk. cbn in Hk. intuition (subst; discriminate).
    + (* META_JURI only: a key of META_JURI *)
      rewrite getitem_finish, getitem_update_in; trivial.
      * rewrite K1. repeat constructor; cbn; intuition discriminate.
      * rewrite K1 in Hk. cbn in Hk. intuition (subst; discriminate).
      * rewrite K1 in Hk. cbn in Hk. intuition (subst; discriminate).
    + (* META_JURI only: the keys of META_JURI_JUDI stay empty *)
      destruct (JJ k Hk) as (S & C1 & C2 & N).
      rewrite getitem_finish, getitem_update_notin by (trivial; now rewrite K1).
      now apply getitem_common.
    + (* META_JURI_JUDI only: a key of META_JURI_JUDI *)
      rewrite getitem_finish, getitem_update_in; trivial.
      * rewrite K2. repeat constructor; cbn; intuition discriminate.
      * rewrite K2 in Hk. cbn in Hk. intuition (subst; discriminate).
      * rewrite K2 in Hk. cbn in Hk. intuition (subst; discriminate).
    + (* META_JURI_JUDI only: the keys of META_JURI stay empty *)
      destruct (J k Hk) as (S & C1 & C2 & N).
      rewrite getitem_finish, getitem_update_notin by (trivial; now rewrite K2).
      now apply getitem_common.
    + (* neither block *)
      destruct (J k Hk) as (S & C1 & C2 & N).
      rewrite getitem_finish by trivial. now apply getitem_common.
    + destruct (JJ k Hk) as (S & C1 & C2 & N).
      rewrite getitem_finish by trivial. now apply getitem_common.
  - intros Hs. exists (finish root (common root)). split.
    + apply (INCA_parse_well_formed xml_file root _ w Hr).
      now apply extract_without_container.
    + intros k Hk. rewrite getitem_finish.
      * now apply getitem_common.
      * unfold INCA_specialized_keys in Hk. cbn in Hk. intuition (subst; discriminate).
      * unfold INCA_specialized_keys in Hk. cbn in Hk. intuition (subst; discriminate).
Qed.

Lemma C6_witness :
  xml_tree (file "JURITEXT000001.xml" inca_no_container) = Return inca_no_container /\
  find inca_no_container [Self; Descendant "META_SPEC"] = None /\
  exists data,
    INCA.parse_xml_file (file "JURITEXT000001.xml" inca_no_container) []
    = (Return (Some data), []) /\
    forall k, In k INCA_specialized_keys -> getitem data k = Some (Some (lit "")).
Proof.
  split; [reflexivity|]. split; [reflexivity|].
  exact (proj2 (C6_inca_blocks_only_inside_container
                  (file "JURITEXT000001.xml" inca_no_container)
                  inca_no_container [] eq_refl) eq_refl).
Defined.

(** A judicial block beside the container is not read, the one inside
    it is. *)
Example inca_block_beside_container :
  (exists meta_juri,
      find inca_beside_container [Self; Descendant "META_JURI"] = Some meta_juri /\
      INCA.get_element_text meta_juri [Child "TITRE"]
      = Return (lit "Cour de cassation, 12 mai 2021")) /\
  exists data,
    INCA.parse_xml_file (file "JURITEXT000002.xml" inca_beside_container) []
    = (Return (Some data), []) /\
    getitem data "titre" = Some (Some (lit "")) /\
    getitem data "formation" = Some (Some (lit "CHAMBRE_CIVILE_1")).
Proof.
  split.
  - eexists. split; reflexivity.
  - eexists. repeat split; reflexivity.
Qed.


Module JADEFacts.

Lemma clean_text_raises content : JADE.clean_text content = Raise (NameError "re").
Proof. reflexivity. Qed.

Lemma extract_with_content root contenu :
  find root [Self; Descendant "CONTENU"] = Some contenu ->
  JADE.extract root = Raise (NameError "re").
Proof.
  intros H. unfold JADE.extract, JADE.assign. rewrite H.
  destruct (find root [Self; Descendant "META_COMMUN"]);
  destruct (find root [Self; Descendant "META_JURI"]);
  destruct (find root [Self; Descendant "META_JURI_ADMIN"]);
  rewrite ?JADE_get_element_text; reflexivity.
Qed.

Lemma extract_without_content root :
  find root [Self; Descendant "CONTENU"] = None ->
  exists data, JADE.extract root = Return data /\ keys data = JADE.declared_keys.
Proof.
  intros H. unfold JADE.extract, JADE.assign. rewrite H.
  destruct (find root [Self; Descendant "META_COMMUN"]);
  destruct (find root [Self; Descendant "META_JURI"]);
  destruct (find root [Self; Descendant "META_JURI_ADMIN"]);
  rewrite ?JADE_get_element_text; eexists; split; reflexivity.
Qed.

End JADEFacts.

(** C9. JADE.py does not bind the name [re].  A well-formed document with
    a [CONTENU] element makes [clean_text] raise [NameError] for [re];
    [parse_xml_file] prints the error and returns [None], and the loop of
    [main] leaves [results] as they are.  A document without [CONTENU] is
    parsed into a record with all the declared keys, which the loop adds to
    [results]. *)
Theorem C9_jade_drops_documents_with_content
    (xml_file : XmlFile) (root : Element) (w : World) :
  xml_tree xml_file = Return root ->
  ~ In "re" JADE.globals
  /\
  (forall contenu,
      find root [Self; Descendant "CONTENU"] = Some contenu ->
      JADE.parse_xml_file xml_file w =
        (Return None, w ++ [Print (ErrorParsing (xml_path xml_file) (NameError "re"))])
      /\ forall results,
          JADE.loop_body xml_file results w =
          (Return results,
           w ++ [Print (ErrorParsing (xml_path xml_file) (NameError "re"))]))
  /\
  (find root [Self; Descendant "CONTENU"] = None ->
   exists data,
     JADE.parse_xml_file xml_file w = (Return (Some data), w)
     /\ keys data = JADE.declared_keys
     /\ forall results,
         JADE.loop_body xml_file results w = (Return (results ++ [data]), w)).
Proof.
  intros Hr. pose proof (JADE_parse_well_formed xml_file root w Hr) as P.
  split; [|split].
  - cbn. intuition discriminate.
  - intros contenu Hc. rewrite (JADEFacts.extract_with_content root contenu Hc) in P.
    split; [exact P|]. intros results. unfold JADE.loop_body, bind. now rewrite P.
  - intros Hc. destruct (JADEFacts.extract_without_content root Hc) as (data & E & K).
    rewrite E in P. exists data. split; [exact P|]. split; [exact K|].
    intros results. unfold JADE.loop_body, bind. rewrite P.
    destruct data as [|kv d]; [discriminate | reflexivity].
Qed.

Lemma C9_witness :
  xml_tree (file "CETATEXT000001.xml" jade_with_contenu) = Return jade_with_contenu /\
  find jade_with_contenu [Self; Descendant "CONTENU"] = Some jade_contenu /\
  JADE.parse_xml_file (file "CETATEXT000001.xml" jade_with_contenu) [] =
    (Return None, [Print (ErrorParsing "CETATEXT000001.xml" (NameError "re"))]).
Proof.
  split; [reflexivity|]. split; [reflexivity|].
  exact (proj1 (proj1 (proj2 (C9_jade_drops_documents_with_content
                                (file "CETATEXT000001.xml" jade_with_contenu)
                                jade_with_contenu [] eq_refl))
                 jade_contenu eq_refl)).
Defined.

(** ** The batch sink *)

Module SinkFacts.

(** *** json.dumps writes no line break *)

Lemma no_newline_app a b : no_newline a -> no_newline b -> no_newline (a ++ b).
Proof. intros Ha Hb. apply Forall_app. now split. Qed.

Lemma no_newline_lit_check s :
  forallb (fun c => negb (c =? newline)%N) s = true -> no_newline s.
Proof.
  intros H. apply Forall_forall. intros c Hc ->.
  rewrite forallb_forall in H. specialize (H _ Hc). now rewrite N.eqb_refl in H.
Qed.

Lemma hex_digit_no_newline d : Json.hex_digit d <> newline.
Proof.
  unfold Json.hex_digit, newline. destruct (d <? 10)%N; lia.
Qed.

Lemma escape_char_no_newline c : no_newline (Json.escape_char c).
Proof.
  unfold Json.escape_char.
  repeat match goal with
         | |- context [if ?b then _ else _] => destruct b eqn:?
         end;
    try (apply no_newline_lit_check; reflexivity).
  - repeat constructor; try (unfold newline; lia); apply hex_digit_no_newline.
  - repeat constructor. apply N.eqb_neq. assumption.
Qed.

Lemma encode_str_no_newline s : no_newline (Json.encode_str s).
Proof.
  unfold Json.encode_str. apply no_newline_app; [|apply no_newline_app].
  - apply no_newline_lit_check. reflexivity.
  - induction s as [|c s IH]; [constructor|].
    cbn [flat_map]. apply no_newline_app; [apply escape_char_no_newline | exact IH].
  - apply no_newline_lit_check. reflexivity.
Qed.

Lemma encode_item_no_newline kv : no_newline (Json.encode_item kv).
Proof.
  unfold Json.encode_item. apply no_newline_app; [apply encode_str_no_newline|].
  apply no_newline_app; [apply no_newline_lit_check; reflexivity|].
  destruct (snd kv); [apply encode_str_no_newline|].
  apply no_newline_lit_check. reflexivity.
Qed.

Lemma dumps_no_newline d : no_newline (Json.dumps d).
Proof.
  unfold Json.dumps. apply no_newline_app; [apply no_newline_lit_check; reflexivity|].
  apply no_newline_app; [|apply no_newline_lit_check; reflexivity].
  induction d as [|kv d IH]; [constructor|].
  cbn [Json.encode_items]. destruct d as [|kv' d]; [apply encode_item_no_newline|].
  apply no_newline_app; [apply encode_item_no_newline|].
  apply no_newline_app; [apply no_newline_lit_check; reflexivity | exact IH].
Qed.

Lemma line_count_app a b : line_count (a ++ b) = line_count a + line_count b.
Proof. apply count_occ_app. Qed.

Lemma line_count_no_newline s : no_newline s -> line_count s = 0.
Proof.
  intros H. apply count_occ_not_In. intros Hin.
  unfold no_newline in H. rewrite Forall_forall in H. now apply (H _ Hin).
Qed.

Lemma line_count_lines batch : line_count (lines batch) = length batch.
Proof.
  unfold lines. induction batch as [|item batch IH]; [reflexivity|].
  cbn [map concat length]. rewrite !line_count_app, IH.
  rewrite (line_count_no_newline _ (dumps_no_newline item)). reflexivity.
Qed.

(** *** One write operation *)

Lemma flushes_session batch rest :
  flushes_from None (session batch ++ rest) = length batch :: flushes_from None rest.
Proof.
  unfold session. cbn [app flushes_from].
  assert (L : forall k,
    flushes_from (Some k)
      ((map (fun item => Write (Json.dumps item ++ [newline])) batch ++ [Close]) ++ rest)
    = (k + length batch) :: flushes_from None rest).
  { induction batch as [|item batch IH]; intros k.
    - cbn. now rewrite Nat.add_0_r.
    - cbn [map app flushes_from option_map length]. rewrite IH. f_equal. lia. }
  now rewrite L.
Qed.

Lemma content_session batch acc rest :
  content_from acc (session batch ++ rest) = content_from (acc ++ lines batch) rest.
Proof.
  unfold session, lines. cbn [app content_from]. revert acc.
  induction batch as [|item batch IH]; intros acc.
  - cbn. now rewrite app_nil_r.
  - cbn [map app content_from concat]. rewrite IH, <- app_assoc. reflexivity.
Qed.

Lemma write_batch_session batch output_file w :
  CAPP.write_batch_to_jsonl reliable batch output_file ModeA w
  = (Return true, w ++ session batch).
Proof. apply CAPP_write_batch_returns. Qed.

(** *** The loop of [main] *)

Lemma CAPP_parses_well_formed xml_file root :
  xml_tree xml_file = Return root -> CAPP_parses xml_file = true.
Proof.
  intros H. unfold CAPP_parses.
  destruct (CAPP_parse_well_formed xml_file root [] H) as (kv & d & -> & _).
  reflexivity.
Qed.

Lemma CAPP_parses_failure xml_file e :
  xml_tree xml_file = Raise e -> CAPP_parses xml_file = false.
Proof.
  intros H. unfold CAPP_parses. now rewrite (CAPP_parse_failure xml_file e [] H).
Qed.

(** The events of the loop: the batches it writes are [loop_sizes], the
    batch it leaves has [loop_rest] records, and the file grows by one
    line for each record written. *)
Lemma CAPP_loop_observed batch_size xml_files :
  forall batch total w,
  exists batch' total' tr text,
    for_each xml_files (CAPP.loop_body batch_size) (batch, total) w
    = (Return (batch', total'), w ++ tr)
    /\ length batch' = loop_rest batch_size (length batch) (successes xml_files)
    /\ (forall rest,
          flushes_from None (tr ++ rest)
          = loop_sizes batch_size (length batch) (successes xml_files)
            ++ flushes_from None rest)
    /\ line_count text
       = list_sum (loop_sizes batch_size (length batch) (successes xml_files))
    /\ (forall acc rest,
          content_from acc (tr ++ rest) = content_from (acc ++ text) rest).
Proof.
  induction xml_files as [|f fs IH]; intros batch total w.
  - exists batch, total, [], []. cbn. unfold ret.
    rewrite app_nil_r. repeat split; trivial.
    intros acc rest. now rewrite app_nil_r.
  - destruct (xml_tree f) as [root|e] eqn:Hf.
    + destruct (CAPP_parse_well_formed f root w Hf) as (kv & d & Hp & _).
      unfold successes. cbn [filter]. rewrite (CAPP_parses_well_formed f root Hf).
      cbn [length]. fold (successes fs).
      cbn [loop_sizes loop_rest].
      destruct (batch_size <=? S (length batch)) eqn:Hb.
      * destruct (IH [] (S total)
                    ((w ++ session (batch ++ [kv :: d]))
                       ++ [Log INFO (Processed (S total))]))
          as (batch' & total' & tr & text & Hrun & Hlen & Hfl & Hlc & Hct).
        exists batch', total',
          (session (batch ++ [kv :: d]) ++ Log INFO (Processed (S total)) :: tr),
          (lines (batch ++ [kv :: d]) ++ text).
        repeat split.
        -- cbn [for_each]. unfold bind at 1. unfold CAPP.loop_body at 1.
           unfold bind at 1. rewrite Hp.
           rewrite length_app, Nat.add_1_r, Hb.
           unfold bind at 1. rewrite write_batch_session.
           unfold bind at 1. unfold emit at 1. unfold ret at 1.
           rewrite Hrun. f_equal. rewrite <- !app_assoc. reflexivity.
        -- exact Hlen.
        -- intros rest. rewrite <- app_assoc, flushes_session.
           cbn [app flushes_from]. rewrite Hfl, length_app, Nat.add_1_r.
           reflexivity.
        -- rewrite line_count_app, line_count_lines, Hlc, length_app, Nat.add_1_r.
           reflexivity.
        -- intros acc rest. rewrite <- app_assoc, content_session.
           cbn [app content_from]. rewrite Hct, app_assoc. reflexivity.
      * destruct (IH (batch ++ [kv :: d]) (S total) w)
          as (batch' & total' & tr & text & Hrun & Hlen & Hfl & Hlc & Hct).
        rewrite length_app, Nat.add_1_r in Hlen, Hfl, Hlc.
        exists batch', total', tr, text. repeat split; trivial.
        cbn [for_each]. unfold bind at 1. unfold CAPP.loop_body at 1.
        unfold bind at 1. rewrite Hp.
        rewrite length_app, Nat.add_1_r, Hb. unfold ret at 1. exact Hrun.
    + unfold successes. cbn [filter]. rewrite (CAPP_parses_failure f e Hf).
      fold (successes fs).
      destruct (IH batch total (w ++ [Log ERROR (ErrorParsing (xml_path f) e)]))
        as (batch' & total' & tr & text & Hrun & Hlen & Hfl & Hlc & Hct).
      exists batch', total', (Log ERROR (ErrorParsing (xml_path f) e) :: tr), text.
      repeat split; trivial.
      rewrite (for_each_cons _ _ _ _ _ _ _
                   (CAPP_loop_body_failure batch_size f e (batch, total) w Hf)).
        rewrite Hrun, <- app_assoc. reflexivity.
Qed.

(** Every record ends in a batch: nothing is left unwritten. *)
Lemma loop_sizes_total batch_size b n :
  list_sum (loop_sizes batch_size b n) + loop_rest batch_size b n = b + n.
Proof.
  revert b. induction n as [|n IH]; intros b; cbn [loop_sizes loop_rest].
  - cbn. lia.
  - destruct (batch_size <=? S b).
    + unfold list_sum in *. cbn [fold_right]. specialize (IH 0). lia.
    + specialize (IH (S b)). lia.
Qed.

(** The whole run, from an empty log. *)
Lemma CAPP_process_observed batch_size xml_files :
  let w := snd (CAPP.process_xml_files batch_size xml_files []) in
  let n := successes xml_files in
  flushes w
  = loop_sizes batch_size 0 n
    ++ match loop_rest batch_size 0 n with
       | O => []
       | S r => [S r]
       end
  /\ line_count (file_content w) = n.
Proof.
  destruct (CAPP_loop_observed batch_size xml_files [] 0 [Open ModeW; Close])
    as (batch' & total' & tr & text & Hrun & Hlen & Hfl & Hlc & Hct).
  cbn [length] in Hlen, Hfl, Hlc.
  pose proof (loop_sizes_total batch_size 0 (successes xml_files)) as Htot.
  rewrite <- Hlen, <- Hlc in Htot. cbn [Nat.add] in Htot.
  assert (E : CAPP.process_xml_files batch_size xml_files []
              = (Return tt,
                 Open ModeW :: Close
                   :: tr ++ match batch' with
                            | [] => []
                            | _ :: _ => session batch'
                            end
                      ++ [Log INFO (Completed total'); Log INFO DatasetSaved])).
  { unfold CAPP.process_xml_files, bind, emit. cbn [app]. rewrite Hrun.
    destruct batch' as [|b batch'].
    - unfold ret. cbn [app]. rewrite <- !app_assoc. reflexivity.
    - rewrite write_batch_session. unfold ret. cbn [app].
      rewrite <- !app_assoc. reflexivity. }
  cbv zeta. rewrite E. cbn [snd]. rewrite <- Hlen.
  unfold flushes, file_content. cbn [flushes_from content_from].
  rewrite Hfl, Hct. destruct batch' as [|b batch'].
  - cbn [app flushes_from content_from length]. cbn [length] in Htot. split; [reflexivity | lia].
  - rewrite flushes_session, content_session.
    cbn [app flushes_from content_from]. split; [reflexivity|].
    rewrite line_count_app, line_count_lines. lia.
Qed.

End SinkFacts.

(** C8. With a batch size of 2, a run of CAPP.py in which exactly five
    documents parse writes three batches, of 2, 2 and 1 records in that
    order, and leaves an output file of exactly five lines. *)
Theorem C8_batches_of_two (xml_files : list XmlFile) :
  length (filter CAPP_parses xml_files) = 5 ->
  let w := snd (CAPP.process_xml_files 2 xml_files []) in
  fst (CAPP.process_xml_files 2 xml_files []) = Return tt
  /\ flushes w = [2; 2; 1]
  /\ line_count (file_content w) = 5.
Proof.
  intros H w.
  destruct (SinkFacts.CAPP_process_observed 2 xml_files) as [Hf Hl].
  fold w in Hf, Hl. unfold successes in Hf, Hl. rewrite H in Hf, Hl.
  split; [|split; [exact Hf | exact Hl]].
  destruct (PipelineFacts.CAPP_process_returns 2 xml_files []) as [w' ->]. reflexivity.
Qed.

Lemma C8_witness :
  length (filter CAPP_parses six_files) = 5 /\
  flushes (snd (CAPP.process_xml_files 2 six_files [])) = [2; 2; 1] /\
  line_count (file_content (snd (CAPP.process_xml_files 2 six_files []))) = 5.
Proof.
  split; [reflexivity|].
  exact (proj2 (C8_batches_of_two six_files eq_refl)).
Defined.

(** The same run, computed. *)
Example six_files_run :
  flushes (snd (CAPP.process_xml_files 2 six_files [])) = [2; 2; 1] /\
  flushes (snd (CAPP.process_xml_files 3 six_files [])) = [3; 2] /\
  flushes (snd (CAPP.process_xml_files 5 six_files [])) = [5] /\
  line_count (file_content (snd (CAPP.process_xml_files 3 six_files []))) = 5.
Proof. vm_compute. repeat split. Qed.

(** * Further properties of the scripts *)

Import SinkFacts.

(** ** More on the normalizer *)

Module CleanFacts.
Import Re Str Scan ReFacts NormalizerFacts.

(** Passing over the characters of an occurrence. *)
Lemma replace_from_skip old new pre rest :
  replace_from old new (length pre) (pre ++ rest) = replace_from old new 0 rest.
Proof.
  induction pre as [|c pre IH]; [reflexivity|].
  cbn [length app replace_from]. exact IH.
Qed.

Lemma starts_with_split p s :
  starts_with p s = true -> exists rest, s = p ++ rest.
Proof.
  revert s. induction p as [|x p IH]; intros s H; [now exists s|].
  destruct s as [|y s]; [discriminate|]. cbn [starts_with] in H.
  apply andb_prop in H. destruct H as [Hx Hp]. apply N.eqb_eq in Hx. subst y.
  destruct (IH s Hp) as [rest ->]. now exists rest.
Qed.

(** At an occurrence the replacement is put out and the scan goes on
    after the occurrence. *)
Lemma replace_from_match x old new rest :
  replace_from (x :: old) new 0 ((x :: old) ++ rest)
  = new ++ replace_from (x :: old) new 0 rest.
Proof.
  cbn [app replace_from].
  replace (starts_with (x :: old) (x :: old ++ rest)) with true.
  - f_equal. cbn [length pred]. apply replace_from_skip.
  - symmetry. change (x :: old ++ rest) with ((x :: old) ++ rest).
    apply starts_with_app. clear. induction (x :: old) as [|y l IH]; [reflexivity|].
    cbn. now rewrite N.eqb_refl.
Qed.

(** Induction along the scan of [replace]. *)
Lemma replace_ind x old (P : pystr -> Prop) :
  P [] ->
  (forall rest, P rest -> P ((x :: old) ++ rest)) ->
  (forall c r, starts_with (x :: old) (c :: r) = false -> P r -> P (c :: r)) ->
  forall s, P s.
Proof.
  intros Hnil Hmatch Hcopy s.
  remember (length s) as n eqn:E. revert s E.
  induction n as [n IH] using lt_wf_ind. intros s E.
  destruct s as [|c r]; [exact Hnil|].
  destruct (starts_with (x :: old) (c :: r)) eqn:Hs.
  - destruct (starts_with_split _ _ Hs) as [rest Hr]. rewrite Hr.
    apply Hmatch. apply (IH (length rest)); [|reflexivity].
    subst n. rewrite Hr, length_app. cbn. lia.
  - apply Hcopy; [exact Hs|]. apply (IH (length r)); [subst n; cbn; lia | reflexivity].
Qed.

Lemma collapsed_app_no_space a t :
  no_space a = true -> collapsed (a ++ t) = collapsed t.
Proof.
  induction a as [|c a IH]; [reflexivity|].
  cbn [no_space forallb]. intros H. apply andb_prop in H. destruct H as [Hc Ha].
  apply negb_true_iff in Hc. cbn [app collapsed]. rewrite Hc. cbn. now apply IH.
Qed.

Lemma collapsed_suffix a t : collapsed (a ++ t) = true -> collapsed t = true.
Proof.
  induction a as [|c a IH]; [trivial|].
  cbn [app collapsed]. intros H. apply andb_prop in H. now apply IH.
Qed.

(** Replacing an occurrence that starts with a character other than
    whitespace by a non-empty text without whitespace keeps single spaces
    single. *)
Lemma replace_collapsed x old new s :
  is_space x = false -> new <> [] -> no_space new = true ->
  (lstripped s = true -> lstripped (replace (x :: old) new s) = true)
  /\ (collapsed s = true -> collapsed (replace (x :: old) new s) = true).
Proof.
  intros Hx Hne Hnew. unfold replace.
  induction s as [|rest IH|c r Hs IH] using (replace_ind x old).
  - split; trivial.
  - rewrite replace_from_match. split.
    + intros _. destruct new as [|d new]; [congruence|].
      cbn in Hnew |- *. now apply andb_prop in Hnew.
    + intros H. rewrite (collapsed_app_no_space _ _ Hnew).
      apply IH. now apply collapsed_suffix in H.
  - cbn [replace_from]. rewrite Hs. split.
    + trivial.
    + cbn [collapsed]. intros H. apply andb_prop in H. destruct H as [H1 H2].
      destruct IH as [IHl IHc]. rewrite (IHc H2), andb_true_r.
      destruct (is_space c); [|reflexivity].
      apply andb_prop in H1. destruct H1 as [-> Hr]. now rewrite IHl.
Qed.

Lemma decode_collapsed s : collapsed s = true -> collapsed (decode s) = true.
Proof.
  intros H. unfold decode.
  repeat (apply replace_collapsed; [reflexivity | discriminate | reflexivity |]).
  exact H.
Qed.

Lemma clean_text_cases v :
  clean_text v = match v with
                 | Some x => strip (decode (sub_spaces (sub_tags x)))
                 | None => []
                 end.
Proof. destruct v as [x|]; [apply clean_text_unfold | reflexivity]. Qed.

(** A text [rstrip] leaves alone does not end with whitespace; a collapsed
    one has only single spaces, each before a character that is not
    whitespace. *)
Lemma rstrip_fixed_last a c : rstrip (a ++ [c]) = a ++ [c] -> is_space c = false.
Proof.
  induction a as [|d a IH].
  - cbn. destruct (is_space c); [discriminate | trivial].
  - cbn [app]. rewrite rstrip_cons. destruct (rstrip (a ++ [c])) eqn:E.
    + destruct (is_space d); [discriminate|]. intros [= H].
      now destruct a.
    + intros [= H]. apply IH. exact H.
Qed.

Lemma collapsed_at a c b :
  collapsed (a ++ c :: b) = true -> is_space c = true ->
  c = space /\ lstripped b = true.
Proof.
  intros H Hc. apply collapsed_suffix in H. cbn [collapsed] in H.
  rewrite Hc in H. apply andb_prop in H. destruct H as [H _].
  apply andb_prop in H. destruct H as [H1 H2]. apply N.eqb_eq in H1. now split.
Qed.

End CleanFacts.

(** X1. Whatever the text, the result of [clean_text] does not start or
    end with whitespace, and every whitespace character in it is a single
    U+0020 between two characters that are not whitespace. *)
Theorem X1_clean_text_whitespace_normal (v : pyval) (a b : pystr) (c : N) :
  clean_text v = a ++ c :: b -> Re.is_space c = true ->
  c = Re.space
  /\ (exists a' d, a = a' ++ [d] /\ Re.is_space d = false)
  /\ (exists e b', b = e :: b' /\ Re.is_space e = false).
Proof.
  intros E Hc.
  assert (Hcol : Scan.collapsed (clean_text v) = true).
  { rewrite CleanFacts.clean_text_cases. destruct v as [x|]; [|reflexivity].
    apply NormalizerFacts.strip_collapsed, CleanFacts.decode_collapsed,
      ReFacts.sub_spaces_collapsed. }
  assert (Hl : Scan.lstripped (clean_text v) = true).
  { rewrite CleanFacts.clean_text_cases. destruct v as [x|]; [|reflexivity].
    apply ReFacts.rstrip_lstripped, ReFacts.lstrip_lstripped. }
  assert (Hr : Str.rstrip (clean_text v) = clean_text v).
  { rewrite CleanFacts.clean_text_cases. destruct v as [x|]; [|reflexivity].
    apply ReFacts.rstrip_idempotent. }
  rewrite E in Hcol, Hl, Hr.
  destruct (CleanFacts.collapsed_at a c b Hcol Hc) as [-> Hb].
  split; [reflexivity|]. split.
  - destruct a as [|a0 a] using rev_ind.
    + cbn in Hl. rewrite Hc in Hl. discriminate.
    + exists a, a0. split; [reflexivity|].
      destruct (Re.is_space a0) eqn:Ha; [|reflexivity].
      rewrite <- app_assoc in Hcol. cbn [app] in Hcol.
      destruct (CleanFacts.collapsed_at a a0 (Re.space :: b) Hcol Ha) as [_ H].
      cbn in H. rewrite Hc in H. discriminate.
  - destruct b as [|e b'].
    + apply CleanFacts.rstrip_fixed_last in Hr. congruence.
    + exists e, b'. split; [reflexivity|]. cbn in Hb. now apply negb_true_iff in Hb.
Qed.

Lemma X1_witness :
  clean_text (Some (lit " <p>Vu  la loi</p> ")) = lit "Vu" ++ 32%N :: lit "la loi"
  /\ Re.is_space 32 = true
  /\ 32%N = Re.space.
Proof.
  split; [reflexivity|]. split; [reflexivity|].
  exact (proj1 (X1_clean_text_whitespace_normal
                  (Some (lit " <p>Vu  la loi</p> ")) (lit "Vu") (lit "la loi") 32%N
                  eq_refl eq_refl)).
Defined.

Module PlainFacts.
Import Re Str Scan ReFacts NormalizerFacts.

Lemma no_lt_notag x : ~ In 60%N x -> notag x = true.
Proof.
  induction x as [|c r IH]; [reflexivity|]. intros H.
  cbn [notag]. rewrite IH by (intros Hin; apply H; now right).
  replace (is_lt c) with false; [reflexivity|].
  symmetry. apply N.eqb_neq. intros ->. apply H. now left.
Qed.

Lemma starts_with_head x p s : starts_with (x :: p) s = true -> In x s.
Proof.
  destruct s as [|y s]; [discriminate|]. cbn [starts_with]. intros H.
  apply andb_prop in H. destruct H as [H _]. apply N.eqb_eq in H. now left.
Qed.

Lemma contains_head x p s : contains (x :: p) s = true -> In x s.
Proof.
  induction s as [|c r IH]; [discriminate|].
  rewrite contains_cons. intros H. apply orb_prop in H. destruct H as [H|H].
  - now apply starts_with_head in H.
  - right. now apply IH.
Qed.

Lemma no_amp_no_entity x : ~ In 38%N x -> has_entity x = false.
Proof.
  intros H. unfold has_entity, entities. cbn [existsb].
  repeat match goal with
         | |- context [contains ?e x] =>
             let E := fresh "E" in
             destruct (contains e x) eqn:E;
             [exfalso; apply H; exact (contains_head _ _ _ E)|]
         end.
  reflexivity.
Qed.

Lemma all_space_lstrip x : forallb is_space x = true -> lstrip x = [].
Proof.
  induction x as [|c r IH]; [reflexivity|]. cbn [forallb lstrip]. intros H.
  apply andb_prop in H. destruct H as [-> H]. now apply IH.
Qed.

Lemma all_space_no_lt x : forallb is_space x = true -> ~ In 60%N x.
Proof.
  intros H Hin. rewrite forallb_forall in H. now specialize (H _ Hin).
Qed.

Lemma all_space_no_amp x : forallb is_space x = true -> ~ In 38%N x.
Proof.
  intros H Hin. rewrite forallb_forall in H. now specialize (H _ Hin).
Qed.

(** Without ['<'] and ['&'] only the whitespace is touched. *)
Lemma clean_text_no_markup (x : pystr) :
  ~ In 60%N x -> ~ In 38%N x -> clean_text (Some x) = strip (sub_spaces x).
Proof.
  intros Hlt Hamp.
  rewrite (clean_text_plain x (no_amp_no_entity x Hamp)).
  now rewrite (notag_fixed x (no_lt_notag x Hlt)).
Qed.

End PlainFacts.

(** X2. On a text without ['<'] and without ['&'], [clean_text] only
    normalizes the whitespace; so such a text whose whitespace is already
    normal is returned as it is. *)
Theorem X2_clean_text_plain_text (x : pystr) :
  ~ In 60%N x -> ~ In 38%N x ->
  clean_text (Some x) = Str.strip (Re.sub_spaces x)
  /\ (Str.strip (Re.sub_spaces x) = x -> clean_text (Some x) = x).
Proof.
  intros Hlt Hamp.
  pose proof (PlainFacts.clean_text_no_markup x Hlt Hamp) as E.
  split; [exact E | congruence].
Qed.

Lemma X2_witness :
  ~ In 60%N (lit "Cour d'appel de Paris") /\ ~ In 38%N (lit "Cour d'appel de Paris")
  /\ clean_text (Some (lit "Cour d'appel de Paris")) = lit "Cour d'appel de Paris".
Proof.
  assert (H1 : ~ In 60%N (lit "Cour d'appel de Paris")) by (cbn; intuition discriminate).
  assert (H2 : ~ In 38%N (lit "Cour d'appel de Paris")) by (cbn; intuition discriminate).
  split; [exact H1|]. split; [exact H2|].
  exact (proj2 (X2_clean_text_plain_text (lit "Cour d'appel de Paris") H1 H2) eq_refl).
Defined.

(** X3. A text made of whitespace only is cleaned to the empty string. *)
Theorem X3_clean_text_blank (x : pystr) :
  forallb Re.is_space x = true -> clean_text (Some x) = lit "".
Proof.
  intros H.
  rewrite (PlainFacts.clean_text_no_markup x (PlainFacts.all_space_no_lt x H)
             (PlainFacts.all_space_no_amp x H)).
  destruct x as [|c r]; [reflexivity|].
  cbn [forallb] in H. apply andb_prop in H. destruct H as [Hc Hr].
  rewrite ReFacts.sub_spaces_cons, Hc, (PlainFacts.all_space_lstrip r Hr).
  reflexivity.
Qed.

Lemma X3_witness :
  forallb Re.is_space [9; 10; 32; 160]%N = true
  /\ clean_text (Some [9; 10; 32; 160]%N) = lit "".
Proof.
  split; [reflexivity | apply X3_clean_text_blank; reflexivity].
Defined.

(** X4. On a text without any of the five escape sequences, no tag is
    left in the result of [clean_text]: substituting the tag pattern again
    changes nothing. *)
Theorem X4_clean_text_leaves_no_tag (x : pystr) :
  Scan.has_entity x = false ->
  Scan.notag (clean_text (Some x)) = true
  /\ Re.sub_tags (clean_text (Some x)) = clean_text (Some x).
Proof.
  intros H. rewrite (NormalizerFacts.clean_text_plain x H).
  assert (N : Scan.notag (Str.strip (Re.sub_spaces (Re.sub_tags x))) = true)
    by apply NormalizerFacts.strip_notag, ReFacts.sub_spaces_notag,
         ReFacts.sub_tags_notag.
  split; [exact N | now apply ReFacts.notag_fixed].
Qed.

Lemma X4_witness :
  Scan.has_entity (lit "<p>a <b>c</b></p> d > e") = false
  /\ clean_text (Some (lit "<p>a <b>c</b></p> d > e")) = lit "a c d > e"
  /\ Re.sub_tags (lit "a c d > e") = lit "a c d > e".
Proof.
  split; [reflexivity|]. split; [reflexivity|].
  exact (proj2 (X4_clean_text_leaves_no_tag (lit "<p>a <b>c</b></p> d > e") eq_refl)).
Defined.

Module RecordFacts.

Lemma rbind_returns {A B} (P : A -> Prop) (Q : B -> Prop)
    (m : result A) (k : A -> result B) :
  (exists a, m = Return a /\ P a) ->
  (forall a, P a -> exists b, k a = Return b /\ Q b) ->
  exists b, rbind m k = Return b /\ Q b.
Proof. intros (a & -> & Ha) Hk. cbn. now apply Hk. Qed.

Lemma assoc_get_In {V} k (l : list (string * V)) v :
  assoc_get k l = Some v -> In (k, v) l.
Proof.
  induction l as [|[k' v'] l IH]; [discriminate|]. cbn [assoc_get].
  destruct (String.eqb k k') eqn:E.
  - apply String.eqb_eq in E. subst k'. intros [= ->]. now left.
  - intros H. right. now apply IH.
Qed.

Lemma cleaned_but_getitem key d k v :
  cleaned_but key d -> getitem d k = Some v -> k <> key ->
  exists t, v = Some (clean_text t).
Proof.
  intros H G Hk. apply assoc_get_In in G. unfold cleaned_but in H.
  rewrite Forall_forall in H. destruct (H _ G) as [E|E]; [contradiction | exact E].
Qed.

Lemma cleaned_but_setitem key d k v :
  cleaned_but key d -> (k = key \/ exists t, v = Some (clean_text t)) ->
  cleaned_but key (setitem d k v).
Proof.
  intros H Hv. induction H as [|[k' v'] d Hkv Hd IH]; cbn [setitem].
  - constructor; [exact Hv | constructor].
  - destruct (String.eqb k k'); constructor; trivial.
Qed.

Lemma cleaned_but_update key d other :
  cleaned_but key d -> cleaned_but key other -> cleaned_but key (update d other).
Proof.
  intros Hd Ho. unfold update. revert d Hd.
  induction Ho as [|[k v] other Hkv Ho IH]; intros d Hd; [exact Hd|].
  cbn [fold_left fst snd]. apply IH. now apply cleaned_but_setitem.
Qed.

Lemma cleaned_but_blank key ks : cleaned_but key (blank ks).
Proof.
  unfold blank. induction ks as [|k ks IH]; constructor; [|exact IH].
  right. now exists None.
Qed.

Lemma apart_notin ks others k : apart ks others = true -> In k ks -> ~ In k others.
Proof.
  unfold apart. rewrite forallb_forall. intros H Hk Ho.
  specialize (H k Hk). apply negb_true_iff in H.
  assert (existsb (String.eqb k) others = true); [|congruence].
  apply existsb_exists. exists k. split; [exact Ho | apply String.eqb_refl].
Qed.

Lemma blank_on_update ks d other :
  blank_on ks d -> apart ks (keys other) = true -> blank_on ks (update d other).
Proof.
  intros H Ha k Hk. rewrite getitem_update_notin; [now apply H|].
  now apply (apart_notin ks).
Qed.

Lemma blank_on_setitem ks d key v :
  blank_on ks d -> apart ks [key] = true -> blank_on ks (setitem d key v).
Proof.
  intros H Ha k Hk. rewrite getitem_setitem_other; [now apply H|].
  intros ->. apply (apart_notin ks [k] k Ha Hk). now left.
Qed.

Lemma blank_on_blank ks all :
  forallb (fun k => existsb (String.eqb k) all) ks = true -> blank_on ks (blank all).
Proof.
  rewrite forallb_forall. intros H k Hk. apply getitem_blank.
  specialize (H k Hk). apply existsb_exists in H. destruct H as (k' & Hin & E).
  apply String.eqb_eq in E. now subst k'.
Qed.

Lemma blank_on_incl ks ks' d :
  blank_on ks d -> forallb (fun k => existsb (String.eqb k) ks) ks' = true ->
  blank_on ks' d.
Proof.
  rewrite forallb_forall. intros H Hi k Hk. apply H.
  specialize (Hi k Hk). apply existsb_exists in Hi. destruct Hi as (k' & Hin & E).
  apply String.eqb_eq in E. now subst k'.
Qed.

Lemma CAPP_extract_record root :
  exists data, CAPP.extract root = Return data /\ CAPP_record root data.
Proof.
  unfold CAPP.extract, CAPP_record, CAPP_numero_affaire. cbv zeta.
  set (K2 := ["titre"; "date_decision"; "juridiction"; "numero"; "solution"]).
  set (K3 := ["numero_affaire"; "formation"; "siege_appel";
              "juridiction_premiere_instance"; "lieu_premiere_instance";
              "president"; "avocat_general"; "avocats"; "rapporteur"]).
  set (K1 := ["id"; "ancien_id"; "origine"; "url"; "nature"]).
  apply (rbind_returns (fun data =>
    cleaned_but "numero_affaire" data
    /\ blank_on (K2 ++ K3 ++ ["contenu"; "sommaire"]) data
    /\ (find root [Self; Descendant "META_COMMUN"] = None -> blank_on K1 data))).
  { destruct (find root [Self; Descendant "META_COMMUN"]) as [mc|].
    - (rewrite ?CAPP_get_element_text; cbn [display str rbind dot_text dot_get]). eexists. split; [reflexivity|]. split; [|split].
      + apply cleaned_but_update; [apply cleaned_but_blank | cleaned].
      + apply blank_on_update; [now apply blank_on_blank | reflexivity].
      + discriminate.
    - eexists. split; [reflexivity|]. split; [|split].
      + apply cleaned_but_blank.
      + now apply blank_on_blank.
      + intros _. now apply blank_on_blank. }
  intros data1 (S1 & B1 & C1).
  apply (rbind_returns (fun data =>
    cleaned_but "numero_affaire" data
    /\ blank_on (K3 ++ ["contenu"; "sommaire"]) data
    /\ (find root [Self; Descendant "META_COMMUN"] = None -> blank_on K1 data)
    /\ (find root [Self; Descendant "META_JURI"] = None -> blank_on K2 data))).
  { destruct (find root [Self; Descendant "META_JURI"]) as [mj|].
    - (rewrite ?CAPP_get_element_text; cbn [display str rbind dot_text dot_get]). eexists. split; [reflexivity|]. split; [|split; [|split]].
      + apply cleaned_but_update; [exact S1 | cleaned].
      + apply blank_on_update; [|reflexivity].
        eapply blank_on_incl; [exact B1 | reflexivity].
      + intros H. apply blank_on_update; [now apply C1 | reflexivity].
      + discriminate.
    - eexists. split; [reflexivity|]. split; [|split; [|split]]; trivial.
      + eapply blank_on_incl; [exact B1 | reflexivity].
      + intros _. eapply blank_on_incl; [exact B1 | reflexivity]. }
  intros data2 (S2 & B2 & C2 & J2).
  apply (rbind_returns (fun data =>
    cleaned_but "numero_affaire" data
    /\ blank_on ["contenu"; "sommaire"] data
    /\ getitem data "numero_affaire"
       = Some match find root [Self; Descendant "META_JURI_JUDI"] with
              | Some meta_juri_judi =>
                  match find meta_juri_judi [Self; Descendant "NUMERO_AFFAIRE"] with
                  | Some numero_affaire => text numero_affaire
                  | None => Some (lit "")
                  end
              | None => Some (lit "")
              end
    /\ (find root [Self; Descendant "META_COMMUN"] = None -> blank_on K1 data)
    /\ (find root [Self; Descendant "META_JURI"] = None -> blank_on K2 data)
    /\ (find root [Self; Descendant "META_JURI_JUDI"] = None -> blank_on K3 data))).
  { destruct (find root [Self; Descendant "META_JURI_JUDI"]) as [mjj|].
    - destruct (find mjj [Self; Descendant "NUMERO_AFFAIRE"]) as [na|];
        (rewrite ?CAPP_get_element_text; cbn [display str rbind dot_text dot_get]); (eexists; split; [reflexivity|]);
        (split; [|split; [|split; [|split; [|split]]]]).
      all: try discriminate.
      all: try (apply cleaned_but_update; [exact S2 | cleaned]).
      all: try (apply blank_on_update; [|reflexivity];
                eapply blank_on_incl; [exact B2 | reflexivity]).
      all: try (rewrite getitem_update_in;
                [reflexivity | repeat constructor; cbn; intuition discriminate
                | cbn; tauto]).
      all: intros H; apply blank_on_update; auto.
    - eexists. split; [reflexivity|].
      split; [|split; [|split; [|split; [|split]]]]; trivial.
      + eapply blank_on_incl; [exact B2 | reflexivity].
      + apply B2. cbn. tauto.
      + intros _. eapply blank_on_incl; [exact B2 | reflexivity]. }
  intros data3 (S3 & B3 & N3 & C3 & J3 & D3).
  eexists. split; [reflexivity|].
  destruct (find root [Self; Descendant "CONTENU"]) as [c|];
  destruct (find root [Self; Descendant "SOMMAIRE"]) as [s|];
  (split; [|split; [|split; [|split; [|split; [|split]]]]]).
  all: try discriminate.
  all: repeat (apply cleaned_but_setitem; [|right; eexists; reflexivity]); trivial.
  all: rewrite ?getitem_setitem_other by discriminate; trivial.
  all: try (intros H; repeat (apply blank_on_setitem; [|reflexivity]); auto; fail).
  all: intros _; repeat (apply blank_on_setitem; [|reflexivity]);
       eapply blank_on_incl; [exact B3 | reflexivity].
Qed.

Lemma INCA_extract_record root :
  exists data, INCA.extract root = Return data
    /\ cleaned_but "publie_bulletin" data
    /\ getitem data "publie_bulletin" = Some (INCA_publie_bulletin root).
Proof.
  unfold INCA.extract, INCA.meta_juri_fields, INCA.meta_juri_judi_fields,
    INCA.publie_bulletin, INCA.get_element_text, INCA_publie_bulletin, publie_of.
  cbv zeta.
  apply (rbind_returns (fun data =>
    cleaned_but "publie_bulletin" data /\ blank_on ["publie_bulletin"] data)).
  { destruct (find root [Self; Descendant "META_COMMUN"]) as [mc|].
    - (rewrite ?CAPP_get_element_text; cbn [display str rbind dot_text dot_get]). eexists. split; [reflexivity|]. split.
      + apply cleaned_but_update; [apply cleaned_but_blank | cleaned].
      + apply blank_on_update; [now apply blank_on_blank | reflexivity].
    - eexists. split; [reflexivity|]. split.
      + apply cleaned_but_blank.
      + now apply blank_on_blank. }
  intros data1 (S1 & B1).
  apply (rbind_returns (fun data =>
    cleaned_but "publie_bulletin" data
    /\ getitem data "publie_bulletin"
       = Some match find root [Self; Descendant "META_SPEC"] with
              | Some meta_spec =>
                  match find meta_spec [Self; Descendant "META_JURI_JUDI"] with
                  | Some meta_juri_judi =>
                      match find meta_juri_judi [Child "PUBLI_BULL"] with
                      | Some publi_bull => get publi_bull "publie"
                      | None => Some (lit "")
                      end
                  | None => Some (lit "")
                  end
              | None => Some (lit "")
              end)).
  { destruct (find root [Self; Descendant "META_SPEC"]) as [ms|].
    - apply (rbind_returns (fun data =>
        cleaned_but "publie_bulletin" data /\ blank_on ["publie_bulletin"] data)).
      { destruct (find ms [Self; Descendant "META_JURI"]) as [mj|].
        - (rewrite ?CAPP_get_element_text; cbn [display str rbind dot_text dot_get]). eexists. split; [reflexivity|]. split.
          + apply cleaned_but_update; [exact S1 | cleaned].
          + apply blank_on_update; [exact B1 | reflexivity].
        - eexists. split; [reflexivity|]. now split. }
      intros data2 (S2 & B2).
      destruct (find ms [Self; Descendant "META_JURI_JUDI"]) as [mjj|].
      + destruct (find mjj [Child "PUBLI_BULL"]) as [pb|];
          (rewrite ?CAPP_get_element_text; cbn [display str rbind dot_text dot_get]); (eexists; split; [reflexivity|]); split.
        all: try (apply cleaned_but_update; [exact S2 | cleaned]).
        all: rewrite getitem_update_in;
          [reflexivity | repeat constructor; cbn; intuition discriminate
          | cbn; tauto].
      + eexists. split; [reflexivity|]. split; [exact S2|]. apply B2. now left.
    - eexists. split; [reflexivity|]. split; [exact S1|]. apply B1. now left. }
  intros data3 (S3 & V3).
  eexists. split; [reflexivity|].
  destruct (find root [Self; Descendant "CONTENU"]) as [c|];
  destruct (find root [Self; Descendant "SOMMAIRE"]) as [s|]; split.
  all: repeat (apply cleaned_but_setitem; [|right; eexists; reflexivity]); trivial.
  all: rewrite ?getitem_setitem_other by discriminate; trivial.
Qed.

Lemma CASS_extract_record root :
  exists data, CASS.extract root = Return data /\ CASS_record root data.
Proof.
  unfold CASS.extract, CASS.publie_bulletin, CASS.section_text, CASS.get_element_text,
    CASS_record, CASS_publie_bulletin, publie_of, CASS_section.
  cbv zeta.
  set (K := ["sommaire_principal"; "sommaire_reference"; "sommaire_analyse"]).
  apply (rbind_returns (fun data =>
    cleaned_but "publie_bulletin" data /\ blank_on ("publie_bulletin" :: K) data)).
  { destruct (find root [Self; Descendant "META_COMMUN"]) as [mc|].
    - (rewrite ?CAPP_get_element_text; cbn [display str rbind dot_text dot_get]). eexists. split; [reflexivity|]. split.
      + apply cleaned_but_update; [apply cleaned_but_blank | cleaned].
      + apply blank_on_update; [now apply blank_on_blank | reflexivity].
    - eexists. split; [reflexivity|]. split.
      + apply cleaned_but_blank.
      + now apply blank_on_blank. }
  intros data1 (S1 & B1).
  apply (rbind_returns (fun data =>
    cleaned_but "publie_bulletin" data /\ blank_on ("publie_bulletin" :: K) data)).
  { destruct (find root [Self; Descendant "META_JURI"]) as [mj|].
    - (rewrite ?CAPP_get_element_text; cbn [display str rbind dot_text dot_get]). eexists. split; [reflexivity|]. split.
      + apply cleaned_but_update; [exact S1 | cleaned].
      + apply blank_on_update; [exact B1 | reflexivity].
    - eexists. split; [reflexivity|]. now split. }
  intros data2 (S2 & B2).
  apply (rbind_returns (fun data =>
    cleaned_but "publie_bulletin" data /\ blank_on K data
    /\ getitem data "publie_bulletin"
       = Some match find root [Self; Descendant "META_JURI_JUDI"] with
              | Some meta_juri_judi =>
                  match find meta_juri_judi [Child "PUBLI_BULL"] with
                  | Some publi_bull => get publi_bull "publie"
                  | None => Some (lit "")
                  end
              | None => Some (lit "")
              end)).
  { destruct (find root [Self; Descendant "META_JURI_JUDI"]) as [mjj|].
    - destruct (find mjj [Child "PUBLI_BULL"]) as [pb|];
        (rewrite ?CAPP_get_element_text; cbn [display str rbind dot_text dot_get]); (eexists; split; [reflexivity|]); (split; [|split]).
      all: try (apply cleaned_but_update; [exact S2 | cleaned]).
      all: try (apply blank_on_update; [|reflexivity];
                eapply blank_on_incl; [exact B2 | reflexivity]).
      all: rewrite getitem_update_in;
        [reflexivity | repeat constructor; cbn; intuition discriminate
        | cbn; tauto].
    - eexists. split; [reflexivity|]. split; [exact S2|]. split.
      + eapply blank_on_incl; [exact B2 | reflexivity].
      + apply B2. now left. }
  intros data3 (S3 & B3 & V3).
  assert (S4 : forall v,
    cleaned_but "publie_bulletin"
      match v with
      | Some contenu =>
          setitem data3 "contenu" (Some (clean_text (Some (Str.join (itertext contenu)))))
      | None => data3
      end).
  { intros [c|]; [|exact S3]. apply cleaned_but_setitem; [exact S3|].
    right. eexists. reflexivity. }
  assert (B4 : forall v,
    blank_on K
      match v with
      | Some contenu =>
          setitem data3 "contenu" (Some (clean_text (Some (Str.join (itertext contenu)))))
      | None => data3
      end).
  { intros [c|]; [|exact B3]. now apply blank_on_setitem. }
  assert (V4 : forall v,
    getitem
      match v with
      | Some contenu =>
          setitem data3 "contenu" (Some (clean_text (Some (Str.join (itertext contenu)))))
      | None => data3
      end "publie_bulletin" = getitem data3 "publie_bulletin").
  { intros [c|]; [|reflexivity]. now apply getitem_setitem_other. }
  destruct (find root [Self; Descendant "SOMMAIRE"]) as [s|].
  - destruct (find s [Self; Descendant "SCT"; AttrEq "TYPE" (lit "PRINCIPAL")])
      as [p|] eqn:Ep;
    destruct (find s [Self; Descendant "SCT"; AttrEq "TYPE" (lit "REFERENCE")])
      as [r|] eqn:Er;
    destruct (find s [Self; Descendant "ANA"]) as [a|] eqn:Ea;
    (rewrite ?CAPP_get_element_text; cbn [display str rbind dot_text dot_get]); (eexists; split; [reflexivity|]);
    (split; [|split; [|split]]).
    all: try discriminate.
    all: try (apply cleaned_but_update; [apply S4 | cleaned]).
    all: try (rewrite getitem_update_notin by (cbn; intuition discriminate);
              rewrite V4; exact V3).
    all: intros s' [= <-]; rewrite Ep, Er, Ea; repeat split;
      (rewrite getitem_update_in;
       [reflexivity | repeat constructor; cbn; intuition discriminate | cbn; tauto]).
  - eexists. split; [reflexivity|]. split; [apply S4|]. split; [|split].
    + rewrite V4. exact V3.
    + discriminate.
    + intros _. apply B4.
Qed.

End RecordFacts.

Import RecordFacts.

(** X5. For every well-formed document, the records of CAPP.py, INCA.py
    and CASS.py have exactly the declared keys, in the declared order,
    whichever blocks the document has. *)
Theorem X5_records_have_the_declared_keys
    (xml_file : XmlFile) (root : Element) (w : World) :
  xml_tree xml_file = Return root ->
  (exists data, CAPP.parse_xml_file xml_file w = (Return (Some data), w)
                /\ keys data = CAPP.declared_keys)
  /\ (exists data, INCA.parse_xml_file xml_file w = (Return (Some data), w)
                   /\ keys data = INCA.declared_keys)
  /\ (exists data, CASS.parse_xml_file xml_file w = (Return (Some data), w)
                   /\ keys data = CASS.declared_keys).
Proof.
  intros H. repeat split.
  - destruct (CAPP_extract_keys root) as (data & E & K). exists data. split; [|exact K].
    unfold CAPP.parse_xml_file, try_except, bind, lift, ret. now rewrite H, E.
  - destruct (INCA_extract_keys root) as (data & E & K). exists data. split; [|exact K].
    now apply INCA_parse_well_formed with root.
  - destruct (CASS_extract_keys root) as (data & E & K). exists data. split; [|exact K].
    now apply CASS_parse_well_formed with root.
Qed.

Lemma X5_witness :
  xml_tree (file "1.xml" cnil_no_commun) = Return cnil_no_commun
  /\ exists data, CAPP.parse_xml_file (file "1.xml" cnil_no_commun) []
                  = (Return (Some data), [])
                  /\ keys data = CAPP.declared_keys.
Proof.
  split; [reflexivity|].
  exact (proj1 (X5_records_have_the_declared_keys
                  (file "1.xml" cnil_no_commun) cnil_no_commun [] eq_refl)).
Defined.

(** X6. In a record of CAPP.py every value is a string that [clean_text]
    returned, so a text with normalized whitespace, except that of
    [numero_affaire], which is the raw text of the first [NUMERO_AFFAIRE]
    element of the judicial block: [None] when that element is empty, the
    empty string when the element or the block is missing. *)
Theorem X6_capp_values (xml_file : XmlFile) (root : Element) (w : World) :
  xml_tree xml_file = Return root ->
  exists data,
    CAPP.parse_xml_file xml_file w = (Return (Some data), w)
    /\ getitem data "numero_affaire" = Some (CAPP_numero_affaire root)
    /\ forall k v, getitem data k = Some v -> k <> "numero_affaire" ->
                   exists t, v = Some (clean_text t).
Proof.
  intros H. destruct (CAPP_extract_record root) as (data & E & S & V & _).
  exists data. split; [|split; [exact V|]].
  - unfold CAPP.parse_xml_file, try_except, bind, lift, ret. now rewrite H, E.
  - intros k v. now apply cleaned_but_getitem.
Qed.

Lemma X6_witness :
  xml_tree (file "1.xml" capp_empty_numero) = Return capp_empty_numero
  /\ exists data, CAPP.parse_xml_file (file "1.xml" capp_empty_numero) []
                  = (Return (Some data), [])
                  /\ getitem data "numero_affaire" = Some None.
Proof.
  split; [reflexivity|].
  destruct (X6_capp_values (file "1.xml" capp_empty_numero) capp_empty_numero []
              eq_refl) as (data & E & V & _).
  exists data. split; [exact E | exact V].
Defined.

(** X7. In a record of INCA.py or CASS.py every value is a string that
    [clean_text] returned, except
    that of [publie_bulletin], which is the [publie] attribute of the
    [PUBLI_BULL] child of the judicial block: [None] when the element has no
    such attribute, the empty string when the element or the block is
    missing. *)
Theorem X7_publie_bulletin_values (xml_file : XmlFile) (root : Element) (w : World) :
  xml_tree xml_file = Return root ->
  (exists data,
      INCA.parse_xml_file xml_file w = (Return (Some data), w)
      /\ getitem data "publie_bulletin" = Some (INCA_publie_bulletin root)
      /\ forall k v, getitem data k = Some v -> k <> "publie_bulletin" ->
                     exists t, v = Some (clean_text t))
  /\ (exists data,
      CASS.parse_xml_file xml_file w = (Return (Some data), w)
      /\ getitem data "publie_bulletin" = Some (CASS_publie_bulletin root)
      /\ forall k v, getitem data k = Some v -> k <> "publie_bulletin" ->
                     exists t, v = Some (clean_text t)).
Proof.
  intros H. split.
  - destruct (INCA_extract_record root) as (data & E & S & V).
    exists data. split; [now apply INCA_parse_well_formed with root|].
    split; [exact V|]. intros k v. now apply cleaned_but_getitem.
  - destruct (CASS_extract_record root) as (data & E & S & V & _).
    exists data. split; [now apply CASS_parse_well_formed with root|].
    split; [exact V|]. intros k v. now apply cleaned_but_getitem.
Qed.

Lemma X7_witness :
  xml_tree (file "1.xml" cass_no_publie) = Return cass_no_publie
  /\ exists data, CASS.parse_xml_file (file "1.xml" cass_no_publie) []
                  = (Return (Some data), [])
                  /\ getitem data "publie_bulletin" = Some None.
Proof.
  split; [reflexivity|].
  destruct (proj2 (X7_publie_bulletin_values (file "1.xml" cass_no_publie)
                     cass_no_publie [] eq_refl)) as (data & E & V & _).
  exists data. split; [exact E | exact V].
Defined.

(** X8. In CAPP.py a block that the document does not have leaves its
    keys at the empty string: the five keys of [META_COMMUN], the five of
    [META_JURI], the nine of [META_JURI_JUDI], [contenu] and [sommaire]. *)
Theorem X8_capp_missing_block_defaults
    (xml_file : XmlFile) (root : Element) (w : World) :
  xml_tree xml_file = Return root ->
  exists data,
    CAPP.parse_xml_file xml_file w = (Return (Some data), w)
    /\ (find root [Self; Descendant "META_COMMUN"] = None ->
        blank_on ["id"; "ancien_id"; "origine"; "url"; "nature"] data)
    /\ (find root [Self; Descendant "META_JURI"] = None ->
        blank_on ["titre"; "date_decision"; "juridiction"; "numero"; "solution"] data)
    /\ (find root [Self; Descendant "META_JURI_JUDI"] = None ->
        blank_on ["numero_affaire"; "formation"; "siege_appel";
                  "juridiction_premiere_instance"; "lieu_premiere_instance";
                  "president"; "avocat_general"; "avocats"; "rapporteur"] data)
    /\ (find root [Self; Descendant "CONTENU"] = None -> blank_on ["contenu"] data)
    /\ (find root [Self; Descendant "SOMMAIRE"] = None -> blank_on ["sommaire"] data).
Proof.
  intros H. destruct (CAPP_extract_record root) as (data & E & _ & _ & D).
  exists data. split; [|exact D].
  unfold CAPP.parse_xml_file, try_except, bind, lift, ret. now rewrite H, E.
Qed.

Lemma X8_witness :
  xml_tree (file "1.xml" capp_empty_numero) = Return capp_empty_numero
  /\ find capp_empty_numero [Self; Descendant "META_JURI"] = None
  /\ exists data, CAPP.parse_xml_file (file "1.xml" capp_empty_numero) []
                  = (Return (Some data), [])
                  /\ getitem data "titre" = Some (Some (lit "")).
Proof.
  split; [reflexivity|]. split; [reflexivity|].
  destruct (X8_capp_missing_block_defaults (file "1.xml" capp_empty_numero)
              capp_empty_numero [] eq_refl) as (data & E & _ & J & _).
  exists data. split; [exact E|]. apply (J eq_refl). now left.
Defined.

(** X9. In CASS.py the three sections of the summary go to three keys of
    their own: [sommaire_principal] is [clean_text] of the text of the
    first [SCT] element whose [TYPE] is [PRINCIPAL], [sommaire_reference]
    that of the first [SCT] whose [TYPE] is [REFERENCE], [sommaire_analyse]
    that of the first [ANA]; a section that is missing gives the empty
    string, and so does a missing [SOMMAIRE]. *)
Theorem X9_cass_summary_sections (xml_file : XmlFile) (root : Element) (w : World) :
  xml_tree xml_file = Return root ->
  exists data,
    CASS.parse_xml_file xml_file w = (Return (Some data), w)
    /\ (forall sommaire,
          find root [Self; Descendant "SOMMAIRE"] = Some sommaire ->
          getitem data "sommaire_principal"
          = Some (Some (CASS_section sommaire
                          [Self; Descendant "SCT"; AttrEq "TYPE" (lit "PRINCIPAL")]))
          /\ getitem data "sommaire_reference"
             = Some (Some (CASS_section sommaire
                             [Self; Descendant "SCT"; AttrEq "TYPE" (lit "REFERENCE")]))
          /\ getitem data "sommaire_analyse"
             = Some (Some (CASS_section sommaire [Self; Descendant "ANA"])))
    /\ (find root [Self; Descendant "SOMMAIRE"] = None ->
        blank_on ["sommaire_principal"; "sommaire_reference"; "sommaire_analyse"] data).
Proof.
  intros H. destruct (CASS_extract_record root) as (data & E & _ & _ & D).
  exists data. split; [|exact D]. now apply CASS_parse_well_formed with root.
Qed.

Lemma X9_witness :
  xml_tree (file "1.xml" cass_with_sommaire) = Return cass_with_sommaire
  /\ find cass_with_sommaire [Self; Descendant "SOMMAIRE"] = Some cass_sommaire
  /\ exists data,
       CASS.parse_xml_file (file "1.xml" cass_with_sommaire) []
       = (Return (Some data), [])
       /\ getitem data "sommaire_principal" = Some (Some (lit "RESPONSABILITE CIVILE"))
       /\ getitem data "sommaire_reference"
          = Some (Some (lit "Code civil, article 1382"))
       /\ getitem data "sommaire_analyse" = Some (Some (lit "Sur la faute")).
Proof.
  split; [reflexivity|]. split; [reflexivity|].
  destruct (X9_cass_summary_sections (file "1.xml" cass_with_sommaire)
              cass_with_sommaire [] eq_refl) as (data & E & S & _).
  exists data. split; [exact E|]. exact (S cass_sommaire eq_refl).
Defined.

Module JADERecordFacts.

(** Without a [CONTENU] element nothing is assigned to ['contenu']. *)
Lemma extract_contenu root data :
  JADE.extract root = Return data ->
  find root [Self; Descendant "CONTENU"] = None
  /\ getitem data "contenu" = Some (Some (lit ""))
  /\ keys data = JADE.declared_keys.
Proof.
  intros H.
  destruct (find root [Self; Descendant "CONTENU"]) as [c|] eqn:Ec.
  { rewrite (JADEFacts.extract_with_content root c Ec) in H. discriminate. }
  split; [reflexivity|].
  destruct (JADEFacts.extract_without_content root Ec) as (data' & E & K).
  rewrite E in H. injection H as <-. split; [|exact K].
  clear K. revert data' E.
  unfold JADE.extract, JADE.assign. rewrite Ec. cbv zeta.
  destruct (find root [Self; Descendant "META_COMMUN"]);
  destruct (find root [Self; Descendant "META_JURI"]);
  destruct (find root [Self; Descendant "META_JURI_ADMIN"]);
  rewrite ?JADE_get_element_text; cbn [rbind];
  intros data' [= <-]; reflexivity.
Qed.

Lemma loop_body_contenu xml_file results w :
  Forall (fun d => getitem d "contenu" = Some (Some (lit ""))) results ->
  exists results' w',
    JADE.loop_body xml_file results w = (Return results', w')
    /\ Forall (fun d => getitem d "contenu" = Some (Some (lit ""))) results'.
Proof.
  intros H. unfold JADE.loop_body, bind.
  destruct (xml_tree xml_file) as [root|e] eqn:Hx.
  - rewrite (JADE_parse_well_formed xml_file root w Hx).
    destruct (JADE.extract root) as [data|e] eqn:E.
    + destruct (extract_contenu root data E) as (_ & C & _).
      destruct data as [|kv d]; unfold ret; [eauto|].
      eexists. eexists. split; [reflexivity|].
      apply Forall_app. split; [exact H | now constructor].
    + unfold ret. eauto.
  - unfold JADE.parse_xml_file, try_except, bind, lift, ret, emit. rewrite Hx. eauto.
Qed.

End JADERecordFacts.

(** X10. Whatever the files, the loop of JADE.py's [main] returns, and no
    record it collects has a content: ['contenu'] is the empty string in
    every one of them. *)
Theorem X10_jade_dataset_has_no_content (xml_files : list XmlFile) (w : World) :
  exists results w',
    JADE.collect xml_files w = (Return results, w')
    /\ Forall (fun d => getitem d "contenu" = Some (Some (lit ""))) results.
Proof.
  unfold JADE.collect.
  assert (G : forall results w,
    Forall (fun d => getitem d "contenu" = Some (Some (lit ""))) results ->
    exists results' w',
      for_each xml_files JADE.loop_body results w = (Return results', w')
      /\ Forall (fun d => getitem d "contenu" = Some (Some (lit ""))) results').
  { induction xml_files as [|f fs IH]; intros results w0 H.
    - cbn. unfold ret. eauto.
    - destruct (JADERecordFacts.loop_body_contenu f results w0 H)
        as (r1 & w1 & E1 & H1).
      rewrite (for_each_cons _ _ _ _ _ _ _ E1). now apply IH. }
  apply G. constructor.
Qed.

Module RunFacts.

Lemma content_from_app acc w1 w2 :
  content_from acc (w1 ++ w2) = content_from (content_from acc w1) w2.
Proof.
  revert acc. induction w1 as [|ev w1 IH]; intros acc; [reflexivity|].
  destruct ev as [| |[|]| |]; cbn [app content_from]; apply IH.
Qed.

Lemma lines_app a b : lines (a ++ b) = lines a ++ lines b.
Proof. unfold lines. now rewrite map_app, concat_app. Qed.

Lemma content_session_from acc batch :
  content_from acc (session batch) = acc ++ lines batch.
Proof.
  pose proof (content_session batch acc []) as H.
  rewrite app_nil_r in H. exact H.
Qed.

Lemma parse_errors_app w1 w2 : parse_errors (w1 ++ w2) = parse_errors w1 ++ parse_errors w2.
Proof. apply flat_map_app. Qed.

Lemma completed_app w1 w2 : completed (w1 ++ w2) = completed w1 ++ completed w2.
Proof. apply flat_map_app. Qed.

Lemma processed_app w1 w2 : processed (w1 ++ w2) = processed w1 ++ processed w2.
Proof. apply flat_map_app. Qed.

Lemma parse_errors_session batch : parse_errors (session batch) = [].
Proof.
  unfold session. cbn [parse_errors flat_map app]. rewrite flat_map_app.
  cbn. rewrite app_nil_r. induction batch as [|item batch IH]; [reflexivity|exact IH].
Qed.

Lemma completed_session batch : completed (session batch) = [].
Proof.
  unfold session. cbn [completed flat_map app]. rewrite flat_map_app.
  cbn. rewrite app_nil_r. induction batch as [|item batch IH]; [reflexivity|exact IH].
Qed.

Lemma processed_session batch : processed (session batch) = [].
Proof.
  unfold session. cbn [processed flat_map app]. rewrite flat_map_app.
  cbn. rewrite app_nil_r. induction batch as [|item batch IH]; [reflexivity|exact IH].
Qed.

(** *** One call of [write_batch_to_jsonl], on any file system *)






(** *** The three parsers catch *)

Lemma CAPP_catching : catching CAPP.parse_xml_file.
Proof.
  intros f. destruct (xml_tree f) as [root|e] eqn:Hf.
  - left. destruct (CAPP_extract_keys root) as (data & E & K).
    destruct data as [|kv d]; [discriminate|]. exists kv, d. intros w.
    unfold CAPP.parse_xml_file, try_except, bind, lift, ret. now rewrite Hf, E.
  - right. exists e. intros w. now apply CAPP_parse_failure.
Qed.

Lemma INCA_catching : catching INCA.parse_xml_file.
Proof.
  intros f. destruct (xml_tree f) as [root|e] eqn:Hf.
  - left. destruct (INCA_extract_keys root) as (data & E & K).
    destruct data as [|kv d]; [discriminate|]. exists kv, d. intros w.
    now apply INCA_parse_well_formed with (root := root).
  - right. exists e. intros w.
    unfold INCA.parse_xml_file, try_except, bind, lift, ret, emit. now rewrite Hf.
Qed.

Lemma CASS_catching : catching CASS.parse_xml_file.
Proof.
  intros f. destruct (xml_tree f) as [root|e] eqn:Hf.
  - left. destruct (CASS_extract_keys root) as (data & E & K).
    destruct data as [|kv d]; [discriminate|]. exists kv, d. intros w.
    now apply CASS_parse_well_formed with (root := root).
  - right. exists e. intros w.
    unfold CASS.parse_xml_file, try_except, bind, lift, ret, emit. now rewrite Hf.
Qed.

Lemma parser_catching script : catching (parser script).
Proof.
  destruct script; [apply CAPP_catching | apply INCA_catching | apply CASS_catching].
Qed.

Lemma records_cons parse f fs :
  records parse (f :: fs) = records parse [f] ++ records parse fs.
Proof. unfold records. cbn [flat_map]. now rewrite app_nil_r. Qed.

Lemma records_length parse xml_files :
  length (records parse xml_files) = length (filter (parses parse) xml_files).
Proof.
  unfold records, parses.
  induction xml_files as [|f fs IH]; [reflexivity|].
  cbn [flat_map filter].
  destruct (fst (parse f [])) as [[data|]|e]; cbn [app length]; now rewrite IH.
Qed.

(** *** The loop, exactly

    The records written and the batch left make up the batch at the
    start followed by the records of the files; the file grows by the
    lines of the records written, in that order; each file that does not
    parse is reported once; a total is reported after each batch. *)
Lemma loop_exact parse output_file batch_size xml_files :
  catching parse ->
  forall batch total w,
  exists batch' tr written,
    for_each xml_files (MainLoop.loop_body parse output_file batch_size) (batch, total) w
    = (Return (batch', total + length (records parse xml_files)), w ++ tr)
    /\ batch ++ records parse xml_files = written ++ batch'
    /\ length batch'
       = loop_rest batch_size (length batch) (length (records parse xml_files))
    /\ (forall rest,
          flushes_from None (tr ++ rest)
          = loop_sizes batch_size (length batch) (length (records parse xml_files))
            ++ flushes_from None rest)
    /\ (forall acc, content_from acc tr = acc ++ lines written)
    /\ parse_errors tr
       = map xml_path (filter (fun f => negb (parses parse f)) xml_files)
    /\ completed tr = []
    /\ processed tr
       = loop_totals batch_size (length batch) total (length (records parse xml_files)).
Proof.
  intros Hc. induction xml_files as [|f fs IH]; intros batch total w.
  - exists batch, [], []. cbn. unfold ret.
    rewrite !app_nil_r, Nat.add_0_r. repeat split; trivial.
    intros acc. now rewrite app_nil_r.
  - rewrite records_cons. cbn [filter map].
    destruct (Hc f) as [(kv & d & Hp)|(e & Hp)].
    + assert (R : records parse [f] = [kv :: d])
        by (unfold records; cbn [flat_map]; now rewrite Hp).
      assert (P : parses parse f = true) by (unfold parses; now rewrite Hp).
      rewrite R, P. cbn [negb length app loop_sizes loop_rest loop_totals].
      assert (L : length (batch ++ [kv :: d]) = S (length batch))
        by (rewrite length_app; cbn; lia).
      destruct (batch_size <=? S (length batch)) eqn:Hb.
      * destruct (IH [] (S total)
                    ((w ++ session (batch ++ [kv :: d]))
                       ++ [Log INFO (Processed (S total))]))
          as (batch' & tr & written & Hrun & Hrec & Hlen & Hfl & Hct & Herr & Hcomp & Hpr).
        exists batch',
          (session (batch ++ [kv :: d]) ++ Log INFO (Processed (S total)) :: tr),
          ((batch ++ [kv :: d]) ++ written).
        repeat split.
        -- cbn [for_each]. unfold bind at 1. unfold MainLoop.loop_body at 1.
           unfold bind at 1. rewrite Hp, L, Hb.
           unfold bind at 1. rewrite write_batch_session.
           unfold bind at 1. unfold emit at 1. unfold ret at 1.
           rewrite Hrun. f_equal; [|now rewrite <- !app_assoc].
           do 2 f_equal. lia.
        -- cbn [app] in Hrec. rewrite Hrec, <- !app_assoc. reflexivity.
        -- exact Hlen.
        -- intros rest. rewrite <- app_assoc, flushes_session.
           cbn [app flushes_from]. rewrite Hfl, L. reflexivity.
        -- intros acc. rewrite content_from_app, content_session_from.
           cbn [content_from]. rewrite Hct.
           rewrite (lines_app (batch ++ [kv :: d]) written), app_assoc. reflexivity.
        -- rewrite parse_errors_app, parse_errors_session. exact Herr.
        -- rewrite completed_app, completed_session. exact Hcomp.
        -- rewrite processed_app, processed_session.
           cbn [processed flat_map app]. f_equal. exact Hpr.
      * destruct (IH (batch ++ [kv :: d]) (S total) w)
          as (batch' & tr & written & Hrun & Hrec & Hlen & Hfl & Hct & Herr & Hcomp & Hpr).
        rewrite L in Hlen, Hfl, Hpr.
        exists batch', tr, written. repeat split; trivial.
        -- cbn [for_each]. unfold bind at 1. unfold MainLoop.loop_body at 1.
           unfold bind at 1. rewrite Hp, L, Hb. unfold ret at 1.
           rewrite Hrun. do 3 f_equal. lia.
        -- rewrite <- Hrec, <- app_assoc. reflexivity.
    + assert (R : records parse [f] = [])
        by (unfold records; cbn [flat_map]; now rewrite Hp).
      assert (P : parses parse f = false) by (unfold parses; now rewrite Hp).
      rewrite R, P. cbn [negb app map].
      destruct (IH batch total (w ++ [Log ERROR (ErrorParsing (xml_path f) e)]))
        as (batch' & tr & written & Hrun & Hrec & Hlen & Hfl & Hct & Herr & Hcomp & Hpr).
      exists batch', (Log ERROR (ErrorParsing (xml_path f) e) :: tr), written.
      repeat split; trivial.
      * cbn [for_each]. unfold bind at 1. unfold MainLoop.loop_body at 1.
        unfold bind at 1. rewrite Hp. unfold ret at 1.
        rewrite Hrun, <- app_assoc. reflexivity.
      * cbn [parse_errors flat_map app]. f_equal. exact Herr.
Qed.

(** The events from the emptying of the output file on. *)
Lemma process_exact parse output_file batch_size xml_files w :
  catching parse ->
  exists batch' tr written,
    MainLoop.process parse output_file batch_size xml_files w
    = (Return tt,
       w ++ Open ModeW :: Close
         :: tr ++ match batch' with [] => [] | _ :: _ => session batch' end
            ++ [Log INFO (Completed (length (records parse xml_files)));
                Log INFO DatasetSaved])
    /\ records parse xml_files = written ++ batch'
    /\ length batch' = loop_rest batch_size 0 (length (records parse xml_files))
    /\ (forall rest,
          flushes_from None (tr ++ rest)
          = loop_sizes batch_size 0 (length (records parse xml_files))
            ++ flushes_from None rest)
    /\ (forall acc, content_from acc tr = acc ++ lines written)
    /\ parse_errors tr
       = map xml_path (filter (fun f => negb (parses parse f)) xml_files)
    /\ completed tr = []
    /\ processed tr
       = loop_totals batch_size 0 0 (length (records parse xml_files)).
Proof.
  intros Hc.
  destruct (loop_exact parse output_file batch_size xml_files Hc [] 0
              ((w ++ [Open ModeW]) ++ [Close]))
    as (batch' & tr & written & Hrun & Hrec & Hlen & Hfl & Hct & Herr & Hcomp & Hpr).
  exists batch', tr, written. repeat split; trivial.
  unfold MainLoop.process, bind, emit. rewrite Hrun. cbn [Nat.add].
  destruct batch' as [|b batch'].
  - unfold ret. cbn [app]. rewrite <- !app_assoc. reflexivity.
  - rewrite write_batch_session. unfold ret. rewrite <- !app_assoc. reflexivity.
Qed.

(** What the end of [main] does: it stops at the test of the list, or
    it runs the loop. *)
Lemma main_end_cases script batch_size xml_files :
  (tests_the_list script = true /\ xml_files = []
   /\ main_end script batch_size xml_files = emit (Log ERROR NoXmlFiles))
  \/ ((tests_the_list script = false \/ xml_files <> [])
      /\ main_end script batch_size xml_files
         = MainLoop.process (parser script) (output_file script) batch_size xml_files).
Proof.
  unfold main_end. destruct (tests_the_list script); [|right; split; [now left | reflexivity]].
  destruct xml_files as [|f fs]; [left; now repeat split|].
  right. split; [right; discriminate | reflexivity].
Qed.

(** The whole of it for the observations of a run. *)
Lemma run_observed script batch_size xml_files w :
  tests_the_list script = false \/ xml_files <> [] ->
  let parse := parser script in
  let w' := snd (main_end script batch_size xml_files w) in
  let n := length (records parse xml_files) in
  fst (main_end script batch_size xml_files w) = Return tt
  /\ file_content w' = lines (records parse xml_files)
  /\ parse_errors w'
     = parse_errors w ++ map xml_path (filter (fun f => negb (parses parse f)) xml_files)
  /\ completed w' = completed w ++ [n]
  /\ processed w' = processed w ++ loop_totals batch_size 0 0 n
  /\ (w = [] ->
      flushes w'
      = loop_sizes batch_size 0 n
        ++ match loop_rest batch_size 0 n with O => [] | S r => [S r] end).
Proof.
  intros Hrun. cbv zeta.
  destruct (main_end_cases script batch_size xml_files) as [(T & E & _)|[_ ->]].
  { destruct Hrun as [Hrun|Hrun]; [congruence | contradiction]. }
  destruct (process_exact (parser script) (output_file script) batch_size xml_files w
              (parser_catching script))
    as (batch' & tr & written & -> & Hrec & Hlen & Hfl & Hct & Herr & Hcomp & Hpr).
  cbn [fst snd].
  set (rest := match batch' with [] => [] | _ :: _ => session batch' end).
  assert (S1 : parse_errors rest = [])
    by (subst rest; destruct batch'; [reflexivity | apply parse_errors_session]).
  assert (S2 : completed rest = [])
    by (subst rest; destruct batch'; [reflexivity | apply completed_session]).
  assert (S3 : processed rest = [])
    by (subst rest; destruct batch'; [reflexivity | apply processed_session]).
  assert (S4 : forall acc, content_from acc rest = acc ++ lines batch').
  { intros acc. subst rest. destruct batch' as [|b batch'].
    - cbn. now rewrite app_nil_r.
    - apply content_session_from. }
  assert (S5 : forall logs,
             flushes_from None (rest ++ Log INFO (Completed (length (records (parser script) xml_files))) :: logs)
             = match length batch' with O => [] | S r => [S r] end
               ++ flushes_from None logs).
  { intros logs. subst rest. destruct batch' as [|b batch']; [reflexivity|].
    rewrite flushes_session. reflexivity. }
  change (w ++ Open ModeW :: Close :: tr ++ rest
            ++ [Log INFO (Completed (length (records (parser script) xml_files)));
                Log INFO DatasetSaved])
    with (w ++ [Open ModeW; Close] ++ tr ++ rest
            ++ [Log INFO (Completed (length (records (parser script) xml_files)));
                Log INFO DatasetSaved]).
  split; [reflexivity|]. split; [|split; [|split; [|split]]].
  - unfold file_content. rewrite !content_from_app, Hct, S4. cbn [content_from app].
    now rewrite <- lines_app, <- Hrec.
  - rewrite !parse_errors_app, S1, Herr. cbn. now rewrite app_nil_r.
  - rewrite !completed_app, S2, Hcomp. reflexivity.
  - rewrite !processed_app, S3, Hpr. cbn [app processed flat_map].
    now rewrite app_nil_r.
  - intros ->. unfold flushes. cbn [app flushes_from].
    rewrite Hfl. cbn [app]. rewrite S5, Hlen. cbn [flushes_from]. now rewrite app_nil_r.
Qed.

(** *** The batches in closed form *)

Lemma div_step bs n : 0 < bs -> (bs + n) / bs = S (n / bs).
Proof.
  intros H. replace (bs + n) with (n + 1 * bs) by lia.
  rewrite Nat.div_add by lia. lia.
Qed.

Lemma mod_step bs n : 0 < bs -> (bs + n) mod bs = n mod bs.
Proof.
  intros H. replace (bs + n) with (n + 1 * bs) by lia.
  now rewrite Nat.Div0.mod_add.
Qed.

Lemma loop_sizes_closed bs n :
  forall b, b < bs -> loop_sizes bs b n = repeat bs ((b + n) / bs).
Proof.
  induction n as [|n IH]; intros b Hb; cbn [loop_sizes].
  - rewrite Nat.add_0_r, Nat.div_small by exact Hb. reflexivity.
  - destruct (bs <=? S b) eqn:E.
    + apply Nat.leb_le in E. assert (S b = bs) by lia. subst bs.
      rewrite IH by lia. cbn [Nat.add].
      replace (b + S n) with (S b + n) by lia.
      rewrite div_step by lia. reflexivity.
    + apply Nat.leb_gt in E. rewrite IH by exact E.
      now replace (S b + n) with (b + S n) by lia.
Qed.

Lemma loop_rest_closed bs n :
  forall b, b < bs -> loop_rest bs b n = (b + n) mod bs.
Proof.
  induction n as [|n IH]; intros b Hb; cbn [loop_rest].
  - rewrite Nat.add_0_r, Nat.mod_small by exact Hb. reflexivity.
  - destruct (bs <=? S b) eqn:E.
    + apply Nat.leb_le in E. assert (S b = bs) by lia. subst bs.
      rewrite IH by lia. cbn [Nat.add].
      replace (b + S n) with (S b + n) by lia.
      now rewrite mod_step by lia.
    + apply Nat.leb_gt in E. rewrite IH by exact E.
      now replace (S b + n) with (b + S n) by lia.
Qed.


Lemma loop_sizes_zero n :
  forall b, loop_sizes 0 b n = match n with 0 => [] | S n' => S b :: repeat 1 n' end.
Proof.
  induction n as [|n IH]; intros b; [reflexivity|].
  cbn [loop_sizes Nat.leb]. f_equal. rewrite IH. now destruct n.
Qed.

Lemma loop_rest_zero n : forall b, loop_rest 0 b (S n) = 0.
Proof.
  induction n as [|n IH]; intros b; [reflexivity|].
  change (loop_rest 0 b (S (S n))) with (loop_rest 0 0 (S n)). apply IH.
Qed.

(** *** json.dumps writes no control character *)

Lemma printable_app a b : printable a -> printable b -> printable (a ++ b).
Proof. intros Ha Hb. apply Forall_app. now split. Qed.

Lemma printable_check s :
  forallb (fun c => (32 <=? c)%N) s = true -> printable s.
Proof.
  intros H. apply Forall_forall. intros c Hc.
  rewrite forallb_forall in H. apply N.leb_le. now apply H.
Qed.

Lemma hex_digit_printable d : (32 <= Json.hex_digit d)%N.
Proof. unfold Json.hex_digit. destruct (d <? 10)%N; lia. Qed.

Lemma escape_char_printable c : printable (Json.escape_char c).
Proof.
  unfold Json.escape_char.
  repeat match goal with
         | |- context [if ?b then _ else _] => destruct b eqn:?
         end;
    try (apply printable_check; reflexivity).
  - repeat constructor; try lia; apply hex_digit_printable.
  - constructor; [|constructor]. apply N.ltb_ge. assumption.
Qed.

Lemma encode_str_printable s : printable (Json.encode_str s).
Proof.
  unfold Json.encode_str. apply printable_app; [apply printable_check; reflexivity|].
  apply printable_app; [|apply printable_check; reflexivity].
  induction s as [|c s IH]; [constructor|].
  cbn [flat_map]. apply printable_app; [apply escape_char_printable | exact IH].
Qed.

Lemma encode_item_printable kv : printable (Json.encode_item kv).
Proof.
  unfold Json.encode_item. apply printable_app; [apply encode_str_printable|].
  apply printable_app; [apply printable_check; reflexivity|].
  destruct (snd kv) as [s|]; cbn [Json.encode_value];
    [apply encode_str_printable | apply printable_check; reflexivity].
Qed.

Lemma dumps_printable d : printable (Json.dumps d).
Proof.
  unfold Json.dumps. apply printable_app; [apply printable_check; reflexivity|].
  apply printable_app; [|apply printable_check; reflexivity].
  induction d as [|kv d IH]; [constructor|].
  destruct d as [|kv' d']; [apply encode_item_printable|].
  change (Json.encode_items (kv :: kv' :: d'))
    with (Json.encode_item kv ++ lit ", " ++ Json.encode_items (kv' :: d')).
  apply printable_app; [apply encode_item_printable|].
  apply printable_app; [apply printable_check; reflexivity | exact IH].
Qed.

End RunFacts.

Import RunFacts.

(** The end of [main] of CAPP.py is the one the run of CAPP.py was
    followed on. *)
Lemma main_end_CAPP : main_end CAPP_py = CAPP.process_xml_files.
Proof. reflexivity. Qed.



(** X12. The output file after the end of [main] of CAPP.py, INCA.py and
    CASS.py, on a file system on which every operation goes through.
    The run returns.  When INCA.py or CASS.py finds no XML file it logs
    the error and returns at once: the output file is not touched.  In
    every other case the file is emptied and then holds exactly one line
    for each document that parsed, in the order of the files, whatever
    the batch size and whatever the file held before. *)
Theorem X12_output_file (script : Script)
    (batch_size : nat) (xml_files : list XmlFile) (w : World) :
  let run := main_end script batch_size xml_files w in
  let parse := parser script in
  fst run = Return tt
  /\ (tests_the_list script = true -> xml_files = [] ->
      snd run = w ++ [Log ERROR NoXmlFiles]
      /\ file_content (snd run) = file_content w)
  /\ (tests_the_list script = false \/ xml_files <> [] ->
      file_content (snd run) = lines (records parse xml_files)
      /\ line_count (file_content (snd run))
         = length (filter (parses parse) xml_files)).
Proof.
  cbv zeta.
  destruct (main_end_cases script batch_size xml_files) as [(T & E & M)|[H M]].
  - rewrite M. split; [reflexivity|]. split.
    + intros _ _. split; [reflexivity|]. unfold emit. cbn [snd].
      unfold file_content. now rewrite content_from_app.
    + intros [H|H]; [congruence | contradiction].
  - destruct (run_observed script batch_size xml_files w H) as (R & C & _).
    split; [exact R|]. split.
    + intros T E. destruct H as [H|H]; [congruence | contradiction].
    + intros _. split; [exact C|].
      now rewrite C, line_count_lines, records_length.
Qed.

Lemma X12_witness :
  tests_the_list INCA_py = true
  /\ snd (main_end INCA_py 1000 [] [Open ModeW; Write (lit "old"); Close])
     = [Open ModeW; Write (lit "old"); Close; Log ERROR NoXmlFiles]
  /\ file_content (snd (main_end INCA_py 1000 [] [Open ModeW; Write (lit "old"); Close]))
     = lit "old"
  /\ (tests_the_list CASS_py = false \/ six_files <> [])
  /\ line_count (file_content (snd (main_end CASS_py 2 six_files [])))
     = length (filter (parses CASS.parse_xml_file) six_files).
Proof.
  split; [reflexivity|].
  destruct (proj1 (proj2 (X12_output_file INCA_py 1000 []
                            [Open ModeW; Write (lit "old"); Close])) eq_refl eq_refl)
    as [T C].
  split; [exact T|]. split; [exact C|].
  assert (H : tests_the_list CASS_py = false \/ six_files <> [])
    by (right; discriminate).
  split; [exact H|].
  exact (proj2 (proj2 (proj2 (X12_output_file CASS_py 2 six_files [])) H)).
Defined.

(** X13. The batches of a run, in closed form, for the three scripts.
    With [n] documents that parse and a batch size of at least 1, the run
    appends [n / batch_size] batches of exactly [batch_size] records,
    then the [n mod batch_size] records left if there are any: no batch
    is larger than the batch size and only the last can be smaller.
    With a batch size of 0 every record is written on its own. *)
Theorem X13_batch_sizes (script : Script)
    (batch_size : nat) (xml_files : list XmlFile) :
  let w := snd (main_end script batch_size xml_files []) in
  let n := length (filter (parses (parser script)) xml_files) in
  (1 <= batch_size ->
   flushes w
   = repeat batch_size (n / batch_size)
     ++ match n mod batch_size with O => [] | S r => [S r] end)
  /\ (batch_size = 0 -> flushes w = repeat 1 n).
Proof.
  cbv zeta.
  assert (F : flushes (snd (main_end script batch_size xml_files []))
              = loop_sizes batch_size 0 (length (filter (parses (parser script)) xml_files))
                ++ match loop_rest batch_size 0
                           (length (filter (parses (parser script)) xml_files)) with
                   | O => []
                   | S r => [S r]
                   end).
  { destruct (main_end_cases script batch_size xml_files) as [(T & -> & M)|[H M]].
    - rewrite M. reflexivity.
    - destruct (run_observed script batch_size xml_files [] H) as (_ & _ & _ & _ & _ & Fl).
      rewrite <- records_length. now apply Fl. }
  rewrite F. set (n := length (filter (parses (parser script)) xml_files)).
  split.
  - intros Hb. rewrite loop_sizes_closed, loop_rest_closed by lia. reflexivity.
  - intros ->. rewrite loop_sizes_zero.
    destruct n as [|n]; [reflexivity|].
    now rewrite loop_rest_zero, app_nil_r.
Qed.

Lemma X13_witness :
  1 <= 4 /\
  flushes (snd (main_end INCA_py 4 six_files [])) = [4; 1].
Proof.
  split; [lia|].
  exact (proj1 (X13_batch_sizes INCA_py 4 six_files)
           (le_S _ _ (le_S _ _ (le_S _ _ (le_n 1))))).
Defined.



(** X15. A line of the dataset holds no control character: [json.dumps]
    escapes every character below U+0020, in the keys and in the values,
    so the line break the writer adds is the only one of the line. *)
Theorem X15_dumps_printable (item : dict) :
  printable (Json.dumps item)
  /\ ~ In newline (Json.dumps item)
  /\ line_count (Json.dumps item ++ [newline]) = 1.
Proof.
  assert (N : ~ In newline (Json.dumps item)).
  { intros H. pose proof (dumps_printable item) as P.
    unfold printable in P. rewrite Forall_forall in P.
    specialize (P _ H). unfold newline in P. lia. }
  split; [apply dumps_printable|]. split; [exact N|].
  unfold line_count. rewrite count_occ_app, (proj1 (count_occ_not_In N.eq_dec _ _) N).
  reflexivity.
Qed.

Module CNILFacts.

Lemma read_fields_fold m fields d :
  CNIL.read_fields (Some m) fields d
  = Return (fold_left
              (fun d field => setitem d (CNIL.lower field) (Some (CNIL_field m field)))
              fields d).
Proof.
  unfold CNIL.read_fields. revert d.
  induction fields as [|field fields IH]; intros d; [reflexivity|].
  cbn [rfor findtext fold_left]. unfold CNIL_field.
  destruct (find m [Child field]); cbn [rbind]; apply IH.
Qed.

(** The record, block by block. *)
Lemma extract_record root meta :
  find root [Self; Descendant "META_CNIL"] = Some meta ->
  exists data,
    CNIL.extract root [] = Return data
    /\ keys data = CNIL_keys root
    /\ Forall (fun kv => exists s, snd kv = Some s) data
    /\ (forall field,
          In field ["TITREFULL"; "NUMERO"; "NATURE_DELIB"; "DATE_TEXTE";
                    "DATE_PUBLI"; "ETAT_JURIDIQUE"] ->
          getitem data (CNIL.lower field) = Some (Some (CNIL_field meta field)))
    /\ (forall commun field,
          find root [Self; Descendant "META_COMMUN"] = Some commun ->
          In field ["ID"; "ORIGINE"; "URL"; "NATURE"] ->
          getitem data (CNIL.lower field) = Some (Some (CNIL_field commun field)))
    /\ (find root [Self; Descendant "META_COMMUN"] = None ->
        forall field, In field ["ID"; "ORIGINE"; "URL"; "NATURE"] ->
                      getitem data (CNIL.lower field) = None)
    /\ (find root [Self; Descendant "CONTENU"] = None ->
        getitem data "contenu" = None).
Proof.
  intros Hm. unfold CNIL.extract, CNIL_keys. rewrite Hm.
  destruct (find root [Self; Descendant "META_COMMUN"]) as [mc|];
    rewrite ?read_fields_fold; cbn [rbind]; rewrite read_fields_fold; cbn [rbind];
    destruct (find root [Self; Descendant "CONTENU"]) as [c|];
    eexists; (split; [reflexivity|]);
    (split; [reflexivity|]);
    (split; [repeat (apply Forall_cons; [eexists; reflexivity|]); apply Forall_nil|]);
    (split; [intros field [<-|[<-|[<-|[<-|[<-|[<-|[]]]]]]]; reflexivity|]);
    (split; [intros commun field [= <-] [<-|[<-|[<-|[<-|[]]]]]; reflexivity|]);
    (split; [intros H field [<-|[<-|[<-|[<-|[]]]]]; (reflexivity || discriminate)|]);
    intros H; (reflexivity || discriminate).
Qed.

Lemma parses_record xml_file :
  cnil_parses xml_file ->
  exists kv d, CNIL_records [xml_file] = [kv :: d]
               /\ forall w, CNIL.parse_cnil_xml_file xml_file w = (Return (kv :: d), w).
Proof.
  intros (root & data & Hr & He).
  destruct (find root [Self; Descendant "META_CNIL"]) as [meta|] eqn:Hm.
  - destruct (extract_record root meta Hm) as (data' & He' & K & _).
    rewrite He in He'. injection He' as <-.
    destruct data as [|kv d].
    + unfold CNIL_keys in K. destruct (find root [Self; Descendant "META_COMMUN"]);
        discriminate.
    + exists kv, d. split.
      * unfold CNIL_records. cbn [flat_map]. now rewrite Hr, He.
      * intros w. now apply CNIL_parse_well_formed with (root := root).
  - rewrite (CNIL_extract_without_block root Hm) in He. discriminate.
Qed.

Lemma CNIL_records_cons f fs : CNIL_records (f :: fs) = CNIL_records [f] ++ CNIL_records fs.
Proof. unfold CNIL_records. cbn [flat_map]. now rewrite app_nil_r. Qed.

Lemma loop_collects xml_files :
  Forall cnil_parses xml_files ->
  forall results w,
    for_each xml_files CNIL.loop_body results w
    = (Return (results ++ CNIL_records xml_files), w)
    /\ length (CNIL_records xml_files) = length xml_files.
Proof.
  induction 1 as [|f fs Hf _ IH]; intros results w.
  - cbn. unfold ret. now rewrite app_nil_r.
  - destruct (parses_record f Hf) as (kv & d & R & P).
    rewrite CNIL_records_cons, R.
    destruct (IH (results ++ [kv :: d]) w) as [E L]. split.
    + cbn [for_each]. unfold bind at 1. unfold CNIL.loop_body at 1. unfold bind at 1.
      rewrite P. cbv beta iota. unfold ret at 1.
      rewrite <- app_assoc in E. exact E.
    + cbn [app length]. now rewrite L.
Qed.

Lemma write_all items w :
  for_each items
    (fun (item : dict) (_ : unit) => emit (Write (Json.dumps item ++ [newline]))) tt w
  = (Return tt, w ++ map (fun item => Write (Json.dumps item ++ [newline])) items).
Proof.
  revert w. induction items as [|item items IH]; intros w.
  - cbn. unfold ret. now rewrite app_nil_r.
  - cbn [for_each map]. unfold bind, emit. rewrite IH, <- app_assoc. reflexivity.
Qed.

Lemma content_writes items acc :
  content_from acc (map (fun item => Write (Json.dumps item ++ [newline])) items ++ [Close])
  = acc ++ lines items.
Proof.
  revert acc. induction items as [|item items IH]; intros acc.
  - cbn. now rewrite app_nil_r.
  - cbn [map app content_from]. rewrite IH. unfold lines. cbn [map concat].
    now rewrite <- app_assoc.
Qed.

End CNILFacts.

Import CNILFacts.

(** X16. The record CNIL.py makes of a document that has a [META_CNIL]
    block.  Its keys are the four keys of [META_COMMUN] if that block is
    there, then the six keys of [META_CNIL], then ['contenu'] if there is
    a [CONTENU] element, in that order and no others; every value is a
    string; the value of a field is the text of the first child of that
    name as it stands in the document, neither stripped nor normalized,
    and the empty string when the child is missing or empty. *)
Theorem X16_cnil_record (root meta : Element) :
  find root [Self; Descendant "META_CNIL"] = Some meta ->
  exists data,
    CNIL.extract root [] = Return data
    /\ keys data = CNIL_keys root
    /\ Forall (fun kv => exists s, snd kv = Some s) data
    /\ (forall field,
          In field ["TITREFULL"; "NUMERO"; "NATURE_DELIB"; "DATE_TEXTE";
                    "DATE_PUBLI"; "ETAT_JURIDIQUE"] ->
          getitem data (CNIL.lower field) = Some (Some (CNIL_field meta field)))
    /\ (forall commun field,
          find root [Self; Descendant "META_COMMUN"] = Some commun ->
          In field ["ID"; "ORIGINE"; "URL"; "NATURE"] ->
          getitem data (CNIL.lower field) = Some (Some (CNIL_field commun field)))
    /\ (find root [Self; Descendant "META_COMMUN"] = None ->
        forall field, In field ["ID"; "ORIGINE"; "URL"; "NATURE"] ->
                      getitem data (CNIL.lower field) = None)
    /\ (find root [Self; Descendant "CONTENU"] = None ->
        getitem data "contenu" = None).
Proof. apply extract_record. Qed.

Lemma X16_witness :
  find cnil_no_commun [Self; Descendant "META_CNIL"]
  = Some (node "META_CNIL"
            [leaf "TITREFULL" "Deliberation 2020-001"; leaf "NUMERO" "2020-001"])
  /\ exists data,
       CNIL.extract cnil_no_commun [] = Return data
       /\ keys data = CNIL_keys cnil_no_commun.
Proof.
  split; [reflexivity|].
  destruct (X16_cnil_record cnil_no_commun _ eq_refl) as (data & E & K & _).
  exists data. now split.
Defined.

(** X17. A run of CNIL.py in which every document parses.  Nothing is
    written while the documents are read; then the message is logged,
    the output file is opened once, in write mode, one line is written
    for each document in the order of the files, and the file is
    closed.  No record is dropped by the test [if data], a record having
    at least the six keys of [META_CNIL]. *)
Theorem X17_cnil_run (xml_files : list XmlFile) (w : World) :
  Forall cnil_parses xml_files ->
  let run := CNIL.process_xml_files xml_files w in
  run = (Return tt,
         w ++ [Log INFO WritingResults; Open ModeW]
           ++ map (fun item => Write (Json.dumps item ++ [newline]))
                (CNIL_records xml_files)
           ++ [Close])
  /\ length (CNIL_records xml_files) = length xml_files
  /\ file_content (snd run) = lines (CNIL_records xml_files)
  /\ line_count (file_content (snd run)) = length xml_files.
Proof.
  intros H. cbv zeta.
  destruct (loop_collects xml_files H [] w) as [E L]. cbn [app] in E.
  assert (R : CNIL.process_xml_files xml_files w
              = (Return tt,
                 w ++ [Log INFO WritingResults; Open ModeW]
                   ++ map (fun item => Write (Json.dumps item ++ [newline]))
                        (CNIL_records xml_files)
                   ++ [Close])).
  { unfold CNIL.process_xml_files. unfold bind at 1. rewrite E.
    unfold bind at 1. unfold emit at 1. unfold bind at 1. unfold emit at 1.
    unfold bind at 1. rewrite write_all. unfold emit.
    rewrite <- !app_assoc. reflexivity. }
  rewrite R. cbn [snd]. repeat split; trivial.
  - unfold file_content. rewrite content_from_app. cbn [app content_from].
    apply (content_writes (CNIL_records xml_files) []).
  - unfold file_content. rewrite content_from_app. cbn [app content_from].
    rewrite (content_writes (CNIL_records xml_files) []). cbn [app].
    now rewrite line_count_lines.
Qed.

Lemma X17_witness :
  Forall cnil_parses [file "a.xml" cnil_no_commun; file "b.xml" cnil_with_contenu] /\
  line_count (file_content
                (snd (CNIL.process_xml_files
                        [file "a.xml" cnil_no_commun; file "b.xml" cnil_with_contenu] [])))
  = 2.
Proof.
  assert (H : Forall cnil_parses
                [file "a.xml" cnil_no_commun; file "b.xml" cnil_with_contenu]).
  { repeat constructor; eexists; eexists; split; reflexivity. }
  split; [exact H|].
  exact (proj2 (proj2 (proj2 (X17_cnil_run _ [] H)))).
Defined.

Module ListingFacts.

Import Re Str Scan ReFacts Listing.

Lemma split_cons sep c r :
  split sep (c :: r)
  = if (c =? sep)%N then [] :: split sep r
    else match split sep r with
         | p :: ps => (c :: p) :: ps
         | [] => [[c]]
         end.
Proof. reflexivity. Qed.

Lemma split_nonempty sep s : split sep s <> [].
Proof.
  destruct s as [|c r]; [discriminate|]. rewrite split_cons.
  destruct (c =? sep)%N; [discriminate|]. destruct (split sep r); discriminate.
Qed.

Lemma split_free sep s : Forall (fun p => ~ In sep p) (split sep s).
Proof.
  induction s as [|c r IH]; [repeat constructor; intros []|].
  rewrite split_cons. destruct (c =? sep)%N eqn:E.
  - constructor; [intros []|exact IH].
  - apply N.eqb_neq in E. destruct (split sep r) as [|p ps].
    + repeat constructor. intros [H|[]]. now apply E.
    + inversion IH as [|? ? Hp Hps]; subst. constructor; [|exact Hps].
      intros [H|H]; [now apply E | now apply Hp].
Qed.

Lemma split_one sep s : ~ In sep s -> split sep s = [s].
Proof.
  induction s as [|c r IH]; intros H; [reflexivity|].
  rewrite split_cons.
  destruct (c =? sep)%N eqn:E.
  - apply N.eqb_eq in E. subst. exfalso. apply H. now left.
  - rewrite IH; [reflexivity|]. intros Hin. apply H. now right.
Qed.

Lemma split_app sep p rest :
  ~ In sep p -> split sep (p ++ sep :: rest) = p :: split sep rest.
Proof.
  induction p as [|c p IH]; intros H.
  - cbn [app]. rewrite split_cons, N.eqb_refl. reflexivity.
  - cbn [app]. rewrite split_cons.
    destruct (c =? sep)%N eqn:E.
    + apply N.eqb_eq in E. subst. exfalso. apply H. now left.
    + rewrite IH; [reflexivity|]. intros Hin. apply H. now right.
Qed.

Lemma split_join parts :
  parts <> [] -> Forall (fun p => ~ In comma p) parts ->
  split comma (join_with [comma] parts) = parts.
Proof.
  induction parts as [|p ps IH]; intros Hne H; [contradiction|].
  inversion H as [|? ? Hp Hps]; subst.
  destruct ps as [|q qs]; [now apply split_one|].
  change (join_with [comma] (p :: q :: qs))
    with (p ++ comma :: join_with [comma] (q :: qs)).
  rewrite split_app by exact Hp. f_equal. apply IH; [discriminate | exact Hps].
Qed.

(** *** Stripping *)

Lemma lstrip_char_free ch s : ~ In ch s -> lstrip_char ch s = s.
Proof.
  destruct s as [|c r]; [reflexivity|]. intros H. cbn [lstrip_char].
  destruct (c =? ch)%N eqn:E; [|reflexivity].
  apply N.eqb_eq in E. subst. exfalso. apply H. now left.
Qed.

Lemma rstrip_char_free ch s : ~ In ch s -> rstrip_char ch s = s.
Proof.
  induction s as [|c r IH]; [reflexivity|]. intros H. cbn [rstrip_char].
  rewrite IH by (intros Hin; apply H; now right).
  destruct r; [|reflexivity].
  destruct (c =? ch)%N eqn:E; [|reflexivity].
  apply N.eqb_eq in E. subst. exfalso. apply H. now left.
Qed.

Lemma strip_char_free ch s : ~ In ch s -> strip_char ch s = s.
Proof.
  intros H. unfold strip_char. rewrite lstrip_char_free by exact H.
  now apply rstrip_char_free.
Qed.

Lemma strip_incl s c : In c (strip s) -> In c s.
Proof.
  unfold strip. intros H.
  destruct (lstrip_split s) as [chunk E].
  destruct (rstrip_split (lstrip s)) as [chunk' E'].
  rewrite E, E'. apply in_or_app. right. apply in_or_app. now left.
Qed.

Lemma lstrip_spaces l s : forallb is_space l = true -> lstrip (l ++ s) = lstrip s.
Proof.
  induction l as [|c l IH]; intros H; [reflexivity|].
  cbn [forallb] in H. apply andb_true_iff in H as [Hc Hl].
  cbn [app lstrip]. rewrite Hc. now apply IH.
Qed.

Lemma rstrip_spaces r : forallb is_space r = true -> rstrip r = [].
Proof.
  induction r as [|c r IH]; intros H; [reflexivity|].
  cbn [forallb] in H. apply andb_true_iff in H as [Hc Hr].
  rewrite rstrip_cons, IH, Hc by exact Hr. reflexivity.
Qed.

Lemma rstrip_app_spaces s r :
  forallb is_space r = true -> rstrip (s ++ r) = rstrip s.
Proof.
  intros H. induction s as [|c s IH]; [now apply rstrip_spaces|].
  cbn [app]. rewrite !rstrip_cons, IH. reflexivity.
Qed.

Lemma stripped_parts s : strip s = s -> lstrip s = s /\ rstrip s = s.
Proof.
  intros H.
  assert (L : lstripped s = true).
  { rewrite <- H. unfold strip. apply rstrip_lstripped, lstrip_lstripped. }
  pose proof (lstripped_fixed s L) as E. split; [exact E|].
  unfold strip in H. now rewrite E in H.
Qed.

Lemma strip_written e : well_written e -> strip (entry_text e) = archive e.
Proof.
  intros (Hb & Ha & Hs & _). unfold entry_text, strip.
  rewrite lstrip_spaces by exact Hb.
  destruct (stripped_parts _ Hs) as [L R].
  destruct (archive e) as [|c n] eqn:En.
  - cbn [app]. destruct (lstrip_split (trail e)) as [chunk E].
    assert (S : forallb is_space (lstrip (trail e)) = true).
    { rewrite E in Ha. rewrite forallb_app in Ha.
      now apply andb_true_iff in Ha as [_ Ha]. }
    now apply rstrip_spaces.
  - assert (Hc : is_space c = false).
    { cbn [lstrip] in L. destruct (is_space c) eqn:Hc; [|reflexivity].
      exfalso. pose proof (lstrip_length n) as Hl. rewrite L in Hl.
      cbn [length] in Hl. lia. }
    cbn [app lstrip]. rewrite Hc.
    change (c :: n ++ trail e) with ((c :: n) ++ trail e).
    rewrite rstrip_app_spaces by exact Ha. exact R.
Qed.

Lemma written_free e : well_written e -> ~ In comma (entry_text e).
Proof.
  intros (Hb & Ha & _ & Hn). unfold entry_text. intros H.
  assert (S : forall l, forallb is_space l = true -> ~ In comma l).
  { intros l Hl Hin. rewrite forallb_forall in Hl. now specialize (Hl _ Hin). }
  apply in_app_or in H as [H|H]; [now apply (S _ Hb)|].
  apply in_app_or in H as [H|H]; [now apply Hn | now apply (S _ Ha)].
Qed.

(** The second [strip] of the comprehension finds nothing to remove. *)
Lemma filenames_strip content :
  filenames content
  = filter (fun fname => truthy (Some fname)) (map strip (split comma content)).
Proof.
  unfold filenames. cbv zeta. f_equal.
  pose proof (split_free comma content) as F.
  induction (split comma content) as [|p ps IH]; [reflexivity|].
  inversion F as [|? ? Hp Hps]; subst. cbn [map]. f_equal; [|now apply IH].
  apply strip_char_free. intros H. apply Hp. now apply strip_incl.
Qed.

End ListingFacts.

Import ListingFacts.

(** X18. The names read from the list of archives.  Every name is
    non-empty, holds no comma and has no whitespace at either end; the
    second [strip(',')] of the comprehension never removes anything, a
    piece cut at the commas holding none. *)
Theorem X18_filenames (content : pystr) :
  Forall (fun fname => fname <> [] /\ ~ In Listing.comma fname /\ Str.strip fname = fname)
    (Listing.filenames content)
  /\ Listing.filenames content
     = filter (fun fname => truthy (Some fname))
         (map Str.strip (Listing.split Listing.comma content)).
Proof.
  split; [|apply filenames_strip].
  rewrite filenames_strip. apply Forall_forall. intros fname H.
  apply filter_In in H as [H T]. apply in_map_iff in H as (p & <- & Hp).
  repeat split.
  - intros E. now rewrite E in T.
  - intros Hin. pose proof (split_free Listing.comma content) as F.
    rewrite Forall_forall in F. apply (F p Hp). now apply strip_incl.
  - apply ReFacts.strip_idempotent.
Qed.

(** X19. Reading back a list that was written down.  When the entries
    are joined by commas, each name between two runs of whitespace (a
    space after the comma, a line break at the end, a trailing comma with
    nothing after it), the names read are the names written, in order,
    the empty ones left out. *)
Theorem X19_filenames_round_trip (entries : list Entry) :
  Forall well_written entries ->
  Listing.filenames (join_with [Listing.comma] (map entry_text entries))
  = filter (fun fname => truthy (Some fname)) (map archive entries).
Proof.
  intros H. rewrite filenames_strip.
  destruct entries as [|e es]; [reflexivity|].
  rewrite split_join.
  - f_equal. rewrite map_map. apply map_ext_in. intros a Ha.
    apply strip_written. rewrite Forall_forall in H. now apply H.
  - discriminate.
  - apply Forall_forall. intros p Hp. apply in_map_iff in Hp as (a & <- & Ha).
    apply written_free. rewrite Forall_forall in H. now apply H.
Qed.

Lemma X19_witness :
  Forall well_written
    [ {| lead := []; archive := lit "CAPP_20180315.tar.gz"; trail := [] |};
      {| lead := lit " "; archive := lit "CAPP_20180412.tar.gz"; trail := [] |};
      {| lead := []; archive := []; trail := [newline] |} ]
  /\ Listing.filenames (lit "CAPP_20180315.tar.gz, CAPP_20180412.tar.gz," ++ [newline])
     = [lit "CAPP_20180315.tar.gz"; lit "CAPP_20180412.tar.gz"].
Proof.
  assert (H : Forall well_written
    [ {| lead := []; archive := lit "CAPP_20180315.tar.gz"; trail := [] |};
      {| lead := lit " "; archive := lit "CAPP_20180412.tar.gz"; trail := [] |};
      {| lead := []; archive := []; trail := [newline] |} ]).
  { repeat constructor; cbn; intuition discriminate. }
  split; [exact H|].
  exact (X19_filenames_round_trip _ H).
Defined.

(** X20. A list without a comma is read as one name: names written one
    to a line are not told apart, and a list of whitespace only gives no
    name at all. *)
Theorem X20_filenames_without_comma (content : pystr) :
  ~ In Listing.comma content ->
  Listing.filenames content
  = match Str.strip content with
    | [] => []
    | _ :: _ => [Str.strip content]
    end.
Proof.
  intros H. rewrite filenames_strip, split_one by exact H.
  cbn [map filter truthy]. now destruct (Str.strip content).
Qed.

Lemma X20_witness :
  ~ In Listing.comma (lit "a.tar.gz" ++ [newline] ++ lit "b.tar.gz" ++ [newline])
  /\ Listing.filenames (lit "a.tar.gz" ++ [newline] ++ lit "b.tar.gz" ++ [newline])
     = [lit "a.tar.gz" ++ [newline] ++ lit "b.tar.gz"].
Proof.
  assert (H : ~ In Listing.comma (lit "a.tar.gz" ++ [newline] ++ lit "b.tar.gz" ++ [newline])).
  { cbn. intuition discriminate. }
  split; [exact H|].
  exact (X20_filenames_without_comma _ H).
Defined.

Module TarFacts.

Import Re Str Scan ReFacts GetTarFiles.

Section Pattern.

Variable is_word : N -> bool.
Hypothesis dot : is_word 46 = false.

Lemma in_class_dot : in_class is_word 46 = false.
Proof. unfold in_class. now rewrite dot. Qed.

Lemma starts_with_refl p rest : starts_with p (p ++ rest) = true.
Proof.
  induction p as [|x p IH]; [reflexivity|].
  cbn [app starts_with]. now rewrite N.eqb_refl.
Qed.

(** What is found is a non-empty run of the class followed by the
    suffix, and it stands in the text. *)
Lemma findall_from_sound s :
  forall skip run,
    forallb (in_class is_word) run = true ->
    Forall (fun m => (exists stem, m = stem ++ tar_gz /\ stem <> []
                                   /\ forallb (in_class is_word) stem = true)
                     /\ contains m (run ++ s) = true)
      (findall_from is_word skip run s).
Proof.
  induction s as [|c r IH]; intros skip run Hrun; [constructor|].
  cbn [findall_from]. destruct skip as [|k].
  - destruct (in_class is_word c) eqn:Hc.
    + replace (run ++ c :: r) with ((run ++ [c]) ++ r) by now rewrite <- app_assoc.
      apply IH. rewrite forallb_app, Hrun. cbn. now rewrite Hc.
    + assert (R : Forall (fun m => (exists stem, m = stem ++ tar_gz /\ stem <> []
                                      /\ forallb (in_class is_word) stem = true)
                                   /\ contains m (run ++ c :: r) = true)
                    (findall_from is_word 0 [] r)).
      { eapply Forall_impl; [|apply (IH 0 [] eq_refl)].
        intros m [Hm Hin]. split; [exact Hm|].
        apply contains_app_r. rewrite contains_cons. cbn [app] in Hin.
        rewrite Hin. apply orb_true_r. }
      destruct run as [|x run]; [exact R|].
      destruct (starts_with tar_gz (c :: r)) eqn:Hs; [|exact R].
      constructor.
      * split; [exists (x :: run); repeat split; [discriminate | exact Hrun]|].
        destruct (CleanFacts.starts_with_split _ _ Hs) as [rest ->].
        rewrite app_assoc. apply contains_app_l.
        destruct ((x :: run) ++ tar_gz) as [|y l] eqn:E; [discriminate|].
        rewrite contains_cons, <- E.
        replace ((x :: run) ++ tar_gz) with (((x :: run) ++ tar_gz) ++ []) at 2
          by apply app_nil_r.
        now rewrite starts_with_refl.
      * eapply Forall_impl; [|apply (IH 6 [] eq_refl)].
        intros m [Hm Hin]. split; [exact Hm|].
        apply contains_app_r. rewrite contains_cons. cbn [app] in Hin.
        rewrite Hin. apply orb_true_r.
  - eapply Forall_impl; [|apply (IH k [] eq_refl)].
    intros m [Hm Hin]. split; [exact Hm|].
    apply contains_app_r. rewrite contains_cons. cbn [app] in Hin.
    rewrite Hin. apply orb_true_r.
Qed.

(** A run of the class is read into [run]. *)
Lemma findall_from_run stem rest :
  forallb (in_class is_word) stem = true ->
  forall run,
    findall_from is_word 0 run (stem ++ rest)
    = findall_from is_word 0 (run ++ stem) rest.
Proof.
  induction stem as [|c stem IH]; intros H run; [now rewrite app_nil_r|].
  cbn [forallb] in H. apply andb_prop in H. destruct H as [Hc Hs].
  cbn [app findall_from]. rewrite Hc, (IH Hs), <- app_assoc. reflexivity.
Qed.

(** A name is found, and the scan goes on after it. *)
Lemma findall_from_name stem rest :
  stem <> [] -> forallb (in_class is_word) stem = true ->
  findall_from is_word 0 [] (stem ++ tar_gz ++ rest)
  = (stem ++ tar_gz) :: findall_from is_word 0 [] rest.
Proof.
  intros Hne Hs. rewrite (findall_from_run stem _ Hs). cbn [app].
  destruct stem as [|x stem]; [contradiction|].
  change (tar_gz ++ rest) with (46%N :: lit "tar.gz" ++ rest).
  cbn [findall_from]. rewrite in_class_dot.
  change (46%N :: lit "tar.gz" ++ rest) with (tar_gz ++ rest).
  rewrite starts_with_refl. reflexivity.
Qed.

(** A gap is passed over, whatever the run before it. *)
Lemma findall_from_gap b rest :
  gap is_word b = true -> b <> [] ->
  forall run,
    findall_from is_word 0 run (b ++ rest) = findall_from is_word 0 [] rest.
Proof.
  induction b as [|c b IH]; intros G Hne run; [contradiction|].
  destruct b as [|d b].
  - cbn [gap] in G. apply andb_prop in G. destruct G as [Hc Hd].
    apply negb_true_iff in Hc, Hd.
    cbn [app findall_from]. rewrite Hc.
    assert (S : starts_with tar_gz (c :: rest) = false).
    { unfold tar_gz. cbn [lit list_ascii_of_string map starts_with].
      rewrite N.eqb_sym in Hd. change (N_of_ascii ".") with 46%N. now rewrite Hd. }
    rewrite S. now destruct run.
  - change (gap is_word (c :: d :: b)) with (negb (c =? 46)%N && gap is_word (d :: b)) in G.
    apply andb_prop in G. destruct G as [Hd G]. apply negb_true_iff in Hd.
    change ((c :: d :: b) ++ rest) with (c :: (d :: b) ++ rest).
    cbn [findall_from]. destruct (in_class is_word c).
    + apply IH; [exact G | discriminate].
    + assert (S : starts_with tar_gz (c :: (d :: b) ++ rest) = false).
      { unfold tar_gz. cbn [lit list_ascii_of_string map starts_with].
        rewrite N.eqb_sym in Hd. change (N_of_ascii ".") with 46%N. now rewrite Hd. }
      rewrite S.
      destruct run; apply IH; (exact G || discriminate).
Qed.

Lemma findall_from_gap_any b rest :
  gap is_word b = true ->
  findall_from is_word 0 [] (b ++ rest) = findall_from is_word 0 [] rest.
Proof.
  intros G. destruct b as [|c b]; [reflexivity|].
  apply findall_from_gap; [exact G | discriminate].
Qed.

Lemma findall_page before items :
  gap is_word before = true ->
  Forall (fun item => fst item <> []
                      /\ forallb (in_class is_word) (fst item) = true
                      /\ gap is_word (snd item) = true) items ->
  findall is_word (before ++ page items)
  = map (fun item => fst item ++ tar_gz) items.
Proof.
  intros G H. unfold findall. rewrite (findall_from_gap_any _ _ G). clear G.
  induction H as [|[stem b] items (Hne & Hs & Hb) _ IH]; [reflexivity|].
  cbn [page map fst snd] in *. rewrite (findall_from_name stem _ Hne Hs).
  f_equal. rewrite (findall_from_gap_any _ _ Hb). exact IH.
Qed.

End Pattern.

End TarFacts.

(** X21. The archive names [get_tar_files] returns.  Each one is a
    non-empty run of word characters and hyphens followed by [.tar.gz],
    it stands in the page, and it holds no ['/']. *)
Theorem X21_tar_file_names (is_word : N -> bool)
    (html_content : pystr) (remote_files : list pystr) :
  is_word 46%N = false -> is_word 47%N = false ->
  GetTarFiles.get_tar_files is_word html_content remote_files ->
  Forall (fun f =>
            (exists stem, f = stem ++ GetTarFiles.tar_gz /\ stem <> []
                          /\ forallb (GetTarFiles.in_class is_word) stem = true)
            /\ Scan.contains f html_content = true
            /\ ~ In 47%N f) remote_files.
Proof.
  intros Hdot Hslash [_ Hmem]. apply Forall_forall. intros f Hf.
  apply Hmem in Hf.
  pose proof (TarFacts.findall_from_sound is_word html_content 0 [] eq_refl) as S.
  rewrite Forall_forall in S. destruct (S f Hf) as [(stem & -> & Hne & Hs) Hc].
  split; [now exists stem|]. split; [exact Hc|].
  intros Hin. apply in_app_or in Hin. destruct Hin as [Hin|Hin].
  - rewrite forallb_forall in Hs. specialize (Hs _ Hin).
    unfold GetTarFiles.in_class in Hs. now rewrite Hslash in Hs.
  - cbn in Hin. intuition discriminate.
Qed.

Lemma X21_witness :
  ascii_word 46%N = false /\ ascii_word 47%N = false /\
  GetTarFiles.get_tar_files ascii_word
    (lit "<a href='CNIL_20240101-120000.tar.gz'>CNIL_20240101-120000.tar.gz</a>")
    [lit "CNIL_20240101-120000.tar.gz"]
  /\ ~ In 47%N (lit "CNIL_20240101-120000.tar.gz").
Proof.
  assert (H : GetTarFiles.get_tar_files ascii_word
    (lit "<a href='CNIL_20240101-120000.tar.gz'>CNIL_20240101-120000.tar.gz</a>")
    [lit "CNIL_20240101-120000.tar.gz"]).
  { split; [repeat constructor; intros []|].
    intros f. vm_compute. tauto. }
  split; [reflexivity|]. split; [reflexivity|]. split; [exact H|].
  pose proof (X21_tar_file_names ascii_word _ _ eq_refl eq_refl H) as F.
  inversion F as [|? ? (_ & _ & N) _]. exact N.
Defined.

(** X22. Reading a page back.  On a page made of archive names with gaps
    between them (stretches without ['.'] that end outside the class,
    such as the markup around a link), the matches are the names of the
    page, in order and with their repetitions; so [get_tar_files] returns
    exactly the names of the page, each once. *)
Theorem X22_tar_files_of_a_page (is_word : N -> bool)
    (before : pystr) (items : list (pystr * pystr)) (remote_files : list pystr) :
  is_word 46%N = false ->
  gap is_word before = true ->
  Forall (fun item => fst item <> []
                      /\ forallb (GetTarFiles.in_class is_word) (fst item) = true
                      /\ gap is_word (snd item) = true) items ->
  GetTarFiles.findall is_word (before ++ page items)
  = map (fun item => fst item ++ GetTarFiles.tar_gz) items
  /\ (GetTarFiles.get_tar_files is_word (before ++ page items) remote_files
      <-> NoDup remote_files
          /\ forall f, In f remote_files
                       <-> exists item, In item items /\ f = fst item ++ GetTarFiles.tar_gz).
Proof.
  intros Hdot G H.
  pose proof (TarFacts.findall_page is_word Hdot before items G H) as E.
  split; [exact E|]. unfold GetTarFiles.get_tar_files. rewrite E.
  assert (I : forall f,
    In f (map (fun item => fst item ++ GetTarFiles.tar_gz) items)
    <-> exists item, In item items /\ f = fst item ++ GetTarFiles.tar_gz).
  { intros f. rewrite in_map_iff. split.
    - intros (item & A & B). exists item. now split.
    - intros (item & A & B). exists item. now split. }
  split; intros [N M]; (split; [exact N|]); intros f.
  - now rewrite M, I.
  - now rewrite M, I.
Qed.

Lemma X22_witness :
  ascii_word 46%N = false /\
  GetTarFiles.findall ascii_word
    (lit "<a href='" ++ page [(lit "CNIL_2024", lit "'>"); (lit "CNIL_2024", lit "</a> ")])
  = [lit "CNIL_2024.tar.gz"; lit "CNIL_2024.tar.gz"].
Proof.
  split; [reflexivity|].
  refine (proj1 (X22_tar_files_of_a_page ascii_word (lit "<a href='")
                   [(lit "CNIL_2024", lit "'>"); (lit "CNIL_2024", lit "</a> ")] []
                   eq_refl eq_refl _)).
  repeat constructor; discriminate.
Defined.
